(** * CRUD drivers of the Windows Web App resource and the Linux Web App data source

    A shallow embedding of
    - [internal/services/appservice/windows_web_app_resource.go]
      (Create, Read, Update and Delete of [WindowsWebAppResource]), and
    - the Linux Web App data source ([LinuxWebAppDataSource.Read]).

    The drivers are straight-line sequences of remote calls.  They are
    embedded as computations in a small monad that threads the ambient
    effects of one invocation (the remote calls issued, the log, the
    resource ID and the encoded state) and that distinguishes a returned
    Go [error] from a run-time panic (nil dereference).

    The remote management API, the plugin host and the helper packages
    ([parse], [helpers], [tags], [location], [utils]) are parameters of the
    drivers; the theorems hold for every answer they can give.  The file
    has the model first (types, effects, collaborators, drivers), then the
    vocabulary of the properties and a concrete deployment, then the
    proofs. *)

From stdpp Require Import gmap strings list.

Local Open Scope string_scope.
Local Open Scope list_scope.

(** ** Go values

    A Go pointer [*T] is an [option T], [nil] being [None]; a nilable map
    is an [option (gmap _ _)].  [utils.String] and [utils.Bool] return the
    address of their argument, hence [Some]. *)

(** The payloads the drivers only carry from one collaborator to another:
    the blocks of the local model (package [helpers]) and the property bags
    of the remote representation (package [web] of the vendor SDK). *)
Class Payloads : Type := {
  (* helpers: blocks of the flat local model *)
  helpers_AuthSettings : Type;
  helpers_Backup : Type;
  helpers_Identity : Type;
  helpers_LogsConfig : Type;
  helpers_SiteConfigWindows : Type;
  helpers_SiteConfigLinux : Type;
  helpers_StorageAccount : Type;
  helpers_ConnectionString : Type;
  helpers_SiteCredential : Type;
  (* web: property bags of the remote representation *)
  web_SiteAuthSettingsProperties : Type;
  web_BackupRequestProperties : Type;
  web_SiteLogsConfigProperties : Type;
  web_AzureStorageInfoValue : Type;
  web_ConnStringValueTypePair : Type;
  web_SiteConfig : Type;
  web_ManagedServiceIdentity : Type;
  web_UserProperties : Type;
}.

(** ** Resource identifiers (package [parse]) *)
Module parse.

Record WebAppId : Type := NewWebAppID {
  WebAppId_SubscriptionId : string;
  WebAppId_ResourceGroup : string;
  WebAppId_SiteName : string;
}.

Record ServicePlanId : Type := NewServicePlanID {
  ServicePlanId_SubscriptionId : string;
  ServicePlanId_ResourceGroup : string;
  ServicePlanId_ServerfarmName : string;
}.

Record AppServiceEnvironmentId : Type := NewAppServiceEnvironmentID {
  AppServiceEnvironmentId_SubscriptionId : string;
  AppServiceEnvironmentId_ResourceGroup : string;
  AppServiceEnvironmentId_HostingEnvironmentName : string;
}.

End parse.

(** ** Errors and log entries

    [fmt.Errorf] and the logger's [Warnf]/[Infof] are kept symbolic: the
    format string is the one of the source and the arguments are listed
    unrendered, so that no formatting verb has to be interpreted. *)
Inductive error : Type :=
  | ErrRemote (msg : string)
      (* an error value produced by a collaborator: the remote API, the
         decoder or encoder of the plugin host, an ID parser, a helper *)
  | Errorf (format : string) (args : list fmtarg)
      (* fmt.Errorf(format, args...) *)
  | RequiresImport (resourceType : string) (id : parse.WebAppId)
      (* metadata.ResourceRequiresImport(resourceType, id) *)
with fmtarg : Type :=
  | ArgString (s : string)
  | ArgWebAppId (id : parse.WebAppId)
  | ArgWebAppIdPtr (id : option parse.WebAppId)
  | ArgServicePlanId (id : option parse.ServicePlanId)
  | ArgError (e : error).

Inductive loglevel : Type := LevelInfo | LevelWarn.

Record logentry : Type := Log {
  log_level : loglevel;
  log_format : string;
  log_args : list fmtarg;
}.

(** [Errorf] with the cause as last argument is what the spec calls a
    wrapped error. *)
Definition wraps (e cause : error) : Prop :=
  ∃ format args, e = Errorf format (args ++ [ArgError cause]).

(** ** Remote representation (package [web]) *)
Module web.
Section Types.
Context `{Payloads}.

(** [autorest.Response]: the HTTP status code of the embedded
    [*http.Response], [None] when there is none. *)
Definition Response : Type := option Z.

Record StringDictionary : Type := {
  StringDictionary_Response : Response;
  StringDictionary_Properties : option (gmap string (option string));
}.

Record SiteAuthSettings : Type := {
  SiteAuthSettings_Response : Response;
  SiteAuthSettings_Properties : option web_SiteAuthSettingsProperties;
}.

Record SiteLogsConfig : Type := {
  SiteLogsConfig_Response : Response;
  SiteLogsConfig_Properties : option web_SiteLogsConfigProperties;
}.

Record BackupRequest : Type := {
  BackupRequest_Response : Response;
  BackupRequest_Properties : option web_BackupRequestProperties;
}.

Record AzureStoragePropertyDictionaryResource : Type := {
  AzureStoragePropertyDictionaryResource_Response : Response;
  AzureStoragePropertyDictionaryResource_Properties :
    option (gmap string (option web_AzureStorageInfoValue));
}.

Record ConnectionStringDictionary : Type := {
  ConnectionStringDictionary_Response : Response;
  ConnectionStringDictionary_Properties :
    option (gmap string (option web_ConnStringValueTypePair));
}.

Record SiteConfigResource : Type := {
  SiteConfigResource_Response : Response;
  SiteConfigResource_SiteConfig : option web_SiteConfig;
}.

Record User : Type := {
  User_Response : Response;
  User_Properties : option web_UserProperties;
}.

Record SiteProperties : Type := {
  ServerFarmID : option string;
  Enabled : option bool;
  HTTPSOnly : option bool;
  SiteProperties_SiteConfig : option web_SiteConfig;
  ClientAffinityEnabled : option bool;
  ClientCertEnabled : option bool;
  ClientCertMode : string;
  CustomDomainVerificationID : option string;
  DefaultHostName : option string;
  OutboundIPAddresses : option string;
  PossibleOutboundIPAddresses : option string;
}.

Record Site : Type := {
  Site_Response : Response;
  Site_SiteProperties : option SiteProperties;
  Site_Identity : option web_ManagedServiceIdentity;
  Site_Kind : option string;
  Site_Location : option string;
  Site_Tags : option (gmap string (option string));
}.

Record HostingEnvironmentProfile : Type := {
  HostingEnvironmentProfile_ID : option string;
}.

Record AppServicePlanProperties : Type := {
  AppServicePlanProperties_HostingEnvironmentProfile :
    option HostingEnvironmentProfile;
}.

(** The properties of a plan are an embedded pointer: a field of the
    properties that is read on the plan dereferences it. *)
Record AppServicePlan : Type := {
  AppServicePlan_Response : Response;
  AppServicePlan_AppServicePlanProperties : option AppServicePlanProperties;
}.

Record AppServiceEnvironment : Type := {
  DNSSuffix : option string;
}.

Record AppServiceEnvironmentResource : Type := {
  AppServiceEnvironmentResource_Response : Response;
  AppServiceEnvironmentResource_AppServiceEnvironment :
    option AppServiceEnvironment;
}.

Inductive CheckNameResourceTypes : Type :=
  | CheckNameResourceTypesMicrosoftWebsites.

Record ResourceNameAvailabilityRequest : Type := {
  Request_Name : option string;
  Request_Type : CheckNameResourceTypes;
  Request_IsFqdn : option bool;
}.

Record ResourceNameAvailability : Type := {
  NameAvailable : option bool;
  Message : option string;
}.

End Types.
End web.


(** ** Helpers of package [utils] *)
Module utils.

(** Modelled from the spec: [utils.ResponseWasNotFound] is not under src/;
    a response reports NotFound (the object is missing on the remote
    system) when it carries the HTTP status 404, and never when there is no
    HTTP response at all. *)
Definition ResponseWasNotFound (resp : web.Response) : bool :=
  match resp with
  | Some code => bool_decide (code = 404%Z)
  | None => false
  end.

End utils.

(** ** The effects of one driver invocation *)

(** What a Go function body produces: it returns (a value, or a non-nil
    [error]) or it panics on a nil dereference. *)
Inductive result (A : Type) : Type :=
  | Ok (a : A)
  | Err (e : error)
  | Panic.
Arguments Ok {A} a.
Arguments Err {A} e.
Arguments Panic {A}.

(** The long-running operations whose completion a driver waits for. *)
Inductive operation : Type := OpCreateOrUpdate | OpListPublishingCredentials.

Section Effects.
Context `{Payloads}.

(** A remote call, with the arguments the driver passes. *)
Inductive Call : Type :=
  | CallGet (resourceGroup siteName : string)
  | CallServicePlanGet (resourceGroup serverfarmName : string)
  | CallAppServiceEnvironmentGet (resourceGroup hostingEnvironmentName : string)
  | CallCheckNameAvailability (request : web.ResourceNameAvailabilityRequest)
  | CallCreateOrUpdate (resourceGroup siteName : string) (siteEnvelope : web.Site)
  | CallWaitForCompletionRef (op : operation)
  | CallResult (op : operation)
  | CallUpdateMetadata (resourceGroup siteName : string)
      (metadata : web.StringDictionary)
  | CallUpdateApplicationSettings (resourceGroup siteName : string)
      (appSettings : web.StringDictionary)
  | CallUpdateAuthSettings (resourceGroup siteName : string)
      (siteAuthSettings : web.SiteAuthSettings)
  | CallUpdateDiagnosticLogsConfig (resourceGroup siteName : string)
      (siteLogsConfig : web.SiteLogsConfig)
  | CallUpdateBackupConfiguration (resourceGroup siteName : string)
      (request : web.BackupRequest)
  | CallDeleteBackupConfiguration (resourceGroup siteName : string)
  | CallUpdateAzureStorageAccounts (resourceGroup siteName : string)
      (azureStorageAccounts : web.AzureStoragePropertyDictionaryResource)
  | CallUpdateConnectionStrings (resourceGroup siteName : string)
      (connectionStrings : web.ConnectionStringDictionary)
  | CallDelete (resourceGroup siteName : string)
      (deleteMetrics deleteEmptyServerFarm : option bool)
  | CallGetConfiguration (resourceGroup siteName : string)
  | CallGetAuthSettings (resourceGroup siteName : string)
  | CallGetBackupConfiguration (resourceGroup siteName : string)
  | CallGetDiagnosticLogsConfiguration (resourceGroup siteName : string)
  | CallListApplicationSettings (resourceGroup siteName : string)
  | CallListAzureStorageAccounts (resourceGroup siteName : string)
  | CallListConnectionStrings (resourceGroup siteName : string)
  | CallListPublishingCredentials (resourceGroup siteName : string)
  | CallListMetadata (resourceGroup siteName : string).

(** What the plugin host holds as the ID of the resource. *)
Inductive idstate : Type :=
  | IdUntouched                     (* as the host passed it in *)
  | IdSet (id : parse.WebAppId)     (* metadata.SetID(id) *)
  | IdRemoved.                      (* removed from the local state *)

(** The observable effects so far; [St] is the model type of the driver. *)
Record World (St : Type) : Type := MkWorld {
  calls : list Call;           (* remote calls, oldest first *)
  logs : list logentry;        (* log entries, oldest first *)
  resourceId : idstate;
  encoded : option St;         (* the state given to metadata.Encode *)
}.

Definition initial {St : Type} : World St :=
  MkWorld St [] [] IdUntouched None.

(** A driver body: from the effects so far to an outcome and the effects
    after it.  A failure or a panic stops the body and keeps the effects
    that happened before it. *)
Definition M (St A : Type) : Type := World St → result A * World St.

#[export] Instance M_ret {St} : MRet (M St) :=
  λ A (a : A) w, (Ok a, w).

#[export] Instance M_bind {St} : MBind (M St) :=
  λ A B (k : A → M St B) (m : M St A) w,
    match m w with
    | (Ok a, w') => k a w'
    | (Err e, w') => (Err e, w')
    | (Panic, w') => (Panic, w')
    end.

(** [return err] with a non-nil error. *)
Definition fail {St A} (e : error) : M St A := λ w, (Err e, w).

(** A nil dereference. *)
Definition panic {St A} : M St A := λ w, (Panic, w).

(** [*p] *)
Definition deref {St A} (p : option A) : M St A :=
  match p with
  | Some a => mret a
  | None => panic
  end.

(** [if err != nil { return wrap(err) }] *)
Definition check {St} (err : option error) (wrap : error → error) : M St unit :=
  match err with
  | Some e => fail (wrap e)
  | None => mret tt
  end.

(** Issue a remote call: it is appended to the calls, and the answer of the
    remote system is handed to the driver. *)
Definition remote {St A} (c : Call) (answer : A) : M St A :=
  λ w, (Ok answer,
        MkWorld St (calls St w ++ [c]) (logs St w) (resourceId St w) (encoded St w)).

Definition Warnf {St} (format : string) (args : list fmtarg) : M St unit :=
  λ w, (Ok tt,
        MkWorld St (calls St w) (logs St w ++ [Log LevelWarn format args])
                (resourceId St w) (encoded St w)).

Definition Infof {St} (format : string) (args : list fmtarg) : M St unit :=
  λ w, (Ok tt,
        MkWorld St (calls St w) (logs St w ++ [Log LevelInfo format args])
                (resourceId St w) (encoded St w)).

End Effects.

Arguments MkWorld {_ St}.
Arguments calls {_ St}.
Arguments logs {_ St}.
Arguments resourceId {_ St}.
Arguments encoded {_ St}.

(** ** Collaborators

    The remote management API, the plugin host and the helper packages are
    outside the drivers.  They are taken as parameters: every theorem below
    holds whatever they answer.  A client method is a function of its
    arguments; within one invocation a driver calls each method at most
    once, so this covers any remote system. *)
Section Collaborators.
Context `{Payloads}.

(** The handle of a long-running create or update. *)
Record SitesCreateOrUpdateFuture : Type := {
  CreateOrUpdateFuture_WaitForCompletionRef : option error;
}.

(** The handle of the asynchronous listing of the publishing credentials. *)
Record SitesListPublishingCredentialsFuture : Type := {
  ListPublishingCredentialsFuture_WaitForCompletionRef : option error;
  ListPublishingCredentialsFuture_Result : web.User * option error;
}.

Record WebAppsClient : Type := {
  WebApps_Get : string → string → web.Site * option error;
  WebApps_CheckNameAvailability :
    web.ResourceNameAvailabilityRequest →
    web.ResourceNameAvailability * option error;
  WebApps_CreateOrUpdate :
    string → string → web.Site → SitesCreateOrUpdateFuture * option error;
  WebApps_UpdateMetadata :
    string → string → web.StringDictionary → option error;
  WebApps_UpdateApplicationSettings :
    string → string → web.StringDictionary → option error;
  WebApps_UpdateAuthSettings :
    string → string → web.SiteAuthSettings → option error;
  WebApps_UpdateDiagnosticLogsConfig :
    string → string → web.SiteLogsConfig → option error;
  WebApps_UpdateBackupConfiguration :
    string → string → web.BackupRequest → option error;
  WebApps_DeleteBackupConfiguration : string → string → option error;
  WebApps_UpdateAzureStorageAccounts :
    string → string → web.AzureStoragePropertyDictionaryResource → option error;
  WebApps_UpdateConnectionStrings :
    string → string → web.ConnectionStringDictionary → option error;
  WebApps_Delete : string → string → option bool → option bool → option error;
  WebApps_GetConfiguration :
    string → string → web.SiteConfigResource * option error;
  WebApps_GetAuthSettings :
    string → string → web.SiteAuthSettings * option error;
  WebApps_GetBackupConfiguration :
    string → string → web.BackupRequest * option error;
  WebApps_GetDiagnosticLogsConfiguration :
    string → string → web.SiteLogsConfig * option error;
  WebApps_ListApplicationSettings :
    string → string → web.StringDictionary * option error;
  WebApps_ListAzureStorageAccounts :
    string → string → web.AzureStoragePropertyDictionaryResource * option error;
  WebApps_ListConnectionStrings :
    string → string → web.ConnectionStringDictionary * option error;
  WebApps_ListPublishingCredentials :
    string → string → SitesListPublishingCredentialsFuture * option error;
  WebApps_ListMetadata :
    string → string → web.StringDictionary * option error;
}.

Record ServicePlanClient : Type := {
  ServicePlans_Get : string → string → web.AppServicePlan * option error;
}.

Record AppServiceEnvironmentClient : Type := {
  AppServiceEnvironments_Get :
    string → string → web.AppServiceEnvironmentResource * option error;
}.

(** The plugin host, as one invocation sees it; [St] is the model type. *)
Record ResourceMetaData (St : Type) : Type := {
  Decode : St * option error;      (* the decoded model and the error *)
  Encode : St → option error;
  ResourceData_Id : string;
  ResourceData_HasChange : string → bool;
  Account_SubscriptionId : string;
  AppService_WebAppsClient : WebAppsClient;
  AppService_ServicePlanClient : ServicePlanClient;
  AppService_AppServiceEnvironmentClient : AppServiceEnvironmentClient;
}.

(** The packages [parse], [helpers], [tags], [location] and [utils] of the
    repository, none of which is under src/.  A parser returns a pointer and
    an error, like its Go signature; slices and maps are nilable. *)
Record Helpers : Type := {
  parse_WebAppID : string → option parse.WebAppId * option error;
  parse_ServicePlanID : string → option parse.ServicePlanId * option error;
  parse_AppServiceEnvironmentID :
    string → option parse.AppServiceEnvironmentId * option error;
  ExpandSiteConfigWindows :
    option (list helpers_SiteConfigWindows) →
    option web_SiteConfig * option string * option error;
  ExpandIdentity : option (list helpers_Identity) → option web_ManagedServiceIdentity;
  ExpandAppSettings : option (gmap string string) → option web.StringDictionary;
  ExpandAuthSettings : option (list helpers_AuthSettings) → option web.SiteAuthSettings;
  ExpandLogsConfig : option (list helpers_LogsConfig) → option web.SiteLogsConfig;
  ExpandBackupConfig : option (list helpers_Backup) → option web.BackupRequest;
  ExpandStorageConfig :
    option (list helpers_StorageAccount) →
    option web.AzureStoragePropertyDictionaryResource;
  ExpandConnectionStrings :
    option (list helpers_ConnectionString) → option web.ConnectionStringDictionary;
  FlattenAppSettings : web.StringDictionary → option (gmap string string);
  FlattenAuthSettings : web.SiteAuthSettings → option (list helpers_AuthSettings);
  FlattenBackupConfig : web.BackupRequest → option (list helpers_Backup);
  FlattenIdentity : option web_ManagedServiceIdentity → option (list helpers_Identity);
  FlattenLogsConfig : web.SiteLogsConfig → option (list helpers_LogsConfig);
  FlattenSiteConfigWindows :
    option web_SiteConfig → string → option (list helpers_SiteConfigWindows);
  FlattenSiteConfigLinux :
    option web_SiteConfig → option (list helpers_SiteConfigLinux);
  FlattenStorageAccounts :
    web.AzureStoragePropertyDictionaryResource → option (list helpers_StorageAccount);
  FlattenConnectionStrings :
    web.ConnectionStringDictionary → option (list helpers_ConnectionString);
  FlattenSiteCredentials : web.User → option (list helpers_SiteCredential);
  tags_FromTypedObject :
    option (gmap string string) → option (gmap string (option string));
  tags_ToTypedObject :
    option (gmap string (option string)) → option (gmap string string);
  location_NormalizeNilable : option string → string;
  utils_NormalizeNilableString : option string → string;
}.

End Collaborators.

Arguments Decode {_ St}.
Arguments Encode {_ St}.
Arguments ResourceData_Id {_ St}.
Arguments ResourceData_HasChange {_ St}.
Arguments Account_SubscriptionId {_ St}.
Arguments AppService_WebAppsClient {_ St}.
Arguments AppService_ServicePlanClient {_ St}.
Arguments AppService_AppServiceEnvironmentClient {_ St}.

(** *** The host's effects *)
Section Host.
Context `{Payloads}.

(** [metadata.SetID(id)] *)
Definition SetID {St} (id : parse.WebAppId) : M St unit :=
  λ w, (Ok tt, MkWorld (calls w) (logs w) (IdSet id) (encoded w)).

(** Modelled from the spec: [sdk.ResourceMetaData.MarkAsGone] is not under
    src/; a missing object is treated as resource gone, which removes it
    from the local state and is not an error. *)
Definition MarkAsGone {St} (id : option parse.WebAppId) : M St unit :=
  λ w, (Ok tt, MkWorld (calls w) (logs w) IdRemoved (encoded w)).

(** [return metadata.Encode(&state)] *)
Definition EncodeAndReturn {St} (metadata : ResourceMetaData St) (state : St)
    : M St unit :=
  λ w, (match Encode metadata state with Some e => Err e | None => Ok tt end,
        MkWorld (calls w) (logs w) (resourceId w) (Some state)).

(** Modelled from the spec: [sdk.ResourceMetaData.ResourceRequiresImport] is
    not under src/; a resource that already exists is surfaced as an
    AlreadyExists error carrying the import hint. *)
Definition ResourceRequiresImport (resourceType : string) (id : parse.WebAppId)
    : error :=
  RequiresImport resourceType id.

End Host.

(** *** The remote calls, as the drivers issue them *)
Section Calls.
Context `{Payloads} {St : Type} (client : WebAppsClient).

Definition Get rg site : M St _ :=
  remote (CallGet rg site) (WebApps_Get client rg site).
Definition CheckNameAvailability request : M St _ :=
  remote (CallCheckNameAvailability request)
         (WebApps_CheckNameAvailability client request).
Definition CreateOrUpdate rg site siteEnvelope : M St _ :=
  remote (CallCreateOrUpdate rg site siteEnvelope)
         (WebApps_CreateOrUpdate client rg site siteEnvelope).
Definition CreateOrUpdate_WaitForCompletionRef
    (future : SitesCreateOrUpdateFuture) : M St _ :=
  remote (CallWaitForCompletionRef OpCreateOrUpdate)
         (CreateOrUpdateFuture_WaitForCompletionRef future).
Definition UpdateMetadata rg site metadata : M St _ :=
  remote (CallUpdateMetadata rg site metadata)
         (WebApps_UpdateMetadata client rg site metadata).
Definition UpdateApplicationSettings rg site appSettings : M St _ :=
  remote (CallUpdateApplicationSettings rg site appSettings)
         (WebApps_UpdateApplicationSettings client rg site appSettings).
Definition UpdateAuthSettings rg site auth : M St _ :=
  remote (CallUpdateAuthSettings rg site auth)
         (WebApps_UpdateAuthSettings client rg site auth).
Definition UpdateDiagnosticLogsConfig rg site logsConfig : M St _ :=
  remote (CallUpdateDiagnosticLogsConfig rg site logsConfig)
         (WebApps_UpdateDiagnosticLogsConfig client rg site logsConfig).
Definition UpdateBackupConfiguration rg site backupConfig : M St _ :=
  remote (CallUpdateBackupConfiguration rg site backupConfig)
         (WebApps_UpdateBackupConfiguration client rg site backupConfig).
Definition DeleteBackupConfiguration rg site : M St _ :=
  remote (CallDeleteBackupConfiguration rg site)
         (WebApps_DeleteBackupConfiguration client rg site).
Definition UpdateAzureStorageAccounts rg site storageConfig : M St _ :=
  remote (CallUpdateAzureStorageAccounts rg site storageConfig)
         (WebApps_UpdateAzureStorageAccounts client rg site storageConfig).
Definition UpdateConnectionStrings rg site connectionStrings : M St _ :=
  remote (CallUpdateConnectionStrings rg site connectionStrings)
         (WebApps_UpdateConnectionStrings client rg site connectionStrings).
Definition WebAppsDelete rg site deleteMetrics deleteEmptyServerFarm : M St _ :=
  remote (CallDelete rg site deleteMetrics deleteEmptyServerFarm)
         (WebApps_Delete client rg site deleteMetrics deleteEmptyServerFarm).
Definition GetConfiguration rg site : M St _ :=
  remote (CallGetConfiguration rg site) (WebApps_GetConfiguration client rg site).
Definition GetAuthSettings rg site : M St _ :=
  remote (CallGetAuthSettings rg site) (WebApps_GetAuthSettings client rg site).
Definition GetBackupConfiguration rg site : M St _ :=
  remote (CallGetBackupConfiguration rg site)
         (WebApps_GetBackupConfiguration client rg site).
Definition GetDiagnosticLogsConfiguration rg site : M St _ :=
  remote (CallGetDiagnosticLogsConfiguration rg site)
         (WebApps_GetDiagnosticLogsConfiguration client rg site).
Definition ListApplicationSettings rg site : M St _ :=
  remote (CallListApplicationSettings rg site)
         (WebApps_ListApplicationSettings client rg site).
Definition ListAzureStorageAccounts rg site : M St _ :=
  remote (CallListAzureStorageAccounts rg site)
         (WebApps_ListAzureStorageAccounts client rg site).
Definition ListConnectionStrings rg site : M St _ :=
  remote (CallListConnectionStrings rg site)
         (WebApps_ListConnectionStrings client rg site).
Definition ListPublishingCredentials rg site : M St _ :=
  remote (CallListPublishingCredentials rg site)
         (WebApps_ListPublishingCredentials client rg site).
Definition ListPublishingCredentials_WaitForCompletionRef
    (future : SitesListPublishingCredentialsFuture) : M St _ :=
  remote (CallWaitForCompletionRef OpListPublishingCredentials)
         (ListPublishingCredentialsFuture_WaitForCompletionRef future).
Definition ListPublishingCredentials_Result
    (future : SitesListPublishingCredentialsFuture) : M St _ :=
  remote (CallResult OpListPublishingCredentials)
         (ListPublishingCredentialsFuture_Result future).
Definition ListMetadata rg site : M St _ :=
  remote (CallListMetadata rg site) (WebApps_ListMetadata client rg site).

Definition ServicePlanGet (servicePlanClient : ServicePlanClient) rg name
    : M St _ :=
  remote (CallServicePlanGet rg name) (ServicePlans_Get servicePlanClient rg name).

Definition AppServiceEnvironmentGet (aseClient : AppServiceEnvironmentClient)
    rg name : M St _ :=
  remote (CallAppServiceEnvironmentGet rg name)
         (AppServiceEnvironments_Get aseClient rg name).

End Calls.

(** The separator [","] of the outbound address lists. *)
Definition comma : Ascii.ascii := Ascii.Ascii false false true true false true false false.

(** Go's [strings.Split(s, sep)] for a separator of one character: the
    pieces between the occurrences of [sep], one more than there are
    occurrences. *)
Fixpoint strings_Split (s : string) (sep : Ascii.ascii) : list string :=
  match s with
  | EmptyString => [EmptyString]
  | String c rest =>
      if bool_decide (c = sep) then EmptyString :: strings_Split rest sep
      else match strings_Split rest sep with
           | piece :: pieces => String c piece :: pieces
           | [] => [String c EmptyString]
           end
  end.

(** The character [c] occurs in the string [s]. *)
Fixpoint occurs (c : Ascii.ascii) (s : string) : bool :=
  match s with
  | EmptyString => false
  | String c' rest => bool_decide (c' = c) || occurs c rest
  end.

(** [if cond { body }] *)
Definition when_ `{Payloads} {St} (cond : bool) (body : M St unit) : M St unit :=
  if cond then body else mret tt.

(** * The Windows Web App resource *)
Module Windows.
Section Drivers.
Context `{Payloads} (hp : Helpers).

Record WindowsWebAppModel : Type := {
  Name : string;
  ResourceGroup : string;
  Location : string;
  ServicePlanId : string;
  AppSettings : option (gmap string string);
  AuthSettings : option (list helpers_AuthSettings);
  Backup : option (list helpers_Backup);
  ClientAffinityEnabled : bool;
  ClientCertEnabled : bool;
  ClientCertMode : string;
  Enabled : bool;
  HttpsOnly : bool;
  Identity : option (list helpers_Identity);
  LogsConfig : option (list helpers_LogsConfig);
  SiteConfig : option (list helpers_SiteConfigWindows);
  StorageAccounts : option (list helpers_StorageAccount);
  ConnectionStrings : option (list helpers_ConnectionString);
  CustomDomainVerificationId : string;
  DefaultHostname : string;
  Kind : string;
  OutboundIPAddresses : string;
  OutboundIPAddressList : option (list string);
  PossibleOutboundIPAddresses : string;
  PossibleOutboundIPAddressList : option (list string);
  SiteCredentials : option (list helpers_SiteCredential);
  Tags : option (gmap string string);
}.

Definition ResourceType : string := "azurerm_windows_web_app".

Abbreviation Driver := (M WindowsWebAppModel unit).

(** *** Create *)

(** The block of [Create] that runs when the service plan is hosted on an
    App Service Environment: the suffix of the name to check. *)
Definition Create_nameSuffix
    (metadata : ResourceMetaData WindowsWebAppModel)
    (webApp : WindowsWebAppModel)
    (servicePlanId : option parse.ServicePlanId)
    (ase : web.HostingEnvironmentProfile) : M WindowsWebAppModel string :=
  let aseClient := AppService_AppServiceEnvironmentClient metadata in
  let nameSuffix := "appserviceenvironment.net" in
  match web.HostingEnvironmentProfile_ID ase with
  | Some aseID =>
      let '(aseId, err) := parse_AppServiceEnvironmentID hp aseID in
      aseId_ ← deref aseId;
      let nameSuffix :=
        parse.AppServiceEnvironmentId_HostingEnvironmentName aseId_
          +:+ "." +:+ nameSuffix in
      match err with
      | Some _ =>
          Warnf "could not parse App Service Environment ID determine FQDN for name availability check, defaulting to `%s.%s.appserviceenvironment.net`"
                [ArgString (Name webApp); ArgServicePlanId servicePlanId];;
          mret nameSuffix
      | None =>
          '(existingASE, err) ←
            AppServiceEnvironmentGet aseClient
              (parse.AppServiceEnvironmentId_ResourceGroup aseId_)
              (parse.AppServiceEnvironmentId_HostingEnvironmentName aseId_);
          match err with
          | Some _ =>
              Warnf "could not read App Service Environment to determine FQDN for name availability check, defaulting to `%s.%s.appserviceenvironment.net`"
                    [ArgString (Name webApp); ArgServicePlanId servicePlanId];;
              mret nameSuffix
          | None =>
              match web.AppServiceEnvironmentResource_AppServiceEnvironment
                      existingASE with
              | Some props =>
                  match web.DNSSuffix props with
                  | Some suffix =>
                      if bool_decide (suffix ≠ "") then mret suffix
                      else mret nameSuffix
                  | None => mret nameSuffix
                  end
              | None => mret nameSuffix
              end
          end
      end
  | None => mret nameSuffix
  end.

(** The name-availability request [Create] sends for a resolved plan. *)
Definition Create_availabilityRequest
    (metadata : ResourceMetaData WindowsWebAppModel)
    (webApp : WindowsWebAppModel)
    (servicePlanId : option parse.ServicePlanId)
    (servicePlanId_ : parse.ServicePlanId)
    (servicePlan : web.AppServicePlan)
    : M WindowsWebAppModel web.ResourceNameAvailabilityRequest :=
  let availabilityRequest :=
    {| web.Request_Name := Some (Name webApp);
       web.Request_Type := web.CheckNameResourceTypesMicrosoftWebsites;
       web.Request_IsFqdn := None |} in
  servicePlanProperties ←
    deref (web.AppServicePlan_AppServicePlanProperties servicePlan);
  match web.AppServicePlanProperties_HostingEnvironmentProfile
          servicePlanProperties with
  | Some ase =>
      nameSuffix ← Create_nameSuffix metadata webApp servicePlanId ase;
      mret {| web.Request_Name :=
                Some (Name webApp +:+ "."
                      +:+ parse.ServicePlanId_ServerfarmName servicePlanId_
                      +:+ "." +:+ nameSuffix);
              web.Request_Type := web.Request_Type availabilityRequest;
              web.Request_IsFqdn := Some true |}
  | None => mret availabilityRequest
  end.

(** Step 7 of [Create]: the optional sub-resource groups, in source order. *)
Definition Create_subresources
    (client : WebAppsClient) (webApp : WindowsWebAppModel)
    (id : parse.WebAppId) : Driver :=
  let rg := parse.WebAppId_ResourceGroup id in
  let site := parse.WebAppId_SiteName id in
  let appSettings := ExpandAppSettings hp (AppSettings webApp) in
  match appSettings with
  | Some appSettings_ =>
      err ← UpdateApplicationSettings client rg site appSettings_;
      check err (λ e, Errorf "setting App Settings for Windows %s: %+v"
                             [ArgWebAppId id; ArgError e])
  | None => mret tt
  end;;
  let auth := ExpandAuthSettings hp (AuthSettings webApp) in
  auth_ ← deref auth;
  match web.SiteAuthSettings_Properties auth_ with
  | Some _ =>
      err ← UpdateAuthSettings client rg site auth_;
      check err (λ e, Errorf "setting Authorisation Settings for %s: %+v"
                             [ArgWebAppId id; ArgError e])
  | None => mret tt
  end;;
  let logsConfig := ExpandLogsConfig hp (LogsConfig webApp) in
  logsConfig_ ← deref logsConfig;
  match web.SiteLogsConfig_Properties logsConfig_ with
  | Some _ =>
      err ← UpdateDiagnosticLogsConfig client rg site logsConfig_;
      check err (λ e, Errorf "setting Diagnostic Logs Configuration for Windows %s: %+v"
                             [ArgWebAppId id; ArgError e])
  | None => mret tt
  end;;
  let backupConfig := ExpandBackupConfig hp (Backup webApp) in
  backupConfig_ ← deref backupConfig;
  match web.BackupRequest_Properties backupConfig_ with
  | Some _ =>
      err ← UpdateBackupConfiguration client rg site backupConfig_;
      check err (λ e, Errorf "adding Backup Settings for Windows %s: %+v"
                             [ArgWebAppId id; ArgError e])
  | None => mret tt
  end;;
  let storageConfig := ExpandStorageConfig hp (StorageAccounts webApp) in
  storageConfig_ ← deref storageConfig;
  match web.AzureStoragePropertyDictionaryResource_Properties storageConfig_ with
  | Some _ =>
      err ← UpdateAzureStorageAccounts client rg site storageConfig_;
      check err (λ e, Errorf "setting Storage Accounts for Windows %s: %+v"
                             [ArgWebAppId id; ArgError e])
  | None => mret tt
  end;;
  let connectionStrings := ExpandConnectionStrings hp (ConnectionStrings webApp) in
  connectionStrings_ ← deref connectionStrings;
  match web.ConnectionStringDictionary_Properties connectionStrings_ with
  | Some _ =>
      err ← UpdateConnectionStrings client rg site connectionStrings_;
      check err (λ e, Errorf "setting Connection Strings for Windows %s: %+v"
                             [ArgWebAppId id; ArgError e])
  | None => mret tt
  end;;
  mret tt.

(** The separate metadata call for the current stack, shared by [Create] and
    [Update]. *)
Definition setCurrentStack
    (client : WebAppsClient) (id : parse.WebAppId) (idArg : fmtarg)
    (currentStack : option string) : Driver :=
  match currentStack with
  | Some stack =>
      when_ (bool_decide (stack ≠ ""))
        (let siteMetadata :=
           {| web.StringDictionary_Response := None;
              web.StringDictionary_Properties :=
                Some (<["CURRENT_STACK" := currentStack]> ∅) |} in
         err ← UpdateMetadata client (parse.WebAppId_ResourceGroup id)
                 (parse.WebAppId_SiteName id) siteMetadata;
         check err (λ e, Errorf "setting Site Metadata for Current Stack on Windows %s: %+v"
                                [idArg; ArgError e]))
  | None => mret tt
  end.

(** [Create] up to and including the create operation and the
    current-stack metadata call: steps 1 to 6. *)
Definition Create_primary (metadata : ResourceMetaData WindowsWebAppModel)
    : M WindowsWebAppModel (WindowsWebAppModel * parse.WebAppId) :=
  let '(webApp, err) := Decode metadata in
  check err (λ e, e);;
  let client := AppService_WebAppsClient metadata in
  let servicePlanClient := AppService_ServicePlanClient metadata in
  let subscriptionId := Account_SubscriptionId metadata in
  let id := parse.NewWebAppID subscriptionId (ResourceGroup webApp) (Name webApp) in
  let rg := parse.WebAppId_ResourceGroup id in
  let site := parse.WebAppId_SiteName id in
  '(existing, err) ← Get client rg site;
  match err with
  | Some e =>
      when_ (negb (utils.ResponseWasNotFound (web.Site_Response existing)))
        (fail (Errorf "checking for presence of existing Windows %s: %+v"
                      [ArgWebAppId id; ArgError e]))
  | None => mret tt
  end;;
  when_ (negb (utils.ResponseWasNotFound (web.Site_Response existing)))
    (fail (ResourceRequiresImport ResourceType id));;
  let '(servicePlanId, err) := parse_ServicePlanID hp (ServicePlanId webApp) in
  check err (λ e, e);;
  servicePlanId_ ← deref servicePlanId;
  '(servicePlan, err) ←
    ServicePlanGet servicePlanClient
      (parse.ServicePlanId_ResourceGroup servicePlanId_)
      (parse.ServicePlanId_ServerfarmName servicePlanId_);
  check err (λ e, Errorf "reading App %s: %+v"
                         [ArgServicePlanId servicePlanId; ArgError e]);;
  availabilityRequest ←
    Create_availabilityRequest metadata webApp servicePlanId servicePlanId_
      servicePlan;
  '(checkName, err) ← CheckNameAvailability client availabilityRequest;
  check err (λ e, Errorf "checking name availability for %s: %+v"
                         [ArgWebAppId id; ArgError e]);;
  nameAvailable ← deref (web.NameAvailable checkName);
  when_ (negb nameAvailable)
    (message ← deref (web.Message checkName);
     fail (Errorf "the Site Name %q failed the availability check: %+v"
                  [ArgString site; ArgString message]));;
  let '(siteConfig, currentStack, err) :=
    ExpandSiteConfigWindows hp (SiteConfig webApp) in
  check err (λ e, e);;
  let siteEnvelope :=
    {| web.Site_Response := None;
       web.Site_Location := Some (Location webApp);
       web.Site_Tags := tags_FromTypedObject hp (Tags webApp);
       web.Site_SiteProperties := Some
         {| web.ServerFarmID := Some (ServicePlanId webApp);
            web.Enabled := Some (Enabled webApp);
            web.HTTPSOnly := Some (HttpsOnly webApp);
            web.SiteProperties_SiteConfig := siteConfig;
            web.ClientAffinityEnabled := Some (ClientAffinityEnabled webApp);
            web.ClientCertEnabled := Some (ClientCertEnabled webApp);
            web.ClientCertMode := ClientCertMode webApp;
            web.CustomDomainVerificationID := None;
            web.DefaultHostName := None;
            web.OutboundIPAddresses := None;
            web.PossibleOutboundIPAddresses := None |};
       web.Site_Identity :=
         match ExpandIdentity hp (Identity webApp) with
         | Some identity_ => Some identity_
         | None => None
         end;
       web.Site_Kind := None |} in
  '(future, err) ← CreateOrUpdate client rg site siteEnvelope;
  check err (λ e, Errorf "creating Windows %s: %+v" [ArgWebAppId id; ArgError e]);;
  err ← CreateOrUpdate_WaitForCompletionRef future;
  check err (λ e, Errorf "waiting for creation of Windows %s: %+v"
                         [ArgWebAppId id; ArgError e]);;
  setCurrentStack client id (ArgWebAppId id) currentStack;;
  mret (webApp, id).

Definition Create (metadata : ResourceMetaData WindowsWebAppModel) : Driver :=
  '(webApp, id) ← Create_primary metadata;
  SetID id;;
  Create_subresources (AppService_WebAppsClient metadata) webApp id.

(** *** Read *)

(** The flat state [Read] builds from the answers of the remote system. *)
Definition Read_state
    (id : parse.WebAppId) (webApp : web.Site) (webAppProps : web.SiteProperties)
    (webAppSiteConfig : web.SiteConfigResource) (auth : web.SiteAuthSettings)
    (backup : web.BackupRequest) (logsConfig : web.SiteLogsConfig)
    (appSettings : web.StringDictionary)
    (storageAccounts : web.AzureStoragePropertyDictionaryResource)
    (connectionStrings : web.ConnectionStringDictionary)
    (siteCredentials : web.User) (currentStack : string)
    : WindowsWebAppModel :=
  {| Name := parse.WebAppId_SiteName id;
     ResourceGroup := parse.WebAppId_ResourceGroup id;
     Location := location_NormalizeNilable hp (web.Site_Location webApp);
     AppSettings := FlattenAppSettings hp appSettings;
     Tags := tags_ToTypedObject hp (web.Site_Tags webApp);
     ServicePlanId :=
       match web.ServerFarmID webAppProps with Some v => v | None => "" end;
     ClientAffinityEnabled :=
       match web.ClientAffinityEnabled webAppProps with
       | Some v => v | None => false end;
     ClientCertEnabled :=
       match web.ClientCertEnabled webAppProps with
       | Some v => v | None => false end;
     ClientCertMode :=
       if bool_decide (web.ClientCertMode webAppProps ≠ "")
       then web.ClientCertMode webAppProps else "";
     Enabled :=
       match web.Enabled webAppProps with Some v => v | None => false end;
     HttpsOnly :=
       match web.HTTPSOnly webAppProps with Some v => v | None => false end;
     CustomDomainVerificationId :=
       match web.CustomDomainVerificationID webAppProps with
       | Some v => v | None => "" end;
     DefaultHostname :=
       match web.DefaultHostName webAppProps with Some v => v | None => "" end;
     Kind := match web.Site_Kind webApp with Some v => v | None => "" end;
     OutboundIPAddresses :=
       match web.OutboundIPAddresses webAppProps with
       | Some v => v | None => "" end;
     OutboundIPAddressList :=
       match web.OutboundIPAddresses webAppProps with
       | Some v => Some (strings_Split v comma) | None => None end;
     PossibleOutboundIPAddresses :=
       match web.PossibleOutboundIPAddresses webAppProps with
       | Some v => v | None => "" end;
     PossibleOutboundIPAddressList :=
       match web.PossibleOutboundIPAddresses webAppProps with
       | Some v => Some (strings_Split v comma) | None => None end;
     AuthSettings :=
       match FlattenAuthSettings hp auth with
       | Some appAuthSettings => Some appAuthSettings | None => None end;
     Backup :=
       match FlattenBackupConfig hp backup with
       | Some appBackupSettings => Some appBackupSettings | None => None end;
     Identity :=
       match FlattenIdentity hp (web.Site_Identity webApp) with
       | Some identity_ => Some identity_ | None => None end;
     LogsConfig :=
       match FlattenLogsConfig hp logsConfig with
       | Some logs_ => Some logs_ | None => None end;
     SiteConfig :=
       match FlattenSiteConfigWindows hp
               (web.SiteConfigResource_SiteConfig webAppSiteConfig)
               currentStack with
       | Some siteConfig => Some siteConfig | None => None end;
     StorageAccounts :=
       match FlattenStorageAccounts hp storageAccounts with
       | Some appStorageAccounts => Some appStorageAccounts | None => None end;
     ConnectionStrings :=
       match FlattenConnectionStrings hp connectionStrings with
       | Some appConnectionStrings => Some appConnectionStrings
       | None => None end;
     SiteCredentials := FlattenSiteCredentials hp siteCredentials |}.

(** [Read] after the primary get has answered without error. *)
Definition Read_found
    (metadata : ResourceMetaData WindowsWebAppModel)
    (id : option parse.WebAppId) (id_ : parse.WebAppId) (webApp : web.Site)
    : Driver :=
  let client := AppService_WebAppsClient metadata in
  let rg := parse.WebAppId_ResourceGroup id_ in
  let site := parse.WebAppId_SiteName id_ in
  webAppProps ←
    match web.Site_SiteProperties webApp with
    | None => fail (Errorf "reading properties of Windows %s" [ArgWebAppIdPtr id])
    | Some props => mret props
    end;
  '(webAppSiteConfig, err) ← GetConfiguration client rg site;
  check err (λ e, Errorf "reading Site Config for Windows %s: %+v"
                         [ArgWebAppIdPtr id; ArgError e]);;
  '(auth, err) ← GetAuthSettings client rg site;
  check err (λ e, Errorf "reading Auth Settings for Windows %s: %+v"
                         [ArgWebAppIdPtr id; ArgError e]);;
  '(backup, err) ← GetBackupConfiguration client rg site;
  match err with
  | Some e =>
      when_ (negb (utils.ResponseWasNotFound (web.BackupRequest_Response backup)))
        (fail (Errorf "reading Backup Settings for Windows %s: %+v"
                      [ArgWebAppIdPtr id; ArgError e]))
  | None => mret tt
  end;;
  '(logsConfig, err) ← GetDiagnosticLogsConfiguration client rg site;
  check err (λ e, Errorf "reading Diagnostic Logs information for Windows %s: %+v"
                         [ArgWebAppIdPtr id; ArgError e]);;
  '(appSettings, err) ← ListApplicationSettings client rg site;
  check err (λ e, Errorf "reading App Settings for Windows %s: %+v"
                         [ArgWebAppIdPtr id; ArgError e]);;
  '(storageAccounts, err) ← ListAzureStorageAccounts client rg site;
  check err (λ e, Errorf "reading Storage Account information for Windows %s: %+v"
                         [ArgWebAppIdPtr id; ArgError e]);;
  '(connectionStrings, err) ← ListConnectionStrings client rg site;
  check err (λ e, Errorf "reading Connection String information for Windows %s: %+v"
                         [ArgWebAppIdPtr id; ArgError e]);;
  '(siteCredentialsFuture, err) ← ListPublishingCredentials client rg site;
  check err (λ e, Errorf "listing Site Publishing Credential information for Windows %s: %+v"
                         [ArgWebAppIdPtr id; ArgError e]);;
  err ← ListPublishingCredentials_WaitForCompletionRef siteCredentialsFuture;
  check err (λ e, Errorf "waiting for Site Publishing Credential information for Windows %s: %+v"
                         [ArgWebAppIdPtr id; ArgError e]);;
  '(siteCredentials, err) ← ListPublishingCredentials_Result siteCredentialsFuture;
  check err (λ e, Errorf "reading Site Publishing Credential information for Windows %s: %+v"
                         [ArgWebAppIdPtr id; ArgError e]);;
  '(siteMetadata, err) ← ListMetadata client rg site;
  check err (λ e, Errorf "reading Site Metadata for Windows %s: %+v"
                         [ArgWebAppIdPtr id; ArgError e]);;
  currentStack ←
    match web.StringDictionary_Properties siteMetadata
            ≫= (λ properties, properties !! "CURRENT_STACK") with
    | Some currentStackPtr => deref currentStackPtr
    | None => mret ""
    end;
  let state :=
    Read_state id_ webApp webAppProps webAppSiteConfig auth backup logsConfig
      appSettings storageAccounts connectionStrings siteCredentials
      currentStack in
  EncodeAndReturn metadata state.

Definition Read (metadata : ResourceMetaData WindowsWebAppModel) : Driver :=
  let client := AppService_WebAppsClient metadata in
  let '(id, err) := parse_WebAppID hp (ResourceData_Id metadata) in
  check err (λ e, e);;
  id_ ← deref id;
  '(webApp, err) ←
    Get client (parse.WebAppId_ResourceGroup id_) (parse.WebAppId_SiteName id_);
  match err with
  | Some e =>
      if utils.ResponseWasNotFound (web.Site_Response webApp)
      then MarkAsGone id
      else fail (Errorf "reading Windows %s: %+v" [ArgWebAppIdPtr id; ArgError e])
  | None => Read_found metadata id id_ webApp
  end.

(** *** Delete *)
Definition Delete (metadata : ResourceMetaData WindowsWebAppModel) : Driver :=
  let client := AppService_WebAppsClient metadata in
  let '(id, err) := parse_WebAppID hp (ResourceData_Id metadata) in
  check err (λ e, e);;
  id_ ← deref id;
  Infof "deleting %s" [ArgWebAppId id_];;
  let deleteMetrics := true in
  let deleteEmptyServerFarm := false in
  err ← WebAppsDelete client (parse.WebAppId_ResourceGroup id_)
          (parse.WebAppId_SiteName id_)
          (Some deleteMetrics) (Some deleteEmptyServerFarm);
  check err (λ e, Errorf "deleting Windows %s: %+v" [ArgWebAppIdPtr id; ArgError e]);;
  mret tt.

(** *** Update *)

(** The sub-resource phase of [Update]: one conditional per tracked field,
    in source order. *)
Definition Update_subresources
    (metadata : ResourceMetaData WindowsWebAppModel)
    (id : option parse.WebAppId) (id_ : parse.WebAppId)
    (state : WindowsWebAppModel) : Driver :=
  let client := AppService_WebAppsClient metadata in
  let rg := parse.WebAppId_ResourceGroup id_ in
  let site := parse.WebAppId_SiteName id_ in
  (* App Settings can clobber logs configuration so must be updated before
     we send any Log updates *)
  when_ (ResourceData_HasChange metadata "app_settings")
    (let appSettingsUpdate := ExpandAppSettings hp (AppSettings state) in
     appSettingsUpdate_ ← deref appSettingsUpdate;
     err ← UpdateApplicationSettings client rg site appSettingsUpdate_;
     check err (λ e, Errorf "updating App Settings for Windows %s: %+v"
                            [ArgWebAppIdPtr id; ArgError e]));;
  when_ (ResourceData_HasChange metadata "connection_string")
    (let connectionStringUpdate :=
       ExpandConnectionStrings hp (ConnectionStrings state) in
     connectionStringUpdate_ ← deref connectionStringUpdate;
     err ← UpdateConnectionStrings client rg site connectionStringUpdate_;
     check err (λ e, Errorf "updating Connection Strings for Windows %s: %+v"
                            [ArgWebAppIdPtr id; ArgError e]));;
  when_ (ResourceData_HasChange metadata "auth_settings")
    (let authUpdate := ExpandAuthSettings hp (AuthSettings state) in
     authUpdate_ ← deref authUpdate;
     err ← UpdateAuthSettings client rg site authUpdate_;
     check err (λ e, Errorf "updating Auth Settings for Windows %s: %+v"
                            [ArgWebAppIdPtr id; ArgError e]));;
  when_ (ResourceData_HasChange metadata "backup")
    (let backupUpdate := ExpandBackupConfig hp (Backup state) in
     backupUpdate_ ← deref backupUpdate;
     match web.BackupRequest_Properties backupUpdate_ with
     | None =>
         err ← DeleteBackupConfiguration client rg site;
         check err (λ e, Errorf "removing Backup Settings for Windows %s: %+v"
                                [ArgWebAppIdPtr id; ArgError e])
     | Some _ =>
         err ← UpdateBackupConfiguration client rg site backupUpdate_;
         check err (λ e, Errorf "updating Backup Settings for Windows %s: %+v"
                                [ArgWebAppIdPtr id; ArgError e])
     end);;
  when_ (ResourceData_HasChange metadata "logs")
    (let logsUpdate := ExpandLogsConfig hp (LogsConfig state) in
     logsUpdate_ ← deref logsUpdate;
     err ← UpdateDiagnosticLogsConfig client rg site logsUpdate_;
     check err (λ e, Errorf "updating Logs Config for Windows %s: %+v"
                            [ArgWebAppIdPtr id; ArgError e]));;
  when_ (ResourceData_HasChange metadata "storage_account")
    (let storageAccountUpdate := ExpandStorageConfig hp (StorageAccounts state) in
     storageAccountUpdate_ ← deref storageAccountUpdate;
     err ← UpdateAzureStorageAccounts client rg site storageAccountUpdate_;
     check err (λ e, Errorf "updating Storage Accounts for Windows %s: %+v"
                            [ArgWebAppIdPtr id; ArgError e]));;
  mret tt.

(** [Update] up to and including the primary update and the current-stack
    metadata call. *)
Definition Update_primary
    (metadata : ResourceMetaData WindowsWebAppModel)
    : M WindowsWebAppModel
        (option parse.WebAppId * parse.WebAppId * WindowsWebAppModel) :=
  let client := AppService_WebAppsClient metadata in
  let '(id, err) := parse_WebAppID hp (ResourceData_Id metadata) in
  check err (λ e, e);;
  let '(state, err) := Decode metadata in
  check err (λ e, Errorf "decoding: %+v" [ArgError e]);;
  let '(siteConfig, currentStack, err) :=
    ExpandSiteConfigWindows hp (SiteConfig state) in
  check err (λ e, Errorf "expanding Site Config for Windows %s: %+v"
                         [ArgWebAppIdPtr id; ArgError e]);;
  (* the source builds [site] before the expansion and then assigns
     site.SiteConfig = siteConfig *)
  let site :=
    {| web.Site_Response := None;
       web.Site_Location := Some (Location state);
       web.Site_Tags := tags_FromTypedObject hp (Tags state);
       web.Site_SiteProperties := Some
         {| web.ServerFarmID := Some (ServicePlanId state);
            web.Enabled := Some (Enabled state);
            web.HTTPSOnly := Some (HttpsOnly state);
            web.SiteProperties_SiteConfig := siteConfig;
            web.ClientAffinityEnabled := Some (ClientAffinityEnabled state);
            web.ClientCertEnabled := Some (ClientCertEnabled state);
            web.ClientCertMode := ClientCertMode state;
            web.CustomDomainVerificationID := None;
            web.DefaultHostName := None;
            web.OutboundIPAddresses := None;
            web.PossibleOutboundIPAddresses := None |};
       web.Site_Identity := ExpandIdentity hp (Identity state);
       web.Site_Kind := None |} in
  id_ ← deref id;
  '(updateFuture, err) ←
    CreateOrUpdate client (parse.WebAppId_ResourceGroup id_)
      (parse.WebAppId_SiteName id_) site;
  check err (λ e, Errorf "updating Windows %s: %+v"
                         [ArgWebAppIdPtr id; ArgError e]);;
  err ← CreateOrUpdate_WaitForCompletionRef updateFuture;
  check err (λ e, Errorf "wating to update %s: %+v"
                         [ArgWebAppIdPtr id; ArgError e]);;
  setCurrentStack client id_ (ArgWebAppIdPtr id) currentStack;;
  mret (id, id_, state).

Definition Update (metadata : ResourceMetaData WindowsWebAppModel) : Driver :=
  '(id, id_, state) ← Update_primary metadata;
  Update_subresources metadata id id_ state.

End Drivers.
End Windows.

(** * The Linux Web App data source *)
Module Linux.
Section DataSource.
Context `{Payloads} (hp : Helpers).

(** Modelled from the spec: the declaration of [LinuxWebAppModel] is not
    under src/; it is the flat composite state of the web application, with
    the fields the data source declares and [Read] assigns, typed as in the
    Windows model. *)
Record LinuxWebAppModel : Type := {
  Name : string;
  ResourceGroup : string;
  Location : string;
  ServicePlanId : string;
  AppMetadata : option (gmap string string);
  AppSettings : option (gmap string string);
  AuthSettings : option (list helpers_AuthSettings);
  Backup : option (list helpers_Backup);
  ClientAffinityEnabled : bool;
  ClientCertEnabled : bool;
  ClientCertMode : string;
  Enabled : bool;
  HttpsOnly : bool;
  Identity : option (list helpers_Identity);
  LogsConfig : option (list helpers_LogsConfig);
  SiteConfig : option (list helpers_SiteConfigLinux);
  StorageAccounts : option (list helpers_StorageAccount);
  ConnectionStrings : option (list helpers_ConnectionString);
  CustomDomainVerificationId : string;
  DefaultHostname : string;
  Kind : string;
  OutboundIPAddresses : string;
  OutboundIPAddressList : option (list string);
  PossibleOutboundIPAddresses : string;
  PossibleOutboundIPAddressList : option (list string);
  SiteCredentials : option (list helpers_SiteCredential);
  Tags : option (gmap string string);
}.

Definition ResourceType : string := "azurerm_linux_web_app".

(** The four flags [Read] takes from the site properties by dereferencing
    their pointers, in source order; no pointer is compared with nil. *)
Definition Read_flags (props : web.SiteProperties)
    : M LinuxWebAppModel (bool * bool * bool * bool) :=
  clientAffinityEnabled ← deref (web.ClientAffinityEnabled props);
  clientCertEnabled ← deref (web.ClientCertEnabled props);
  enabled ← deref (web.Enabled props);
  httpsOnly ← deref (web.HTTPSOnly props);
  mret (clientAffinityEnabled, clientCertEnabled, enabled, httpsOnly).

(** The assignments [Read] makes to the decoded model. *)
Definition Read_state
    (webApp : LinuxWebAppModel) (existing : web.Site)
    (props : option (web.SiteProperties * (bool * bool * bool * bool)))
    (webAppSiteConfig : web.SiteConfigResource) (auth : web.SiteAuthSettings)
    (backup : web.BackupRequest) (logsConfig : web.SiteLogsConfig)
    (appSettings : web.StringDictionary)
    (storageAccounts : web.AzureStoragePropertyDictionaryResource)
    (connectionStrings : web.ConnectionStringDictionary)
    (siteCredentials : web.User) : LinuxWebAppModel :=
  let fromProps {A} (assigned : web.SiteProperties →
                                bool * bool * bool * bool → A)
                    (decoded : A) : A :=
    match props with
    | Some (props_, flags) => assigned props_ flags
    | None => decoded
    end in
  let outboundIPAddresses :=
    fromProps (λ p _, utils_NormalizeNilableString hp (web.OutboundIPAddresses p))
              (OutboundIPAddresses webApp) in
  let possibleOutboundIPAddresses :=
    fromProps (λ p _, utils_NormalizeNilableString hp
                        (web.PossibleOutboundIPAddresses p))
              (PossibleOutboundIPAddresses webApp) in
  {| Name := Name webApp;
     ResourceGroup := ResourceGroup webApp;
     AppMetadata := AppMetadata webApp;
     AppSettings := FlattenAppSettings hp appSettings;
     Kind := utils_NormalizeNilableString hp (web.Site_Kind existing);
     Location := location_NormalizeNilable hp (web.Site_Location existing);
     Tags := tags_ToTypedObject hp (web.Site_Tags existing);
     ClientAffinityEnabled :=
       fromProps (λ _ '(v, _, _, _), v) (ClientAffinityEnabled webApp);
     ClientCertEnabled :=
       fromProps (λ _ '(_, v, _, _), v) (ClientCertEnabled webApp);
     ClientCertMode :=
       fromProps (λ p _, web.ClientCertMode p) (ClientCertMode webApp);
     CustomDomainVerificationId :=
       fromProps (λ p _, utils_NormalizeNilableString hp
                           (web.CustomDomainVerificationID p))
                 (CustomDomainVerificationId webApp);
     DefaultHostname :=
       fromProps (λ p _, utils_NormalizeNilableString hp (web.DefaultHostName p))
                 (DefaultHostname webApp);
     Enabled := fromProps (λ _ '(_, _, v, _), v) (Enabled webApp);
     HttpsOnly := fromProps (λ _ '(_, _, _, v), v) (HttpsOnly webApp);
     ServicePlanId :=
       fromProps (λ p _, utils_NormalizeNilableString hp (web.ServerFarmID p))
                 (ServicePlanId webApp);
     OutboundIPAddresses := outboundIPAddresses;
     OutboundIPAddressList :=
       fromProps (λ _ _, Some (strings_Split outboundIPAddresses comma))
                 (OutboundIPAddressList webApp);
     PossibleOutboundIPAddresses := possibleOutboundIPAddresses;
     PossibleOutboundIPAddressList :=
       fromProps (λ _ _, Some (strings_Split possibleOutboundIPAddresses comma))
                 (PossibleOutboundIPAddressList webApp);
     AuthSettings := FlattenAuthSettings hp auth;
     Backup := FlattenBackupConfig hp backup;
     Identity := FlattenIdentity hp (web.Site_Identity existing);
     LogsConfig := FlattenLogsConfig hp logsConfig;
     SiteConfig :=
       FlattenSiteConfigLinux hp (web.SiteConfigResource_SiteConfig webAppSiteConfig);
     StorageAccounts := FlattenStorageAccounts hp storageAccounts;
     ConnectionStrings := FlattenConnectionStrings hp connectionStrings;
     SiteCredentials := FlattenSiteCredentials hp siteCredentials |}.

(** The merge of the answers into the model, the ID and the encoding: the
    part of [Read] after the last remote call. *)
Definition Read_merge
    (metadata : ResourceMetaData LinuxWebAppModel)
    (webApp : LinuxWebAppModel) (id : parse.WebAppId) (existing : web.Site)
    (webAppSiteConfig : web.SiteConfigResource) (auth : web.SiteAuthSettings)
    (backup : web.BackupRequest) (logsConfig : web.SiteLogsConfig)
    (appSettings : web.StringDictionary)
    (storageAccounts : web.AzureStoragePropertyDictionaryResource)
    (connectionStrings : web.ConnectionStringDictionary)
    (siteCredentials : web.User) : M LinuxWebAppModel unit :=
  props ←
    match web.Site_SiteProperties existing with
    | Some props_ => flags ← Read_flags props_; mret (Some (props_, flags))
    | None => mret None
    end;
  let webApp :=
    Read_state webApp existing props webAppSiteConfig auth backup logsConfig
      appSettings storageAccounts connectionStrings siteCredentials in
  SetID id;;
  EncodeAndReturn metadata webApp.

Definition Read (metadata : ResourceMetaData LinuxWebAppModel)
    : M LinuxWebAppModel unit :=
  let client := AppService_WebAppsClient metadata in
  let subscriptionId := Account_SubscriptionId metadata in
  let '(webApp, err) := Decode metadata in
  check err (λ e, e);;
  let id := parse.NewWebAppID subscriptionId (ResourceGroup webApp) (Name webApp) in
  let rg := parse.WebAppId_ResourceGroup id in
  let site := parse.WebAppId_SiteName id in
  '(existing, err) ← Get client rg site;
  match err with
  | Some e =>
      if utils.ResponseWasNotFound (web.Site_Response existing)
      then fail (Errorf "Linux Web App with %s not found" [ArgWebAppId id])
      else fail (Errorf "retreiving Linux %s: %+v" [ArgWebAppId id; ArgError e])
  | None => mret tt
  end;;
  '(webAppSiteConfig, err) ← GetConfiguration client rg site;
  check err (λ e, Errorf "reading Site Config for Linux %s: %+v"
                         [ArgWebAppId id; ArgError e]);;
  '(auth, err) ← GetAuthSettings client rg site;
  check err (λ e, Errorf "reading Auth Settings for Linux %s: %+v"
                         [ArgWebAppId id; ArgError e]);;
  '(backup, err) ← GetBackupConfiguration client rg site;
  match err with
  | Some e =>
      when_ (negb (utils.ResponseWasNotFound (web.BackupRequest_Response backup)))
        (fail (Errorf "reading Backup Settings for Linux %s: %+v"
                      [ArgWebAppId id; ArgError e]))
  | None => mret tt
  end;;
  '(logsConfig, err) ← GetDiagnosticLogsConfiguration client rg site;
  check err (λ e, Errorf "reading Diagnostic Logs information for Linux %s: %+v"
                         [ArgWebAppId id; ArgError e]);;
  '(appSettings, err) ← ListApplicationSettings client rg site;
  check err (λ e, Errorf "reading App Settings for Linux %s: %+v"
                         [ArgWebAppId id; ArgError e]);;
  '(storageAccounts, err) ← ListAzureStorageAccounts client rg site;
  check err (λ e, Errorf "reading Storage Account information for Linux %s: %+v"
                         [ArgWebAppId id; ArgError e]);;
  '(connectionStrings, err) ← ListConnectionStrings client rg site;
  check err (λ e, Errorf "reading Connection String information for Linux %s: %+v"
                         [ArgWebAppId id; ArgError e]);;
  '(siteCredentialsFuture, err) ← ListPublishingCredentials client rg site;
  check err (λ e, Errorf "listing Site Publishing Credential information for Linux %s: %+v"
                         [ArgWebAppId id; ArgError e]);;
  err ← ListPublishingCredentials_WaitForCompletionRef siteCredentialsFuture;
  check err (λ e, Errorf "waiting for Site Publishing Credential information for Linux %s: %+v"
                         [ArgWebAppId id; ArgError e]);;
  '(siteCredentials, err) ← ListPublishingCredentials_Result siteCredentialsFuture;
  check err (λ e, Errorf "reading Site Publishing Credential information for Linux %s: %+v"
                         [ArgWebAppId id; ArgError e]);;
  Read_merge metadata webApp id existing webAppSiteConfig auth backup logsConfig
    appSettings storageAccounts connectionStrings siteCredentials.

End DataSource.
End Linux.

(** * Vocabulary of the properties *)
Section Vocabulary.
Context `{Payloads}.

(** The sub-resource groups of the web application. *)
Inductive group : Type :=
  | GroupAppSettings
  | GroupAuthSettings
  | GroupLogs
  | GroupBackup
  | GroupStorageAccounts
  | GroupConnectionStrings.

(** The group a remote call writes to, if it is a sub-resource call. *)
Definition group_of (c : Call) : option group :=
  match c with
  | CallUpdateApplicationSettings _ _ _ => Some GroupAppSettings
  | CallUpdateAuthSettings _ _ _ => Some GroupAuthSettings
  | CallUpdateDiagnosticLogsConfig _ _ _ => Some GroupLogs
  | CallUpdateBackupConfiguration _ _ _ => Some GroupBackup
  | CallDeleteBackupConfiguration _ _ => Some GroupBackup
  | CallUpdateAzureStorageAccounts _ _ _ => Some GroupStorageAccounts
  | CallUpdateConnectionStrings _ _ _ => Some GroupConnectionStrings
  | _ => None
  end.

Definition is_subresource_call (c : Call) : bool :=
  match group_of c with Some _ => true | None => false end.

Definition is_appSettings_update (c : Call) : bool :=
  match c with CallUpdateApplicationSettings _ _ _ => true | _ => false end.

Definition is_logs_update (c : Call) : bool :=
  match c with CallUpdateDiagnosticLogsConfig _ _ _ => true | _ => false end.

Definition is_backup_update (c : Call) : bool :=
  match c with CallUpdateBackupConfiguration _ _ _ => true | _ => false end.

Definition is_backup_delete (c : Call) : bool :=
  match c with CallDeleteBackupConfiguration _ _ => true | _ => false end.

(** The effects [w] are those of [w0] followed by the remote calls [cs]. *)
Definition with_calls {St} (w0 : World St) (cs : list Call) : World St :=
  MkWorld (calls w0 ++ cs) (logs w0) (resourceId w0) (encoded w0).

(** One sub-resource group as step 7 of the Create algorithm sees it: the
    update call, the answer of the remote system and the context of the
    error reported when it fails. *)
Record applied_group : Type := Apply {
  group_call : Call;
  group_answer : option error;
  group_context : string;
}.

(** Sequential application in the spec's words: each group in turn; a
    failure is fatal and aborts the remaining groups; nothing is rolled
    back. *)
Fixpoint Spec_apply_groups (id : parse.WebAppId) (groups : list applied_group)
    : result unit * list Call :=
  match groups with
  | [] => (Ok tt, [])
  | g :: rest =>
      match group_answer g with
      | Some e =>
          (Err (Errorf (group_context g) [ArgWebAppId id; ArgError e]),
           [group_call g])
      | None =>
          let '(r, cs) := Spec_apply_groups id rest in (r, group_call g :: cs)
      end
  end.

(** [Some x] becomes the one-element list, [None] the empty one. *)
Definition present {A B} (o : option A) (x : B) : list B :=
  match o with Some _ => [x] | None => [] end.

(** The application-settings group. *)
Definition appSettings_group
    (client : WebAppsClient) (id : parse.WebAppId)
    (appSettings : web.StringDictionary) : applied_group :=
  let rg := parse.WebAppId_ResourceGroup id in
  let site := parse.WebAppId_SiteName id in
  Apply (CallUpdateApplicationSettings rg site appSettings)
        (WebApps_UpdateApplicationSettings client rg site appSettings)
        "setting App Settings for Windows %s: %+v".

(** The groups after the application settings whose expanded representation
    has non-nil properties, in order: auth, logs, backup, storage,
    connection strings. *)
Definition groups_after_settings
    (client : WebAppsClient) (id : parse.WebAppId)
    (auth : web.SiteAuthSettings) (logsConfig : web.SiteLogsConfig)
    (backupConfig : web.BackupRequest)
    (storageConfig : web.AzureStoragePropertyDictionaryResource)
    (connectionStrings : web.ConnectionStringDictionary)
    : list applied_group :=
  let rg := parse.WebAppId_ResourceGroup id in
  let site := parse.WebAppId_SiteName id in
  present (web.SiteAuthSettings_Properties auth)
    (Apply (CallUpdateAuthSettings rg site auth)
           (WebApps_UpdateAuthSettings client rg site auth)
           "setting Authorisation Settings for %s: %+v")
  ++ present (web.SiteLogsConfig_Properties logsConfig)
       (Apply (CallUpdateDiagnosticLogsConfig rg site logsConfig)
              (WebApps_UpdateDiagnosticLogsConfig client rg site logsConfig)
              "setting Diagnostic Logs Configuration for Windows %s: %+v")
  ++ present (web.BackupRequest_Properties backupConfig)
       (Apply (CallUpdateBackupConfiguration rg site backupConfig)
              (WebApps_UpdateBackupConfiguration client rg site backupConfig)
              "adding Backup Settings for Windows %s: %+v")
  ++ present (web.AzureStoragePropertyDictionaryResource_Properties storageConfig)
       (Apply (CallUpdateAzureStorageAccounts rg site storageConfig)
              (WebApps_UpdateAzureStorageAccounts client rg site storageConfig)
              "setting Storage Accounts for Windows %s: %+v")
  ++ present (web.ConnectionStringDictionary_Properties connectionStrings)
       (Apply (CallUpdateConnectionStrings rg site connectionStrings)
              (WebApps_UpdateConnectionStrings client rg site connectionStrings)
              "setting Connection Strings for Windows %s: %+v").

(** The groups in the spec's words: each group whose expanded
    representation is non-empty, that is, has non-nil properties, in the
    order settings, auth, logs, backup, storage, connection strings. *)
Definition Spec_nonempty_groups
    (client : WebAppsClient) (id : parse.WebAppId)
    (appSettings : option web.StringDictionary)
    (auth : web.SiteAuthSettings) (logsConfig : web.SiteLogsConfig)
    (backupConfig : web.BackupRequest)
    (storageConfig : web.AzureStoragePropertyDictionaryResource)
    (connectionStrings : web.ConnectionStringDictionary)
    : list applied_group :=
  match appSettings with
  | Some appSettings_ =>
      present (web.StringDictionary_Properties appSettings_)
        (appSettings_group client id appSettings_)
  | None => []
  end
  ++ groups_after_settings client id auth logsConfig backupConfig storageConfig
       connectionStrings.

(** The groups as [Create] guards them: the application settings when
    their expansion is not nil, whatever its properties; each of the
    others when its expansion has non-nil properties. *)
Definition Create_guarded_groups
    (client : WebAppsClient) (id : parse.WebAppId)
    (appSettings : option web.StringDictionary)
    (auth : web.SiteAuthSettings) (logsConfig : web.SiteLogsConfig)
    (backupConfig : web.BackupRequest)
    (storageConfig : web.AzureStoragePropertyDictionaryResource)
    (connectionStrings : web.ConnectionStringDictionary)
    : list applied_group :=
  match appSettings with
  | Some appSettings_ => [appSettings_group client id appSettings_]
  | None => []
  end
  ++ groups_after_settings client id auth logsConfig backupConfig storageConfig
       connectionStrings.

(** A tolerated answer of the backup read: no error, or NotFound. *)
Definition backup_read_tolerated (answer : web.BackupRequest * option error)
    : Prop :=
  answer.2 = None
  ∨ utils.ResponseWasNotFound (web.BackupRequest_Response answer.1) = true.

(** Every read that [Read] issues after the primary get answers without
    error, the backup read possibly with a tolerated NotFound.  The last
    read of the Windows resource, of the site metadata, is left to the
    theorems. *)
Definition reads_succeed (client : WebAppsClient) (rg site : string) : Prop :=
  (WebApps_GetConfiguration client rg site).2 = None
  ∧ (WebApps_GetAuthSettings client rg site).2 = None
  ∧ backup_read_tolerated (WebApps_GetBackupConfiguration client rg site)
  ∧ (WebApps_GetDiagnosticLogsConfiguration client rg site).2 = None
  ∧ (WebApps_ListApplicationSettings client rg site).2 = None
  ∧ (WebApps_ListAzureStorageAccounts client rg site).2 = None
  ∧ (WebApps_ListConnectionStrings client rg site).2 = None
  ∧ (WebApps_ListPublishingCredentials client rg site).2 = None
  ∧ ListPublishingCredentialsFuture_WaitForCompletionRef
      (WebApps_ListPublishingCredentials client rg site).1 = None
  ∧ (ListPublishingCredentialsFuture_Result
       (WebApps_ListPublishingCredentials client rg site).1).2 = None.

(** The errors the auxiliary reads of the Windows [Read] report, in the
    order of the reads; the backup read counts unless it is NotFound. *)
Definition auxiliary_read_errors (client : WebAppsClient) (rg site : string)
    : list (option error) :=
  let backup := WebApps_GetBackupConfiguration client rg site in
  let future := (WebApps_ListPublishingCredentials client rg site).1 in
  [ (WebApps_GetConfiguration client rg site).2;
    (WebApps_GetAuthSettings client rg site).2;
    (if utils.ResponseWasNotFound (web.BackupRequest_Response backup.1)
     then None else backup.2);
    (WebApps_GetDiagnosticLogsConfiguration client rg site).2;
    (WebApps_ListApplicationSettings client rg site).2;
    (WebApps_ListAzureStorageAccounts client rg site).2;
    (WebApps_ListConnectionStrings client rg site).2;
    (WebApps_ListPublishingCredentials client rg site).2;
    ListPublishingCredentialsFuture_WaitForCompletionRef future;
    (ListPublishingCredentialsFuture_Result future).2;
    (WebApps_ListMetadata client rg site).2 ].

End Vocabulary.

(** * Vocabulary of the Update properties *)
Section UpdateVocabulary.
Context `{Payloads} (hp : Helpers).

(** The position of a remote call in the source order of [Update]: the
    primary update, its completion, the current-stack metadata, then the
    sub-resource groups. *)
Definition Update_rank (c : Call) : nat :=
  match c with
  | CallCreateOrUpdate _ _ _ => 1
  | CallWaitForCompletionRef _ => 2
  | CallUpdateMetadata _ _ _ => 3
  | CallUpdateApplicationSettings _ _ _ => 4
  | CallUpdateConnectionStrings _ _ _ => 5
  | CallUpdateAuthSettings _ _ _ => 6
  | CallUpdateBackupConfiguration _ _ _ => 7
  | CallDeleteBackupConfiguration _ _ => 7
  | CallUpdateDiagnosticLogsConfig _ _ _ => 8
  | CallUpdateAzureStorageAccounts _ _ _ => 9
  | _ => 0
  end.

Fixpoint increasing (ranks : list nat) : bool :=
  match ranks with
  | a :: (b :: _) as rest => (a <? b)%nat && increasing rest
  | _ => true
  end.

Definition is_Ok {A} (r : result A) : bool :=
  match r with Ok _ => true | _ => false end.

(** What entitles [Update] to a sub-resource call: the corresponding field
    changed, and the call carries the expansion of the desired state; for
    the backup group, the properties of the expansion select the call. *)
Definition Update_call_justified
    (metadata : ResourceMetaData Windows.WindowsWebAppModel) (c : Call) : Prop :=
  let state := (Decode metadata).1 in
  let changed := ResourceData_HasChange metadata in
  match c with
  | CallUpdateApplicationSettings _ _ appSettingsUpdate =>
      changed "app_settings" = true
      ∧ ExpandAppSettings hp (Windows.AppSettings state) = Some appSettingsUpdate
  | CallUpdateConnectionStrings _ _ connectionStringUpdate =>
      changed "connection_string" = true
      ∧ ExpandConnectionStrings hp (Windows.ConnectionStrings state)
        = Some connectionStringUpdate
  | CallUpdateAuthSettings _ _ authUpdate =>
      changed "auth_settings" = true
      ∧ ExpandAuthSettings hp (Windows.AuthSettings state) = Some authUpdate
  | CallUpdateBackupConfiguration _ _ backupUpdate =>
      changed "backup" = true
      ∧ ExpandBackupConfig hp (Windows.Backup state) = Some backupUpdate
      ∧ is_Some (web.BackupRequest_Properties backupUpdate)
  | CallDeleteBackupConfiguration _ _ =>
      changed "backup" = true
      ∧ ∃ backupUpdate,
          ExpandBackupConfig hp (Windows.Backup state) = Some backupUpdate
          ∧ web.BackupRequest_Properties backupUpdate = None
  | CallUpdateDiagnosticLogsConfig _ _ logsUpdate =>
      changed "logs" = true
      ∧ ExpandLogsConfig hp (Windows.LogsConfig state) = Some logsUpdate
  | CallUpdateAzureStorageAccounts _ _ storageAccountUpdate =>
      changed "storage_account" = true
      ∧ ExpandStorageConfig hp (Windows.StorageAccounts state)
        = Some storageAccountUpdate
  | _ => True
  end.

(** A step of the sub-resource phase of [Update] lets the run go on: the
    field is unchanged, or its expansion is there and the remote system
    accepts the update. *)
Definition step_passes {A} (changed : bool) (expanded : option A)
    (answer : A → option error) : Prop :=
  changed = false ∨ ∃ a, expanded = Some a ∧ answer a = None.

(** The steps of [Update] before the backup step let the run go on. *)
Definition reaches_backup_step
    (metadata : ResourceMetaData Windows.WindowsWebAppModel)
    (id : parse.WebAppId) (state : Windows.WindowsWebAppModel) : Prop :=
  let client := AppService_WebAppsClient metadata in
  let rg := parse.WebAppId_ResourceGroup id in
  let site := parse.WebAppId_SiteName id in
  step_passes (ResourceData_HasChange metadata "app_settings")
    (ExpandAppSettings hp (Windows.AppSettings state))
    (WebApps_UpdateApplicationSettings client rg site)
  ∧ step_passes (ResourceData_HasChange metadata "connection_string")
      (ExpandConnectionStrings hp (Windows.ConnectionStrings state))
      (WebApps_UpdateConnectionStrings client rg site)
  ∧ step_passes (ResourceData_HasChange metadata "auth_settings")
      (ExpandAuthSettings hp (Windows.AuthSettings state))
      (WebApps_UpdateAuthSettings client rg site).

End UpdateVocabulary.

(** * Vocabulary of the Create properties *)
Section CreateVocabulary.
Context `{Payloads} (hp : Helpers).

(** The name-availability request for a fully-qualified name
    [<name>.<plan-name>.<suffix>]. *)
Definition fqdn_request (webApp : Windows.WindowsWebAppModel)
    (servicePlanId : parse.ServicePlanId) (suffix : string)
    : web.ResourceNameAvailabilityRequest :=
  {| web.Request_Name :=
       Some (Windows.Name webApp +:+ "."
             +:+ parse.ServicePlanId_ServerfarmName servicePlanId
             +:+ "." +:+ suffix);
     web.Request_Type := web.CheckNameResourceTypesMicrosoftWebsites;
     web.Request_IsFqdn := Some true |}.

(** The suffix the spec states for a failed lookup of the environment:
    [<plan-name>.appserviceenvironment.net]. *)
Definition Spec_fallback_suffix (servicePlanId : parse.ServicePlanId) : string :=
  parse.ServicePlanId_ServerfarmName servicePlanId
    +:+ ".appserviceenvironment.net".

(** The suffix [Create] falls back to:
    [<environment-name>.appserviceenvironment.net]. *)
Definition fallback_suffix (aseId : parse.AppServiceEnvironmentId) : string :=
  parse.AppServiceEnvironmentId_HostingEnvironmentName aseId
    +:+ ".appserviceenvironment.net".

(** [Create] has got as far as a service plan hosted on the isolated
    environment [ase]: the model is decoded, the existence check reports
    NotFound, and the service plan is parsed and read. *)
Definition resolves_isolated_plan
    (metadata : ResourceMetaData Windows.WindowsWebAppModel)
    (webApp : Windows.WindowsWebAppModel)
    (servicePlanId : parse.ServicePlanId)
    (ase : web.HostingEnvironmentProfile) : Prop :=
  Decode metadata = (webApp, None)
  ∧ utils.ResponseWasNotFound
      (web.Site_Response
         (WebApps_Get (AppService_WebAppsClient metadata)
            (Windows.ResourceGroup webApp) (Windows.Name webApp)).1) = true
  ∧ parse_ServicePlanID hp (Windows.ServicePlanId webApp)
    = (Some servicePlanId, None)
  ∧ ∃ servicePlan servicePlanProperties,
      ServicePlans_Get (AppService_ServicePlanClient metadata)
        (parse.ServicePlanId_ResourceGroup servicePlanId)
        (parse.ServicePlanId_ServerfarmName servicePlanId)
      = (servicePlan, None)
      ∧ web.AppServicePlan_AppServicePlanProperties servicePlan
        = Some servicePlanProperties
      ∧ web.AppServicePlanProperties_HostingEnvironmentProfile
          servicePlanProperties = Some ase.

(** The lookup of the environment fails: its ID does not parse, or the
    environment cannot be read. *)
Definition ase_lookup_fails
    (metadata : ResourceMetaData Windows.WindowsWebAppModel)
    (aseId : option parse.AppServiceEnvironmentId) (parseErr : option error)
    : Prop :=
  is_Some parseErr
  ∨ ∃ aseId_, aseId = Some aseId_
      ∧ is_Some (AppServiceEnvironments_Get
                   (AppService_AppServiceEnvironmentClient metadata)
                   (parse.AppServiceEnvironmentId_ResourceGroup aseId_)
                   (parse.AppServiceEnvironmentId_HostingEnvironmentName aseId_)).2.

(** The claim of the spec on the fallback, for one invocation: whenever the
    lookup of the environment fails, the availability check is issued for
    [<name>.<plan-name>.<plan-name>.appserviceenvironment.net], a warning is
    logged, and [Create] goes on. *)
Definition Spec_fallback_claim
    (metadata : ResourceMetaData Windows.WindowsWebAppModel) : Prop :=
  ∀ webApp servicePlanId ase aseID r w,
    resolves_isolated_plan metadata webApp servicePlanId ase →
    web.HostingEnvironmentProfile_ID ase = Some aseID →
    ase_lookup_fails metadata (parse_AppServiceEnvironmentID hp aseID).1
      (parse_AppServiceEnvironmentID hp aseID).2 →
    Windows.Create hp metadata initial = (r, w) →
    CallCheckNameAvailability
      (fqdn_request webApp servicePlanId (Spec_fallback_suffix servicePlanId))
      ∈ calls w
    ∧ (∃ entry, entry ∈ logs w ∧ log_level entry = LevelWarn).

(** The claim of the spec on the sub-resource groups, for one invocation:
    once the create operation has completed, [Create] is the sequential
    application of the groups with non-nil properties. *)
Definition Spec_subresources_claim
    (metadata : ResourceMetaData Windows.WindowsWebAppModel) : Prop :=
  ∀ webApp id w1 auth logsConfig backupConfig storageConfig connectionStrings,
    Windows.Create_primary hp metadata initial = (Ok (webApp, id), w1) →
    ExpandAuthSettings hp (Windows.AuthSettings webApp) = Some auth →
    ExpandLogsConfig hp (Windows.LogsConfig webApp) = Some logsConfig →
    ExpandBackupConfig hp (Windows.Backup webApp) = Some backupConfig →
    ExpandStorageConfig hp (Windows.StorageAccounts webApp)
      = Some storageConfig →
    ExpandConnectionStrings hp (Windows.ConnectionStrings webApp)
      = Some connectionStrings →
    let applied :=
      Spec_apply_groups id
        (Spec_nonempty_groups (AppService_WebAppsClient metadata) id
           (ExpandAppSettings hp (Windows.AppSettings webApp))
           auth logsConfig backupConfig storageConfig connectionStrings) in
    Windows.Create hp metadata initial
    = (applied.1,
       MkWorld (calls w1 ++ applied.2) (logs w1) (IdSet id) (encoded w1)).

End CreateVocabulary.

(** * Schemas (package [pluginsdk]) *)
Module pluginsdk.

Inductive ValueType : Type :=
  | TypeInvalid | TypeBool | TypeInt | TypeFloat | TypeString
  | TypeList | TypeMap | TypeSet.

(** The values the schemas of these files give as defaults. *)
Inductive DefaultValue : Type :=
  | DefaultBool (b : bool)
  | DefaultString (s : string).

(** The validation functions the schemas of these files name. *)
Inductive SchemaValidateFunc : Type :=
  | validate_WebAppName
  | validate_ServicePlanID
  | validate_WebAppID
  | validation_StringInSlice (valid : list string) (ignoreCase : bool).

(** [pluginsdk.Schema], with the fields these files set; a field that a
    literal leaves out has its zero value. *)
#[warnings="-register-all"]
Inductive Schema : Type := MkSchema {
  Type_ : ValueType;
  Required : bool;
  Optional : bool;
  Computed : bool;
  ForceNew : bool;
  Sensitive : bool;
  Default : option DefaultValue;
  Elem : option Schema;
  ValidateFunc : option SchemaValidateFunc;
}.

(** The zero value of a schema. *)
Definition zero : Schema :=
  MkSchema TypeInvalid false false false false false None None None.

End pluginsdk.

(** The schemas that other packages of the repository provide, none of
    which is under src/, and the two constants of the vendor SDK that the
    validation of [client_cert_mode] lists. *)
Record SchemaHelpers : Type := {
  azure_SchemaResourceGroupName : pluginsdk.Schema;
  azure_SchemaResourceGroupNameForDataSource : pluginsdk.Schema;
  location_Schema : pluginsdk.Schema;
  location_SchemaComputed : pluginsdk.Schema;
  tags_Schema : pluginsdk.Schema;
  tags_SchemaDataSource : pluginsdk.Schema;
  helpers_AuthSettingsSchema : pluginsdk.Schema;
  helpers_AuthSettingsSchemaComputed : pluginsdk.Schema;
  helpers_BackupSchema : pluginsdk.Schema;
  helpers_BackupSchemaComputed : pluginsdk.Schema;
  helpers_ConnectionStringSchema : pluginsdk.Schema;
  helpers_ConnectionStringSchemaComputed : pluginsdk.Schema;
  helpers_IdentitySchema : pluginsdk.Schema;
  helpers_IdentitySchemaComputed : pluginsdk.Schema;
  helpers_LogsConfigSchema : pluginsdk.Schema;
  helpers_LogsConfigSchemaComputed : pluginsdk.Schema;
  helpers_SiteConfigSchemaWindows : pluginsdk.Schema;
  helpers_SiteConfigSchemaLinuxComputed : pluginsdk.Schema;
  helpers_StorageAccountSchema : pluginsdk.Schema;
  helpers_StorageAccountSchemaComputed : pluginsdk.Schema;
  helpers_SiteCredentialSchema : pluginsdk.Schema;
  web_ClientCertModeOptional : string;
  web_ClientCertModeRequired : string;
}.

(** ** The schema of the Windows Web App resource *)
Module WindowsWebAppResource.
Import pluginsdk.

(** The [tfschema] tags of the fields of [WindowsWebAppModel], in the order
    of the declaration. *)
Definition WindowsWebAppModel_tfschema : list (string * string) :=
  [ ("Name", "name");
    ("ResourceGroup", "resource_group_name");
    ("Location", "location");
    ("ServicePlanId", "service_plan_id");
    ("AppSettings", "app_settings");
    ("AuthSettings", "auth_settings");
    ("Backup", "backup");
    ("ClientAffinityEnabled", "client_affinity_enabled");
    ("ClientCertEnabled", "client_cert_enabled");
    ("ClientCertMode", "client_cert_mode");
    ("Enabled", "enabled");
    ("HttpsOnly", "https_only");
    ("Identity", "identity");
    ("LogsConfig", "logs");
    ("SiteConfig", "site_config");
    ("StorageAccounts", "storage_account");
    ("ConnectionStrings", "connection_string");
    ("CustomDomainVerificationId", "custom_domain_verification_id");
    ("DefaultHostname", "default_hostname");
    ("Kind", "kind");
    ("OutboundIPAddresses", "outbound_ip_addresses");
    ("OutboundIPAddressList", "outbound_ip_address_list");
    ("PossibleOutboundIPAddresses", "possible_outbound_ip_addresses");
    ("PossibleOutboundIPAddressList", "possible_outbound_ip_address_list");
    ("SiteCredentials", "site_credential");
    ("Tags", "tags") ].

Definition Arguments (sh : SchemaHelpers) : gmap string Schema :=
  list_to_map
    [ ("name",
       MkSchema TypeString true false false true false None None
         (Some validate_WebAppName));
      ("resource_group_name", azure_SchemaResourceGroupName sh);
      ("location", location_Schema sh);
      ("service_plan_id",
       MkSchema TypeString true false false false false None None
         (Some validate_ServicePlanID));
      (* Optional *)
      ("app_settings",
       MkSchema TypeMap false true true false false None
         (Some (MkSchema TypeString false false false false false None None
                  None))
         None);
      ("auth_settings", helpers_AuthSettingsSchema sh);
      ("backup", helpers_BackupSchema sh);
      ("client_affinity_enabled",
       MkSchema TypeBool false true false false false
         (Some (DefaultBool false)) None None);
      ("client_cert_enabled",
       MkSchema TypeBool false true false false false
         (Some (DefaultBool false)) None None);
      ("client_cert_mode",
       MkSchema TypeString false true false false false
         (Some (DefaultString "Required")) None
         (Some (validation_StringInSlice
                  [web_ClientCertModeOptional sh; web_ClientCertModeRequired sh]
                  false)));
      ("connection_string", helpers_ConnectionStringSchema sh);
      ("enabled",
       MkSchema TypeBool false true false false false
         (Some (DefaultBool true)) None None);
      ("https_only",
       MkSchema TypeBool false true false false false
         (Some (DefaultBool false)) None None);
      ("identity", helpers_IdentitySchema sh);
      ("logs", helpers_LogsConfigSchema sh);
      ("site_config", helpers_SiteConfigSchemaWindows sh);
      ("storage_account", helpers_StorageAccountSchema sh);
      ("tags", tags_Schema sh) ].

Definition Attributes (sh : SchemaHelpers) : gmap string Schema :=
  let computedString :=
    MkSchema TypeString false false true false false None None None in
  let computedStringList :=
    MkSchema TypeList false false true false false None
      (Some (MkSchema TypeString false false false false false None None None))
      None in
  list_to_map
    [ ("custom_domain_verification_id",
       MkSchema TypeString false false true false true None None None);
      ("default_hostname", computedString);
      ("kind", computedString);
      ("outbound_ip_addresses", computedString);
      ("outbound_ip_address_list", computedStringList);
      ("possible_outbound_ip_addresses", computedString);
      ("possible_outbound_ip_address_list", computedStringList);
      ("site_credential", helpers_SiteCredentialSchema sh) ].

Definition IDValidationFunc : SchemaValidateFunc := validate_WebAppID.

End WindowsWebAppResource.

(** ** The schema of the Linux Web App data source *)
Module LinuxWebAppDataSource.
Import pluginsdk.

Definition Arguments (sh : SchemaHelpers) : gmap string Schema :=
  list_to_map
    [ ("name",
       MkSchema TypeString true false false false false None None
         (Some validate_WebAppName));
      ("resource_group_name", azure_SchemaResourceGroupNameForDataSource sh) ].

Definition Attributes (sh : SchemaHelpers) : gmap string Schema :=
  let computed (type : ValueType) :=
    MkSchema type false false true false false None None None in
  let computedOfStrings (type : ValueType) :=
    MkSchema type false false true false false None
      (Some (MkSchema TypeString false false false false false None None None))
      None in
  list_to_map
    [ ("location", location_SchemaComputed sh);
      ("app_metadata", computedOfStrings TypeMap);
      ("app_settings", computedOfStrings TypeMap);
      ("auth_settings", helpers_AuthSettingsSchemaComputed sh);
      ("backup", helpers_BackupSchemaComputed sh);
      ("client_affinity_enabled", computed TypeBool);
      ("client_cert_enabled", computed TypeBool);
      ("client_cert_mode", computed TypeString);
      ("connection_string", helpers_ConnectionStringSchemaComputed sh);
      ("custom_domain_verification_id",
       MkSchema TypeString false false true false true None None None);
      ("default_hostname", computed TypeString);
      ("enabled", computed TypeBool);
      ("https_only", computed TypeBool);
      ("identity", helpers_IdentitySchemaComputed sh);
      ("kind", computed TypeString);
      ("logs", helpers_LogsConfigSchemaComputed sh);
      ("outbound_ip_addresses", computed TypeString);
      ("outbound_ip_address_list", computedOfStrings TypeList);
      ("possible_outbound_ip_addresses", computed TypeString);
      ("possible_outbound_ip_address_list", computedOfStrings TypeList);
      ("site_credential", helpers_SiteCredentialSchema sh);
      ("service_plan_id", computed TypeString);
      ("site_config", helpers_SiteConfigSchemaLinuxComputed sh);
      ("storage_account", helpers_StorageAccountSchemaComputed sh);
      ("tags", tags_SchemaDataSource sh) ].

End LinuxWebAppDataSource.

(** * Vocabulary of the traces *)
Section TraceVocabulary.
Context `{Payloads} (hp : Helpers).

(** The web application a remote call addresses: its resource group and its
    name, for the calls of the web-apps client that carry them. *)
Definition call_target (c : Call) : option (string * string) :=
  match c with
  | CallGet rg site
  | CallCreateOrUpdate rg site _
  | CallUpdateMetadata rg site _
  | CallUpdateApplicationSettings rg site _
  | CallUpdateAuthSettings rg site _
  | CallUpdateDiagnosticLogsConfig rg site _
  | CallUpdateBackupConfiguration rg site _
  | CallDeleteBackupConfiguration rg site
  | CallUpdateAzureStorageAccounts rg site _
  | CallUpdateConnectionStrings rg site _
  | CallDelete rg site _ _
  | CallGetConfiguration rg site
  | CallGetAuthSettings rg site
  | CallGetBackupConfiguration rg site
  | CallGetDiagnosticLogsConfiguration rg site
  | CallListApplicationSettings rg site
  | CallListAzureStorageAccounts rg site
  | CallListConnectionStrings rg site
  | CallListPublishingCredentials rg site
  | CallListMetadata rg site => Some (rg, site)
  | CallServicePlanGet _ _
  | CallAppServiceEnvironmentGet _ _
  | CallCheckNameAvailability _
  | CallWaitForCompletionRef _
  | CallResult _ => None
  end.

(** A call that changes the remote system. *)
Definition is_write (c : Call) : bool :=
  match c with
  | CallCreateOrUpdate _ _ _
  | CallUpdateMetadata _ _ _
  | CallUpdateApplicationSettings _ _ _
  | CallUpdateAuthSettings _ _ _
  | CallUpdateDiagnosticLogsConfig _ _ _
  | CallUpdateBackupConfiguration _ _ _
  | CallDeleteBackupConfiguration _ _
  | CallUpdateAzureStorageAccounts _ _ _
  | CallUpdateConnectionStrings _ _ _
  | CallDelete _ _ _ _ => true
  | _ => false
  end.

(** The site a model describes, as a request carries it: the properties the
    configuration sets, the expanded site configuration, and nothing of what
    the remote system computes. *)
Definition site_of_model (webApp : Windows.WindowsWebAppModel) : web.Site :=
  {| web.Site_Response := None;
     web.Site_Location := Some (Windows.Location webApp);
     web.Site_Tags := tags_FromTypedObject hp (Windows.Tags webApp);
     web.Site_SiteProperties := Some
       {| web.ServerFarmID := Some (Windows.ServicePlanId webApp);
          web.Enabled := Some (Windows.Enabled webApp);
          web.HTTPSOnly := Some (Windows.HttpsOnly webApp);
          web.SiteProperties_SiteConfig :=
            (ExpandSiteConfigWindows hp (Windows.SiteConfig webApp)).1.1;
          web.ClientAffinityEnabled := Some (Windows.ClientAffinityEnabled webApp);
          web.ClientCertEnabled := Some (Windows.ClientCertEnabled webApp);
          web.ClientCertMode := Windows.ClientCertMode webApp;
          web.CustomDomainVerificationID := None;
          web.DefaultHostName := None;
          web.OutboundIPAddresses := None;
          web.PossibleOutboundIPAddresses := None |};
     web.Site_Identity := ExpandIdentity hp (Windows.Identity webApp);
     web.Site_Kind := None |}.

(** The site metadata that records the current stack. *)
Definition currentStack_metadata (stack : string) : web.StringDictionary :=
  {| web.StringDictionary_Response := None;
     web.StringDictionary_Properties :=
       Some (<["CURRENT_STACK" := Some stack]> ∅) |}.

(** The name-availability request for a plain site name. *)
Definition name_request (webApp : Windows.WindowsWebAppModel)
    : web.ResourceNameAvailabilityRequest :=
  {| web.Request_Name := Some (Windows.Name webApp);
     web.Request_Type := web.CheckNameResourceTypesMicrosoftWebsites;
     web.Request_IsFqdn := None |}.

(** The position of a remote call in the source order of [Create]. *)
Definition Create_rank (c : Call) : nat :=
  match c with
  | CallGet _ _ => 1
  | CallServicePlanGet _ _ => 2
  | CallAppServiceEnvironmentGet _ _ => 3
  | CallCheckNameAvailability _ => 4
  | CallCreateOrUpdate _ _ _ => 5
  | CallWaitForCompletionRef _ => 6
  | CallUpdateMetadata _ _ _ => 7
  | CallUpdateApplicationSettings _ _ _ => 8
  | CallUpdateAuthSettings _ _ _ => 9
  | CallUpdateDiagnosticLogsConfig _ _ _ => 10
  | CallUpdateBackupConfiguration _ _ _ => 11
  | CallUpdateAzureStorageAccounts _ _ _ => 12
  | CallUpdateConnectionStrings _ _ _ => 13
  | _ => 0
  end.

(** What entitles the primary phase of [Create] to a remote call: the
    answers that the steps before it have received. *)
Definition Create_call_justified
    (metadata : ResourceMetaData Windows.WindowsWebAppModel) (c : Call) : Prop :=
  let webApp := (Decode metadata).1 in
  let client := AppService_WebAppsClient metadata in
  let rg := Windows.ResourceGroup webApp in
  let site := Windows.Name webApp in
  let expanded := ExpandSiteConfigWindows hp (Windows.SiteConfig webApp) in
  let created := WebApps_CreateOrUpdate client rg site (site_of_model webApp) in
  match c with
  | CallGet rg' site' => (Decode metadata).2 = None ∧ (rg', site') = (rg, site)
  | CallServicePlanGet rg' name' =>
      utils.ResponseWasNotFound
        (web.Site_Response (WebApps_Get client rg site).1) = true
      ∧ ∃ servicePlanId,
          parse_ServicePlanID hp (Windows.ServicePlanId webApp)
            = (Some servicePlanId, None)
          ∧ rg' = parse.ServicePlanId_ResourceGroup servicePlanId
          ∧ name' = parse.ServicePlanId_ServerfarmName servicePlanId
  | CallAppServiceEnvironmentGet rg' name' =>
      ∃ servicePlanId ase aseID aseId,
        resolves_isolated_plan hp metadata webApp servicePlanId ase
        ∧ web.HostingEnvironmentProfile_ID ase = Some aseID
        ∧ parse_AppServiceEnvironmentID hp aseID = (Some aseId, None)
        ∧ rg' = parse.AppServiceEnvironmentId_ResourceGroup aseId
        ∧ name' = parse.AppServiceEnvironmentId_HostingEnvironmentName aseId
  | CallCheckNameAvailability request =>
      ∃ servicePlanId servicePlan servicePlanProperties,
        parse_ServicePlanID hp (Windows.ServicePlanId webApp)
          = (Some servicePlanId, None)
        ∧ ServicePlans_Get (AppService_ServicePlanClient metadata)
            (parse.ServicePlanId_ResourceGroup servicePlanId)
            (parse.ServicePlanId_ServerfarmName servicePlanId)
          = (servicePlan, None)
        ∧ web.AppServicePlan_AppServicePlanProperties servicePlan
          = Some servicePlanProperties
        ∧ match web.AppServicePlanProperties_HostingEnvironmentProfile
                  servicePlanProperties with
          | Some _ => ∃ suffix, request = fqdn_request webApp servicePlanId suffix
          | None => request = name_request webApp
          end
  | CallCreateOrUpdate rg' site' siteEnvelope =>
      (rg', site') = (rg, site)
      ∧ siteEnvelope = site_of_model webApp
      ∧ expanded.2 = None
  | CallWaitForCompletionRef op =>
      op = OpCreateOrUpdate ∧ created.2 = None
  | CallUpdateMetadata rg' site' siteMetadata =>
      (rg', site') = (rg, site)
      ∧ created.2 = None
      ∧ CreateOrUpdateFuture_WaitForCompletionRef created.1 = None
      ∧ ∃ stack,
          expanded.1.2 = Some stack ∧ stack ≠ ""
          ∧ siteMetadata = currentStack_metadata stack
  | _ => False
  end.

(** What the answer to the site metadata of the current stack means for
    the primary phase of [Create]: an error ends it with that error
    wrapped, and otherwise it goes through. *)
Definition Create_metadata_outcome
    (metadata : ResourceMetaData Windows.WindowsWebAppModel)
    (siteMetadata : web.StringDictionary)
    (r1 : result (Windows.WindowsWebAppModel * parse.WebAppId)) : Prop :=
  let webApp := (Decode metadata).1 in
  let id := parse.NewWebAppID (Account_SubscriptionId metadata)
              (Windows.ResourceGroup webApp) (Windows.Name webApp) in
  match WebApps_UpdateMetadata (AppService_WebAppsClient metadata)
          (Windows.ResourceGroup webApp) (Windows.Name webApp) siteMetadata with
  | Some e =>
      r1 = Err (Errorf "setting Site Metadata for Current Stack on Windows %s: %+v"
                       [ArgWebAppId id; ArgError e])
  | None => r1 = Ok (webApp, id)
  end.

(** What entitles [Create] to a log entry: it is a warning, and the lookup
    of the environment that hosts the service plan has failed. *)
Definition Create_log_justified
    (metadata : ResourceMetaData Windows.WindowsWebAppModel)
    (entry : logentry) : Prop :=
  log_level entry = LevelWarn
  ∧ ∃ servicePlanId ase aseID,
      resolves_isolated_plan hp metadata (Decode metadata).1 servicePlanId ase
      ∧ web.HostingEnvironmentProfile_ID ase = Some aseID
      ∧ ase_lookup_fails metadata (parse_AppServiceEnvironmentID hp aseID).1
          (parse_AppServiceEnvironmentID hp aseID).2.

(** The site is created only for a name that is free: the existence check
    has reported NotFound, and the availability check that was issued has
    answered that the name is available. *)
Definition Create_name_is_free
    (metadata : ResourceMetaData Windows.WindowsWebAppModel)
    (issued : list Call) : Prop :=
  let webApp := (Decode metadata).1 in
  let client := AppService_WebAppsClient metadata in
  utils.ResponseWasNotFound
    (web.Site_Response
       (WebApps_Get client (Windows.ResourceGroup webApp)
          (Windows.Name webApp)).1) = true
  ∧ ∃ request checkName,
      CallCheckNameAvailability request ∈ issued
      ∧ WebApps_CheckNameAvailability client request = (checkName, None)
      ∧ web.NameAvailable checkName = Some true.

(** The settings of a site that the configuration determines. *)
Definition configured (props : web.SiteProperties)
    : option string * option bool * option bool * option bool * option bool
      * string :=
  (web.ServerFarmID props, web.Enabled props, web.HTTPSOnly props,
   web.ClientAffinityEnabled props, web.ClientCertEnabled props,
   web.ClientCertMode props).

(** The schema key of the field that holds a sub-resource group. *)
Definition field_of_group (g : group) : string :=
  match g with
  | GroupAppSettings => "app_settings"
  | GroupAuthSettings => "auth_settings"
  | GroupLogs => "logs"
  | GroupBackup => "backup"
  | GroupStorageAccounts => "storage_account"
  | GroupConnectionStrings => "connection_string"
  end.

(** What entitles the primary phase of [Update] to a remote call. *)
Definition Update_primary_call_justified
    (metadata : ResourceMetaData Windows.WindowsWebAppModel) (c : Call) : Prop :=
  let state := (Decode metadata).1 in
  let client := AppService_WebAppsClient metadata in
  let expanded := ExpandSiteConfigWindows hp (Windows.SiteConfig state) in
  ∃ id,
    parse_WebAppID hp (ResourceData_Id metadata) = (Some id, None)
    ∧ (Decode metadata).2 = None
    ∧ expanded.2 = None
    ∧ let rg := parse.WebAppId_ResourceGroup id in
      let site := parse.WebAppId_SiteName id in
      let updated := WebApps_CreateOrUpdate client rg site (site_of_model state) in
      match c with
      | CallCreateOrUpdate rg' site' siteEnvelope =>
          (rg', site') = (rg, site) ∧ siteEnvelope = site_of_model state
      | CallWaitForCompletionRef op => op = OpCreateOrUpdate ∧ updated.2 = None
      | CallUpdateMetadata rg' site' siteMetadata =>
          (rg', site') = (rg, site)
          ∧ updated.2 = None
          ∧ CreateOrUpdateFuture_WaitForCompletionRef updated.1 = None
          ∧ ∃ stack,
              expanded.1.2 = Some stack ∧ stack ≠ ""
              ∧ siteMetadata = currentStack_metadata stack
      | _ => False
      end.

(** The reads of [Read], in source order. *)
Definition Read_calls (rg site : string) : list Call :=
  [ CallGet rg site;
    CallGetConfiguration rg site;
    CallGetAuthSettings rg site;
    CallGetBackupConfiguration rg site;
    CallGetDiagnosticLogsConfiguration rg site;
    CallListApplicationSettings rg site;
    CallListAzureStorageAccounts rg site;
    CallListConnectionStrings rg site;
    CallListPublishingCredentials rg site;
    CallWaitForCompletionRef OpListPublishingCredentials;
    CallResult OpListPublishingCredentials;
    CallListMetadata rg site ].

(** The first error of a list of answers, with its position. *)
Fixpoint first_error (answers : list (option error)) : option (nat * error) :=
  match answers with
  | [] => None
  | Some e :: _ => Some (0, e)
  | None :: rest =>
      match first_error rest with
      | Some (n, e) => Some (S n, e)
      | None => None
      end
  end.

End TraceVocabulary.

(** * Vocabulary of the schema properties *)
Section SchemaVocabulary.
Context `{Payloads}.

(** The whole schema of the Windows Web App resource. *)
Definition Windows_schema (sh : SchemaHelpers) : gmap string pluginsdk.Schema :=
  WindowsWebAppResource.Arguments sh ∪ WindowsWebAppResource.Attributes sh.

(** The whole schema of the Linux Web App data source. *)
Definition Linux_schema (sh : SchemaHelpers) : gmap string pluginsdk.Schema :=
  LinuxWebAppDataSource.Arguments sh ∪ LinuxWebAppDataSource.Attributes sh.

(** The keys whose schema comes from another package. *)
Definition provided_keys : list string :=
  [ "resource_group_name"; "location"; "auth_settings"; "backup";
    "connection_string"; "identity"; "logs"; "site_config";
    "storage_account"; "site_credential"; "tags" ].

(** The value of a default has the type of its schema. *)
Definition default_has_type (s : pluginsdk.Schema) : Prop :=
  match pluginsdk.Default s, pluginsdk.Type_ s with
  | None, _ => True
  | Some (pluginsdk.DefaultBool _), pluginsdk.TypeBool => True
  | Some (pluginsdk.DefaultString _), pluginsdk.TypeString => True
  | Some _, _ => False
  end.

(** The host with other change flags. *)
Definition with_changes {St} (metadata : ResourceMetaData St)
    (changed : string → bool) : ResourceMetaData St :=
  {| Decode := Decode metadata;
     Encode := Encode metadata;
     ResourceData_Id := ResourceData_Id metadata;
     ResourceData_HasChange := changed;
     Account_SubscriptionId := Account_SubscriptionId metadata;
     AppService_WebAppsClient := AppService_WebAppsClient metadata;
     AppService_ServicePlanClient := AppService_ServicePlanClient metadata;
     AppService_AppServiceEnvironmentClient :=
       AppService_AppServiceEnvironmentClient metadata |}.

End SchemaVocabulary.

(** * A concrete deployment

    The web application [app1] of resource group [rg1], on the service plan
    [plan1] hosted on the App Service Environment [ase1].  The payloads the
    drivers only carry are units. *)
Module Scenario.

Definition payloads : Payloads :=
  {| helpers_AuthSettings := unit; helpers_Backup := unit;
     helpers_Identity := unit; helpers_LogsConfig := unit;
     helpers_SiteConfigWindows := unit; helpers_SiteConfigLinux := unit;
     helpers_StorageAccount := unit; helpers_ConnectionString := unit;
     helpers_SiteCredential := unit;
     web_SiteAuthSettingsProperties := unit;
     web_BackupRequestProperties := unit;
     web_SiteLogsConfigProperties := unit;
     web_AzureStorageInfoValue := unit;
     web_ConnStringValueTypePair := unit;
     web_SiteConfig := unit; web_ManagedServiceIdentity := unit;
     web_UserProperties := unit |}.
#[local] Existing Instance payloads.

Definition app1 : parse.WebAppId := parse.NewWebAppID "sub1" "rg1" "app1".
Definition plan1 : parse.ServicePlanId := parse.NewServicePlanID "sub1" "rg1" "plan1".
Definition ase1 : parse.AppServiceEnvironmentId :=
  parse.NewAppServiceEnvironmentID "sub1" "rg1" "ase1".

Definition boom : error := ErrRemote "remote failure".

(** A map of strings as a map of pointers to strings. *)
Definition pointers (m : gmap string string) : gmap string (option string) :=
  Some <$> m.

(** The properties of an expanded block: present when the block is. *)
Definition block {A} (blocks : option (list A)) : option unit :=
  match blocks with
  | Some (_ :: _) => Some tt
  | _ => None
  end.

(** Helpers that expand a block to a non-nil representation whose
    properties are present when the block is; [aseParse] is what the parser
    of environment IDs returns. *)
Definition helpers
    (aseParse : option parse.AppServiceEnvironmentId * option error) : Helpers :=
  {| parse_WebAppID := λ _, (Some app1, None);
     parse_ServicePlanID := λ _, (Some plan1, None);
     parse_AppServiceEnvironmentID := λ _, aseParse;
     ExpandSiteConfigWindows := λ _, (None, None, None);
     ExpandIdentity := λ _, None;
     ExpandAppSettings := λ settings,
       match settings with
       | Some m =>
           Some {| web.StringDictionary_Response := None;
                   web.StringDictionary_Properties := Some (pointers m) |}
       | None => None
       end;
     ExpandAuthSettings := λ blocks,
       Some {| web.SiteAuthSettings_Response := None;
               web.SiteAuthSettings_Properties := block blocks |};
     ExpandLogsConfig := λ blocks,
       Some {| web.SiteLogsConfig_Response := None;
               web.SiteLogsConfig_Properties := block blocks |};
     ExpandBackupConfig := λ blocks,
       Some {| web.BackupRequest_Response := None;
               web.BackupRequest_Properties := block blocks |};
     ExpandStorageConfig := λ blocks,
       Some {| web.AzureStoragePropertyDictionaryResource_Response := None;
               web.AzureStoragePropertyDictionaryResource_Properties :=
                 match block blocks with Some _ => Some ∅ | None => None end |};
     ExpandConnectionStrings := λ blocks,
       Some {| web.ConnectionStringDictionary_Response := None;
               web.ConnectionStringDictionary_Properties :=
                 match block blocks with Some _ => Some ∅ | None => None end |};
     FlattenAppSettings := λ _, None;
     FlattenAuthSettings := λ _, None;
     FlattenBackupConfig := λ _, None;
     FlattenIdentity := λ _, None;
     FlattenLogsConfig := λ _, None;
     FlattenSiteConfigWindows := λ _ _, None;
     FlattenSiteConfigLinux := λ _, None;
     FlattenStorageAccounts := λ _, None;
     FlattenConnectionStrings := λ _, None;
     FlattenSiteCredentials := λ _, None;
     tags_FromTypedObject := λ tags,
       match tags with Some m => Some (pointers m) | None => None end;
     tags_ToTypedObject := λ _, None;
     location_NormalizeNilable := default "";
     utils_NormalizeNilableString := default "" |}.

(** The helpers with a parser that knows the environment [ase1]. *)
Definition hp1 : Helpers := helpers (Some ase1, None).

(** The helpers with a parser that rejects the ID of the environment. *)
Definition hp_unparsed : Helpers := helpers (None, Some boom).

(** A remote system that answers the primary get with [existing], the
    backup read with [backup], and fails the calls [failing] selects. *)
Definition client (existing : web.Site * option error)
    (backup : web.BackupRequest * option error)
    (failing : Call → option error) : WebAppsClient :=
  {| WebApps_Get := λ _ _, existing;
     WebApps_CheckNameAvailability := λ request,
       ({| web.NameAvailable := Some true; web.Message := None |},
        failing (CallCheckNameAvailability request));
     WebApps_CreateOrUpdate := λ rg site siteEnvelope,
       ({| CreateOrUpdateFuture_WaitForCompletionRef :=
             failing (CallWaitForCompletionRef OpCreateOrUpdate) |},
        failing (CallCreateOrUpdate rg site siteEnvelope));
     WebApps_UpdateMetadata := λ rg site v, failing (CallUpdateMetadata rg site v);
     WebApps_UpdateApplicationSettings := λ rg site v,
       failing (CallUpdateApplicationSettings rg site v);
     WebApps_UpdateAuthSettings := λ rg site v,
       failing (CallUpdateAuthSettings rg site v);
     WebApps_UpdateDiagnosticLogsConfig := λ rg site v,
       failing (CallUpdateDiagnosticLogsConfig rg site v);
     WebApps_UpdateBackupConfiguration := λ rg site v,
       failing (CallUpdateBackupConfiguration rg site v);
     WebApps_DeleteBackupConfiguration := λ rg site,
       failing (CallDeleteBackupConfiguration rg site);
     WebApps_UpdateAzureStorageAccounts := λ rg site v,
       failing (CallUpdateAzureStorageAccounts rg site v);
     WebApps_UpdateConnectionStrings := λ rg site v,
       failing (CallUpdateConnectionStrings rg site v);
     WebApps_Delete := λ rg site deleteMetrics deleteEmptyServerFarm,
       failing (CallDelete rg site deleteMetrics deleteEmptyServerFarm);
     WebApps_GetConfiguration := λ rg site,
       ({| web.SiteConfigResource_Response := Some 200%Z;
           web.SiteConfigResource_SiteConfig := None |},
        failing (CallGetConfiguration rg site));
     WebApps_GetAuthSettings := λ rg site,
       ({| web.SiteAuthSettings_Response := Some 200%Z;
           web.SiteAuthSettings_Properties := None |},
        failing (CallGetAuthSettings rg site));
     WebApps_GetBackupConfiguration := λ _ _, backup;
     WebApps_GetDiagnosticLogsConfiguration := λ rg site,
       ({| web.SiteLogsConfig_Response := Some 200%Z;
           web.SiteLogsConfig_Properties := None |},
        failing (CallGetDiagnosticLogsConfiguration rg site));
     WebApps_ListApplicationSettings := λ rg site,
       ({| web.StringDictionary_Response := Some 200%Z;
           web.StringDictionary_Properties := None |},
        failing (CallListApplicationSettings rg site));
     WebApps_ListAzureStorageAccounts := λ rg site,
       ({| web.AzureStoragePropertyDictionaryResource_Response := Some 200%Z;
           web.AzureStoragePropertyDictionaryResource_Properties := None |},
        failing (CallListAzureStorageAccounts rg site));
     WebApps_ListConnectionStrings := λ rg site,
       ({| web.ConnectionStringDictionary_Response := Some 200%Z;
           web.ConnectionStringDictionary_Properties := None |},
        failing (CallListConnectionStrings rg site));
     WebApps_ListPublishingCredentials := λ rg site,
       ({| ListPublishingCredentialsFuture_WaitForCompletionRef :=
             failing (CallWaitForCompletionRef OpListPublishingCredentials);
           ListPublishingCredentialsFuture_Result :=
             ({| web.User_Response := Some 200%Z; web.User_Properties := None |},
              failing (CallResult OpListPublishingCredentials)) |},
        failing (CallListPublishingCredentials rg site));
     WebApps_ListMetadata := λ rg site,
       ({| web.StringDictionary_Response := Some 200%Z;
           web.StringDictionary_Properties := None |},
        failing (CallListMetadata rg site)) |}.

Definition nothing_fails : Call → option error := λ _, None.

Definition logs_update_fails : Call → option error :=
  λ c, if is_logs_update c then Some boom else None.

(** The site as the remote system returns it, with the given flags. *)
Definition site (flags : option bool) : web.Site :=
  {| web.Site_Response := Some 200%Z;
     web.Site_SiteProperties := Some
       {| web.ServerFarmID := Some "/serverfarms/plan1";
          web.Enabled := flags;
          web.HTTPSOnly := flags;
          web.SiteProperties_SiteConfig := None;
          web.ClientAffinityEnabled := flags;
          web.ClientCertEnabled := flags;
          web.ClientCertMode := "Required";
          web.CustomDomainVerificationID := None;
          web.DefaultHostName := Some "app1.azurewebsites.net";
          web.OutboundIPAddresses := Some "10.0.0.1,10.0.0.2";
          web.PossibleOutboundIPAddresses := None |};
     web.Site_Identity := None;
     web.Site_Kind := Some "app";
     web.Site_Location := Some "westeurope";
     web.Site_Tags := None |}.

(** The answer for an object that does not exist. *)
Definition missing_site : web.Site * option error :=
  ({| web.Site_Response := Some 404%Z;
      web.Site_SiteProperties := None; web.Site_Identity := None;
      web.Site_Kind := None; web.Site_Location := None;
      web.Site_Tags := None |},
   Some (ErrRemote "404 Not Found")).

Definition no_backup : web.BackupRequest * option error :=
  ({| web.BackupRequest_Response := Some 404%Z;
      web.BackupRequest_Properties := None |},
   Some (ErrRemote "404 Not Found")).

(** The service plan [plan1], hosted on the environment [ase1]. *)
Definition servicePlanClient : ServicePlanClient :=
  {| ServicePlans_Get := λ _ _,
       ({| web.AppServicePlan_Response := Some 200%Z;
           web.AppServicePlan_AppServicePlanProperties := Some
             {| web.AppServicePlanProperties_HostingEnvironmentProfile := Some
                  {| web.HostingEnvironmentProfile_ID :=
                       Some "/hostingEnvironments/ase1" |} |} |},
        None) |}.

(** An environment that cannot be read. *)
Definition unreadable_environment : AppServiceEnvironmentClient :=
  {| AppServiceEnvironments_Get := λ _ _,
       ({| web.AppServiceEnvironmentResource_Response := None;
           web.AppServiceEnvironmentResource_AppServiceEnvironment := None |},
        Some boom) |}.

Definition metadata {St} (model : St) (changed : list string)
    (webApps : WebAppsClient) : ResourceMetaData St :=
  {| Decode := (model, None);
     Encode := λ _, None;
     ResourceData_Id := "/sites/app1";
     ResourceData_HasChange := λ field, bool_decide (field ∈ changed);
     Account_SubscriptionId := "sub1";
     AppService_WebAppsClient := webApps;
     AppService_ServicePlanClient := servicePlanClient;
     AppService_AppServiceEnvironmentClient := unreadable_environment |}.

(** The desired state: settings and logs are configured, backup is not. *)
Definition windows_app : Windows.WindowsWebAppModel :=
  {| Windows.Name := "app1";
     Windows.ResourceGroup := "rg1";
     Windows.Location := "westeurope";
     Windows.ServicePlanId := "/serverfarms/plan1";
     Windows.AppSettings := Some {[ "WEBSITE_TIME_ZONE" := "UTC" ]};
     Windows.AuthSettings := None;
     Windows.Backup := None;
     Windows.ClientAffinityEnabled := false;
     Windows.ClientCertEnabled := false;
     Windows.ClientCertMode := "Required";
     Windows.Enabled := true;
     Windows.HttpsOnly := true;
     Windows.Identity := None;
     Windows.LogsConfig := Some [tt];
     Windows.SiteConfig := Some [tt];
     Windows.StorageAccounts := None;
     Windows.ConnectionStrings := None;
     Windows.CustomDomainVerificationId := "";
     Windows.DefaultHostname := "";
     Windows.Kind := "";
     Windows.OutboundIPAddresses := "";
     Windows.OutboundIPAddressList := None;
     Windows.PossibleOutboundIPAddresses := "";
     Windows.PossibleOutboundIPAddressList := None;
     Windows.SiteCredentials := None;
     Windows.Tags := None |}.

(** What the data source decodes: the name and the resource group. *)
Definition linux_app : Linux.LinuxWebAppModel :=
  {| Linux.Name := "app1";
     Linux.ResourceGroup := "rg1";
     Linux.Location := "";
     Linux.ServicePlanId := "";
     Linux.AppMetadata := None;
     Linux.AppSettings := None;
     Linux.AuthSettings := None;
     Linux.Backup := None;
     Linux.ClientAffinityEnabled := false;
     Linux.ClientCertEnabled := false;
     Linux.ClientCertMode := "";
     Linux.Enabled := false;
     Linux.HttpsOnly := false;
     Linux.Identity := None;
     Linux.LogsConfig := None;
     Linux.SiteConfig := None;
     Linux.StorageAccounts := None;
     Linux.ConnectionStrings := None;
     Linux.CustomDomainVerificationId := "";
     Linux.DefaultHostname := "";
     Linux.Kind := "";
     Linux.OutboundIPAddresses := "";
     Linux.OutboundIPAddressList := None;
     Linux.PossibleOutboundIPAddresses := "";
     Linux.PossibleOutboundIPAddressList := None;
     Linux.SiteCredentials := None;
     Linux.Tags := None |}.

(** The application [app1] does not exist yet and no call fails; the fields
    [changed] differ from the prior state. *)
Definition fresh (changed : list string)
    : ResourceMetaData Windows.WindowsWebAppModel :=
  metadata windows_app changed (client missing_site no_backup nothing_fails).

(** The helpers [hp] with another parser of web-app IDs and another
    expansion of the site configuration. *)
Definition retarget (hp : Helpers)
    (webAppParse : option parse.WebAppId * option error)
    (siteConfig : option web_SiteConfig * option string * option error)
    : Helpers :=
  {| parse_WebAppID := λ _, webAppParse;
     parse_ServicePlanID := parse_ServicePlanID hp;
     parse_AppServiceEnvironmentID := parse_AppServiceEnvironmentID hp;
     ExpandSiteConfigWindows := λ _, siteConfig;
     ExpandIdentity := ExpandIdentity hp;
     ExpandAppSettings := ExpandAppSettings hp;
     ExpandAuthSettings := ExpandAuthSettings hp;
     ExpandLogsConfig := ExpandLogsConfig hp;
     ExpandBackupConfig := ExpandBackupConfig hp;
     ExpandStorageConfig := ExpandStorageConfig hp;
     ExpandConnectionStrings := ExpandConnectionStrings hp;
     FlattenAppSettings := FlattenAppSettings hp;
     FlattenAuthSettings := FlattenAuthSettings hp;
     FlattenBackupConfig := FlattenBackupConfig hp;
     FlattenIdentity := FlattenIdentity hp;
     FlattenLogsConfig := FlattenLogsConfig hp;
     FlattenSiteConfigWindows := FlattenSiteConfigWindows hp;
     FlattenSiteConfigLinux := FlattenSiteConfigLinux hp;
     FlattenStorageAccounts := FlattenStorageAccounts hp;
     FlattenConnectionStrings := FlattenConnectionStrings hp;
     FlattenSiteCredentials := FlattenSiteCredentials hp;
     tags_FromTypedObject := tags_FromTypedObject hp;
     tags_ToTypedObject := tags_ToTypedObject hp;
     location_NormalizeNilable := location_NormalizeNilable hp;
     utils_NormalizeNilableString := utils_NormalizeNilableString hp |}.

(** The helpers for a site configuration whose current stack is [dotnet]. *)
Definition hp_dotnet : Helpers :=
  retarget hp1 (Some app1, None) (None, Some "dotnet", None).

(** The helpers with a parser that rejects the ID of the web application. *)
Definition hp_no_id : Helpers := retarget hp1 (None, Some boom) (None, None, None).

(** The site metadata that records the stack [dotnet]. *)
Definition dotnet_metadata : web.StringDictionary :=
  {| web.StringDictionary_Response := Some 200%Z;
     web.StringDictionary_Properties :=
       Some (<["CURRENT_STACK" := Some "dotnet"]> ∅) |}.

(** The remote system [c], answering the read of the site metadata with
    [answer]. *)
Definition with_site_metadata (c : WebAppsClient)
    (answer : web.StringDictionary * option error) : WebAppsClient :=
  {| WebApps_Get := WebApps_Get c;
     WebApps_CheckNameAvailability := WebApps_CheckNameAvailability c;
     WebApps_CreateOrUpdate := WebApps_CreateOrUpdate c;
     WebApps_UpdateMetadata := WebApps_UpdateMetadata c;
     WebApps_UpdateApplicationSettings := WebApps_UpdateApplicationSettings c;
     WebApps_UpdateAuthSettings := WebApps_UpdateAuthSettings c;
     WebApps_UpdateDiagnosticLogsConfig := WebApps_UpdateDiagnosticLogsConfig c;
     WebApps_UpdateBackupConfiguration := WebApps_UpdateBackupConfiguration c;
     WebApps_DeleteBackupConfiguration := WebApps_DeleteBackupConfiguration c;
     WebApps_UpdateAzureStorageAccounts := WebApps_UpdateAzureStorageAccounts c;
     WebApps_UpdateConnectionStrings := WebApps_UpdateConnectionStrings c;
     WebApps_Delete := WebApps_Delete c;
     WebApps_GetConfiguration := WebApps_GetConfiguration c;
     WebApps_GetAuthSettings := WebApps_GetAuthSettings c;
     WebApps_GetBackupConfiguration := WebApps_GetBackupConfiguration c;
     WebApps_GetDiagnosticLogsConfiguration :=
       WebApps_GetDiagnosticLogsConfiguration c;
     WebApps_ListApplicationSettings := WebApps_ListApplicationSettings c;
     WebApps_ListAzureStorageAccounts := WebApps_ListAzureStorageAccounts c;
     WebApps_ListConnectionStrings := WebApps_ListConnectionStrings c;
     WebApps_ListPublishingCredentials := WebApps_ListPublishingCredentials c;
     WebApps_ListMetadata := λ _ _, answer |}.

(** The application [app1] exists, with the given flags, and no call
    fails. *)
Definition deployed (flags : option bool) : WebAppsClient :=
  client (site flags, None) no_backup nothing_fails.

(** The service plan [plan1], not hosted on an environment. *)
Definition plain_plan : ServicePlanClient :=
  {| ServicePlans_Get := λ _ _,
       ({| web.AppServicePlan_Response := Some 200%Z;
           web.AppServicePlan_AppServicePlanProperties := Some
             {| web.AppServicePlanProperties_HostingEnvironmentProfile :=
                  None |} |},
        None) |}.

(** The application [app1] does not exist yet, on the plain plan. *)
Definition fresh_plain : ResourceMetaData Windows.WindowsWebAppModel :=
  {| Decode := (windows_app, None);
     Encode := λ _, None;
     ResourceData_Id := "/sites/app1";
     ResourceData_HasChange := λ _, false;
     Account_SubscriptionId := "sub1";
     AppService_WebAppsClient := client missing_site no_backup nothing_fails;
     AppService_ServicePlanClient := plain_plan;
     AppService_AppServiceEnvironmentClient := unreadable_environment |}.

(** The properties of [app1] as the remote system holds them once the
    desired state [windows_app] is applied. *)
Definition stored_properties : web.SiteProperties :=
  {| web.ServerFarmID := Some "/serverfarms/plan1";
     web.Enabled := Some true;
     web.HTTPSOnly := Some true;
     web.SiteProperties_SiteConfig := None;
     web.ClientAffinityEnabled := Some false;
     web.ClientCertEnabled := Some false;
     web.ClientCertMode := "Required";
     web.CustomDomainVerificationID := Some "0123456789ABCDEF";
     web.DefaultHostName := Some "app1.azurewebsites.net";
     web.OutboundIPAddresses := Some "10.0.0.1,10.0.0.2";
     web.PossibleOutboundIPAddresses := Some "10.0.0.1,10.0.0.2,10.0.0.3" |}.

(** A site that the remote system returns without properties. *)
Definition bare_site : web.Site :=
  {| web.Site_Response := Some 200%Z;
     web.Site_SiteProperties := None;
     web.Site_Identity := None;
     web.Site_Kind := Some "app";
     web.Site_Location := Some "westeurope";
     web.Site_Tags := None |}.

(** The read of the application settings fails. *)
Definition settings_read_fails : Call → option error :=
  λ c, match c with
       | CallListApplicationSettings _ _ => Some boom
       | _ => None
       end.

(** The desired state without application settings. *)
Definition windows_app_bare : Windows.WindowsWebAppModel :=
  {| Windows.Name := "app1";
     Windows.ResourceGroup := "rg1";
     Windows.Location := "westeurope";
     Windows.ServicePlanId := "/serverfarms/plan1";
     Windows.AppSettings := None;
     Windows.AuthSettings := None;
     Windows.Backup := None;
     Windows.ClientAffinityEnabled := false;
     Windows.ClientCertEnabled := false;
     Windows.ClientCertMode := "Required";
     Windows.Enabled := true;
     Windows.HttpsOnly := true;
     Windows.Identity := None;
     Windows.LogsConfig := None;
     Windows.SiteConfig := Some [tt];
     Windows.StorageAccounts := None;
     Windows.ConnectionStrings := None;
     Windows.CustomDomainVerificationId := "";
     Windows.DefaultHostname := "";
     Windows.Kind := "";
     Windows.OutboundIPAddresses := "";
     Windows.OutboundIPAddressList := None;
     Windows.PossibleOutboundIPAddresses := "";
     Windows.PossibleOutboundIPAddressList := None;
     Windows.SiteCredentials := None;
     Windows.Tags := None |}.

(** The application [app1] without settings: it does not exist yet and no
    call fails; the fields [changed] differ from the prior state. *)
Definition fresh_bare (changed : list string)
    : ResourceMetaData Windows.WindowsWebAppModel :=
  metadata windows_app_bare changed (client missing_site no_backup nothing_fails).

(** Schemas of the other packages that declare nothing, and the two
    constants of the vendor SDK. *)
Definition schemas : SchemaHelpers :=
  {| azure_SchemaResourceGroupName := pluginsdk.zero;
     azure_SchemaResourceGroupNameForDataSource := pluginsdk.zero;
     location_Schema := pluginsdk.zero;
     location_SchemaComputed := pluginsdk.zero;
     tags_Schema := pluginsdk.zero;
     tags_SchemaDataSource := pluginsdk.zero;
     helpers_AuthSettingsSchema := pluginsdk.zero;
     helpers_AuthSettingsSchemaComputed := pluginsdk.zero;
     helpers_BackupSchema := pluginsdk.zero;
     helpers_BackupSchemaComputed := pluginsdk.zero;
     helpers_ConnectionStringSchema := pluginsdk.zero;
     helpers_ConnectionStringSchemaComputed := pluginsdk.zero;
     helpers_IdentitySchema := pluginsdk.zero;
     helpers_IdentitySchemaComputed := pluginsdk.zero;
     helpers_LogsConfigSchema := pluginsdk.zero;
     helpers_LogsConfigSchemaComputed := pluginsdk.zero;
     helpers_SiteConfigSchemaWindows := pluginsdk.zero;
     helpers_SiteConfigSchemaLinuxComputed := pluginsdk.zero;
     helpers_StorageAccountSchema := pluginsdk.zero;
     helpers_StorageAccountSchemaComputed := pluginsdk.zero;
     helpers_SiteCredentialSchema := pluginsdk.zero;
     web_ClientCertModeOptional := "Optional";
     web_ClientCertModeRequired := "Required" |}.

(** The helpers [hp] with an expansion of the application settings that
    is never nil and has no properties. *)
Definition with_blank_settings (hp : Helpers) : Helpers :=
  {| parse_WebAppID := parse_WebAppID hp;
     parse_ServicePlanID := parse_ServicePlanID hp;
     parse_AppServiceEnvironmentID := parse_AppServiceEnvironmentID hp;
     ExpandSiteConfigWindows := ExpandSiteConfigWindows hp;
     ExpandIdentity := ExpandIdentity hp;
     ExpandAppSettings := λ _,
       Some {| web.StringDictionary_Response := None;
               web.StringDictionary_Properties := None |};
     ExpandAuthSettings := ExpandAuthSettings hp;
     ExpandLogsConfig := ExpandLogsConfig hp;
     ExpandBackupConfig := ExpandBackupConfig hp;
     ExpandStorageConfig := ExpandStorageConfig hp;
     ExpandConnectionStrings := ExpandConnectionStrings hp;
     FlattenAppSettings := FlattenAppSettings hp;
     FlattenAuthSettings := FlattenAuthSettings hp;
     FlattenBackupConfig := FlattenBackupConfig hp;
     FlattenIdentity := FlattenIdentity hp;
     FlattenLogsConfig := FlattenLogsConfig hp;
     FlattenSiteConfigWindows := FlattenSiteConfigWindows hp;
     FlattenSiteConfigLinux := FlattenSiteConfigLinux hp;
     FlattenStorageAccounts := FlattenStorageAccounts hp;
     FlattenConnectionStrings := FlattenConnectionStrings hp;
     FlattenSiteCredentials := FlattenSiteCredentials hp;
     tags_FromTypedObject := tags_FromTypedObject hp;
     tags_ToTypedObject := tags_ToTypedObject hp;
     location_NormalizeNilable := location_NormalizeNilable hp;
     utils_NormalizeNilableString := utils_NormalizeNilableString hp |}.

Definition hp_blank_settings : Helpers := with_blank_settings hp1.

(** The properties of a site whose addresses the remote system leaves
    out. *)
Definition properties_without_addresses : web.SiteProperties :=
  {| web.ServerFarmID := Some "/serverfarms/plan1";
     web.Enabled := Some true;
     web.HTTPSOnly := Some true;
     web.SiteProperties_SiteConfig := None;
     web.ClientAffinityEnabled := Some false;
     web.ClientCertEnabled := Some false;
     web.ClientCertMode := "Required";
     web.CustomDomainVerificationID := None;
     web.DefaultHostName := None;
     web.OutboundIPAddresses := None;
     web.PossibleOutboundIPAddresses := None |}.

End Scenario.

(** * Proofs *)

(** Unfold the monad and the call wrappers, leaving the drivers' own
    structure and the answers of the collaborators. *)
Ltac unfold_monad :=
  cbv beta delta [mbind mret M_bind M_ret fail panic deref check remote negb
                  Warnf Infof when_ SetID MarkAsGone EncodeAndReturn
                  ResourceRequiresImport
                  Get CheckNameAvailability CreateOrUpdate
                  CreateOrUpdate_WaitForCompletionRef UpdateMetadata
                  UpdateApplicationSettings UpdateAuthSettings
                  UpdateDiagnosticLogsConfig UpdateBackupConfiguration
                  DeleteBackupConfiguration UpdateAzureStorageAccounts
                  UpdateConnectionStrings WebAppsDelete GetConfiguration
                  GetAuthSettings GetBackupConfiguration
                  GetDiagnosticLogsConfiguration ListApplicationSettings
                  ListAzureStorageAccounts ListConnectionStrings
                  ListPublishingCredentials
                  ListPublishingCredentials_WaitForCompletionRef
                  ListPublishingCredentials_Result ListMetadata
                  ServicePlanGet AppServiceEnvironmentGet] in *.

(** Reduce the run after an answer is known; the projections of the effects
    are reduced too, so that the effects stay a literal record. *)
Ltac norm :=
  cbn beta iota zeta delta [calls logs resourceId encoded initial with_calls fst snd
    parse.WebAppId_ResourceGroup parse.WebAppId_SiteName
    parse.WebAppId_SubscriptionId].
Ltac norm_in H :=
  cbn beta iota zeta delta [calls logs resourceId encoded initial with_calls fst snd
    parse.WebAppId_ResourceGroup parse.WebAppId_SiteName
    parse.WebAppId_SubscriptionId] in H.

(** The head of an application. *)
Ltac head_of t :=
  lazymatch t with
  | ?f _ => head_of f
  | _ => t
  end.

(** The answer a run is waiting for: the scrutinee on which the head of the
    term [t] is stuck. *)
Ltac stuck_on t :=
  let h := head_of t in
  lazymatch h with
  | match ?x with _ => _ end =>
      let hx := head_of x in
      lazymatch hx with
      | match _ with _ => _ end => stuck_on x
      | _ => x
      end
  end.

(** Case analysis on the answer the run [H : run = (r, w)] is waiting for. *)
Ltac step_in H :=
  lazymatch type of H with
  | ?run = _ =>
      let x := stuck_on run in
      destruct x eqn:?; norm_in H
  end.

(** The same for a goal [run = _]. *)
Ltac step_goal :=
  lazymatch goal with
  | |- ?run = _ =>
      let x := stuck_on run in
      destruct x eqn:?; norm
  end.

(** Use the recorded answers in the goal. *)
Ltac use_answers :=
  repeat (cbn [fst snd];
          match goal with
          | E : ?x = _ |- context [?x] => rewrite E
          end);
  cbn [fst snd].

(** Two answers recorded for the same question are the same. *)
Ltac same_answers :=
  repeat match goal with
         | E : ?x = _, E' : ?x = _ |- _ => rewrite E in E'
         end.

Ltac solve_elem_of :=
  solve [repeat first [apply list_elem_of_here | apply list_elem_of_further]].

(** Discharge what entitles a call from the recorded answers. *)
Ltac justify :=
  unfold resolves_isolated_plan, ase_lookup_fails;
  repeat first
    [ reflexivity | eassumption | solve_elem_of
    | progress cbn [fst snd]
    | match goal with
      | |- _ ∧ _ => split
      | |- ∃ _, _ => eexists
      | |- is_Some (Some _) => by eexists
      | E : ?x = _ |- context [?x] => rewrite E
      | |- _ ∨ _ => first [left; solve [justify] | right; solve [justify]]
      | E : bool_decide _ = true |- _ ≠ _ => exact (bool_decide_eq_true_1 _ E)
      end ].

(** Use the recorded answers in a hypothesis. *)
Ltac use_answers_in H :=
  repeat (cbn [fst snd] in H;
          match goal with
          | E : ?x = _ |- _ =>
              lazymatch E with
              | H => fail
              | _ =>
                  lazymatch type of H with
                  | context [x] => rewrite E in H
                  end
              end
          end);
  cbn [fst snd] in H.

Section ErrorPaths.
Context `{Payloads} (hp : Helpers).

(** ** The monad *)

Lemma bind_inv {St A B} (m : M St A) (k : A → M St B) w0 r w :
  (m ≫= k) w0 = (r, w) →
  (∃ a w1, m w0 = (Ok a, w1) ∧ k a w1 = (r, w))
  ∨ (∃ e, m w0 = (Err e, w) ∧ r = Err e)
  ∨ (m w0 = (Panic, w) ∧ r = Panic).
Proof.
  unfold mbind, M_bind. destruct (m w0) as [[a|e|] w1]; intros Hrun.
  - left. eauto.
  - right. left. inversion Hrun. eauto.
  - right. right. inversion Hrun. eauto.
Qed.

Lemma bind_ok {St A B} (m : M St A) (k : A → M St B) w0 a w1 :
  m w0 = (Ok a, w1) → (m ≫= k) w0 = k a w1.
Proof. unfold mbind, M_bind. intros ->. reflexivity. Qed.

(** ** Go's [strings.Split] *)

Example strings_Split_addresses :
  strings_Split "10.0.0.1,10.0.0.2" comma = ["10.0.0.1"; "10.0.0.2"].
Proof. reflexivity. Qed.

Example strings_Split_empty : strings_Split "" comma = [""].
Proof. reflexivity. Qed.

(** ** Delete *)

(** C8: with a parseable ID, [Delete] issues exactly one delete call, with
    delete-metrics true and delete-empty-server-farm false; an error of
    that call is returned wrapped, without any retry, and otherwise
    [Delete] returns no error. *)
Theorem Delete_single_call
    (metadata : ResourceMetaData Windows.WindowsWebAppModel)
    (id : parse.WebAppId) :
  parse_WebAppID hp (ResourceData_Id metadata) = (Some id, None) →
  let rg := parse.WebAppId_ResourceGroup id in
  let site := parse.WebAppId_SiteName id in
  let answer :=
    WebApps_Delete (AppService_WebAppsClient metadata) rg site
      (Some true) (Some false) in
  Windows.Delete hp metadata initial =
    (match answer with
     | Some e => Err (Errorf "deleting Windows %s: %+v"
                             [ArgWebAppIdPtr (Some id); ArgError e])
     | None => Ok tt
     end,
     MkWorld [CallDelete rg site (Some true) (Some false)]
             [Log LevelInfo "deleting %s" [ArgWebAppId id]]
             IdUntouched None)
  ∧ (∀ e, answer = Some e →
          ∃ e', (Windows.Delete hp metadata initial).1 = Err e' ∧ wraps e' e).
Proof.
  intros Hparse rg site answer.
  assert (Hrun : Windows.Delete hp metadata initial =
    (match answer with
     | Some e => Err (Errorf "deleting Windows %s: %+v"
                             [ArgWebAppIdPtr (Some id); ArgError e])
     | None => Ok tt
     end,
     MkWorld [CallDelete rg site (Some true) (Some false)]
             [Log LevelInfo "deleting %s" [ArgWebAppId id]]
             IdUntouched None)).
  { unfold Windows.Delete. rewrite Hparse. unfold_monad. cbn.
    subst answer rg site. destruct (WebApps_Delete _ _ _ _ _); reflexivity. }
  split; [exact Hrun|].
  intros e He. rewrite Hrun, He. cbn. eexists. split; [reflexivity|].
  exists "deleting Windows %s: %+v", [ArgWebAppIdPtr (Some id)]. reflexivity.
Qed.

(** ** Create: the existence check *)

(** [Create] stops at the existence check unless it reports NotFound. *)
Lemma Create_primary_existing
    (metadata : ResourceMetaData Windows.WindowsWebAppModel)
    (webApp : Windows.WindowsWebAppModel) (existing : web.Site)
    (err : option error) :
  Decode metadata = (webApp, None) →
  let id := parse.NewWebAppID (Account_SubscriptionId metadata)
              (Windows.ResourceGroup webApp) (Windows.Name webApp) in
  WebApps_Get (AppService_WebAppsClient metadata)
    (Windows.ResourceGroup webApp) (Windows.Name webApp) = (existing, err) →
  utils.ResponseWasNotFound (web.Site_Response existing) = false →
  Windows.Create hp metadata initial =
    (Err match err with
         | Some e => Errorf "checking for presence of existing Windows %s: %+v"
                            [ArgWebAppId id; ArgError e]
         | None => RequiresImport Windows.ResourceType id
         end,
     with_calls initial
       [CallGet (Windows.ResourceGroup webApp) (Windows.Name webApp)]).
Proof.
  intros Hdecode id Hget Hfound.
  unfold Windows.Create, Windows.Create_primary. rewrite Hdecode.
  unfold_monad. cbn. rewrite Hget. cbn. rewrite Hfound.
  destruct err; reflexivity.
Qed.

(** C7: when the existence check finds the resource, [Create] fails with the
    requires-import error and has issued no call but the existence check;
    any further call is issued only when the check reported NotFound. *)
Theorem Create_existing_requires_import
    (metadata : ResourceMetaData Windows.WindowsWebAppModel)
    (webApp : Windows.WindowsWebAppModel) (existing : web.Site)
    (err : option error) :
  Decode metadata = (webApp, None) →
  let rg := Windows.ResourceGroup webApp in
  let site := Windows.Name webApp in
  let id := parse.NewWebAppID (Account_SubscriptionId metadata) rg site in
  WebApps_Get (AppService_WebAppsClient metadata) rg site = (existing, err) →
  (err = None →
   utils.ResponseWasNotFound (web.Site_Response existing) = false →
   Windows.Create hp metadata initial =
     (Err (RequiresImport "azurerm_windows_web_app" id),
      with_calls initial [CallGet rg site]))
  ∧ (∀ r w c,
       Windows.Create hp metadata initial = (r, w) →
       c ∈ calls w → c ≠ CallGet rg site →
       utils.ResponseWasNotFound (web.Site_Response existing) = true).
Proof.
  intros Hdecode rg site id Hget. split.
  - intros -> Hfound.
    apply (Create_primary_existing metadata webApp existing None Hdecode Hget Hfound).
  - intros r w c Hrun Hin Hother.
    destruct (utils.ResponseWasNotFound (web.Site_Response existing)) eqn:Hfound;
      [reflexivity|].
    rewrite (Create_primary_existing metadata webApp existing err
               Hdecode Hget Hfound) in Hrun.
    inversion Hrun; subst. cbn in Hin.
    apply list_elem_of_singleton in Hin. contradiction.
Qed.


(** ** Read of the Windows resource *)

(** After the ID is parsed, [Read] issues the primary get. *)
Lemma Windows_Read_get
    (metadata : ResourceMetaData Windows.WindowsWebAppModel)
    (id : parse.WebAppId) (webApp : web.Site) (err : option error) :
  let rg := parse.WebAppId_ResourceGroup id in
  let site := parse.WebAppId_SiteName id in
  parse_WebAppID hp (ResourceData_Id metadata) = (Some id, None) →
  WebApps_Get (AppService_WebAppsClient metadata) rg site = (webApp, err) →
  Windows.Read hp metadata initial =
    match err with
    | Some e =>
        if utils.ResponseWasNotFound (web.Site_Response webApp)
        then (Ok tt, MkWorld [CallGet rg site] [] IdRemoved None)
        else (Err (Errorf "reading Windows %s: %+v"
                          [ArgWebAppIdPtr (Some id); ArgError e]),
              with_calls initial [CallGet rg site])
    | None =>
        Windows.Read_found hp metadata (Some id) id webApp
          (with_calls initial [CallGet rg site])
    end.
Proof.
  intros rg site Hparse Hget. unfold Windows.Read. rewrite Hparse.
  unfold_monad. norm. fold rg site. rewrite Hget. norm.
  destruct err; [|reflexivity].
  destruct (utils.ResponseWasNotFound _); reflexivity.
Qed.

(** An auxiliary read that fails makes [Read] fail with the wrapped error
    of a read that failed. *)
Lemma Windows_Read_found_failure
    (metadata : ResourceMetaData Windows.WindowsWebAppModel)
    (id : parse.WebAppId) (webApp : web.Site) (props : web.SiteProperties)
    (w0 w : World Windows.WindowsWebAppModel) (r : result unit) :
  let client := AppService_WebAppsClient metadata in
  let rg := parse.WebAppId_ResourceGroup id in
  let site := parse.WebAppId_SiteName id in
  web.Site_SiteProperties webApp = Some props →
  (∃ cause, Some cause ∈ auxiliary_read_errors client rg site) →
  Windows.Read_found hp metadata (Some id) id webApp w0 = (r, w) →
  ∃ e cause,
    Some cause ∈ auxiliary_read_errors client rg site
    ∧ r = Err e ∧ wraps e cause.
Proof.
  intros client rg site Hprops Hfails Hrun. subst client rg site.
  revert Hfails. unfold Windows.Read_found in Hrun. rewrite Hprops in Hrun.
  unfold_monad. norm_in Hrun.
  repeat step_in Hrun; unfold auxiliary_read_errors; use_answers;
    inversion Hrun; subst; clear Hrun.
  all: try (intros _; eexists _, _; split;
            [ | split; [reflexivity | eexists _, [_]; reflexivity]];
            repeat first [ apply list_elem_of_here
                         | apply list_elem_of_further ]).
  all: intros [cause Hin]; exfalso;
    repeat (apply elem_of_cons in Hin as [Hin|Hin];
            [by destruct (utils.ResponseWasNotFound _) + discriminate Hin|]);
    apply elem_of_nil in Hin; exact Hin.
Qed.

(** When every auxiliary read answers, the backup read possibly with a
    NotFound, [Read] goes on to the end: it encodes the merged state and
    returns what the encoder returns. *)
Lemma Windows_Read_found_ok
    (metadata : ResourceMetaData Windows.WindowsWebAppModel)
    (id : parse.WebAppId) (webApp : web.Site) (props : web.SiteProperties)
    (siteMetadata : web.StringDictionary) (currentStack : string)
    (w0 : World Windows.WindowsWebAppModel) :
  let client := AppService_WebAppsClient metadata in
  let rg := parse.WebAppId_ResourceGroup id in
  let site := parse.WebAppId_SiteName id in
  web.Site_SiteProperties webApp = Some props →
  reads_succeed client rg site →
  WebApps_ListMetadata client rg site = (siteMetadata, None) →
  default (Some "")
    (web.StringDictionary_Properties siteMetadata
       ≫= (λ properties, properties !! "CURRENT_STACK"))
    = Some currentStack →
  let future := (WebApps_ListPublishingCredentials client rg site).1 in
  let state :=
    Windows.Read_state hp id webApp props
      (WebApps_GetConfiguration client rg site).1
      (WebApps_GetAuthSettings client rg site).1
      (WebApps_GetBackupConfiguration client rg site).1
      (WebApps_GetDiagnosticLogsConfiguration client rg site).1
      (WebApps_ListApplicationSettings client rg site).1
      (WebApps_ListAzureStorageAccounts client rg site).1
      (WebApps_ListConnectionStrings client rg site).1
      (ListPublishingCredentialsFuture_Result future).1
      currentStack in
  Windows.Read_found hp metadata (Some id) id webApp w0 =
    (match Encode metadata state with Some e => Err e | None => Ok tt end,
     MkWorld
       (calls w0 ++
        [CallGetConfiguration rg site; CallGetAuthSettings rg site;
         CallGetBackupConfiguration rg site;
         CallGetDiagnosticLogsConfiguration rg site;
         CallListApplicationSettings rg site;
         CallListAzureStorageAccounts rg site;
         CallListConnectionStrings rg site;
         CallListPublishingCredentials rg site;
         CallWaitForCompletionRef OpListPublishingCredentials;
         CallResult OpListPublishingCredentials;
         CallListMetadata rg site])
       (logs w0) (resourceId w0) (Some state)).
Proof.
  intros client rg site Hprops Hreads Hmeta Hstack future state.
  subst state future client rg site.
  unfold reads_succeed, backup_read_tolerated in Hreads.
  destruct Hreads as (H1 & H2 & H3 & H4 & H5 & H6 & H7 & H8 & H9 & H10).
  unfold Windows.Read_found. rewrite Hprops.
  unfold_monad. norm.
  repeat (step_goal; cbn [fst snd] in *; try discriminate).
  all: try (destruct H3 as [H3|H3]; congruence).
  all: rewrite <- ?app_assoc; cbn [app]; simplify_eq.
  all: match goal with
       | E : option_bind _ _ _ _ = _, Hs : default _ _ = _ |- _ =>
           rewrite E in Hs; cbn in Hs; simplify_eq
       end.
  all: reflexivity.
Qed.

(** The only nil dereferences of the Windows [Read]: the parser returning a
    nil ID without an error, and a nil pointer stored under CURRENT_STACK in
    the site metadata.  The optional pointers of the site properties are
    all guarded. *)
Lemma Windows_Read_panic
    (metadata : ResourceMetaData Windows.WindowsWebAppModel)
    (w : World Windows.WindowsWebAppModel) :
  Windows.Read hp metadata initial = (Panic, w) →
  parse_WebAppID hp (ResourceData_Id metadata) = (None, None)
  ∨ ∃ id siteMetadata properties,
      parse_WebAppID hp (ResourceData_Id metadata) = (Some id, None)
      ∧ WebApps_ListMetadata (AppService_WebAppsClient metadata)
          (parse.WebAppId_ResourceGroup id) (parse.WebAppId_SiteName id)
        = (siteMetadata, None)
      ∧ web.StringDictionary_Properties siteMetadata = Some properties
      ∧ properties !! "CURRENT_STACK" = Some None.
Proof.
  unfold Windows.Read, Windows.Read_found. unfold_monad. intros Hrun.
  norm_in Hrun.
  repeat step_in Hrun; try discriminate Hrun;
    try (destruct (Encode _ _); discriminate Hrun).
  all: try (left; reflexivity).
  all: right; simplify_eq.
  all: match goal with
       | E : option_bind _ _ _ _ = Some None |- _ => rename E into Hstack
       end.
  all: destruct (web.StringDictionary_Properties _) as [properties|] eqn:Hdict;
    [|discriminate Hstack].
  all: eexists _, _, _; eauto.
Qed.

(** C5: in [Read], a primary get that reports NotFound marks the resource
    as gone and returns no error; any other failure of the primary get, and
    any failure of an auxiliary read other than a NotFound of the backup
    read, makes the whole read fail with a wrapped error; after a NotFound
    of the backup read the read goes on to the end. *)
Theorem Read_error_handling
    (metadata : ResourceMetaData Windows.WindowsWebAppModel)
    (id : parse.WebAppId) (webApp : web.Site) (err : option error) :
  let client := AppService_WebAppsClient metadata in
  let rg := parse.WebAppId_ResourceGroup id in
  let site := parse.WebAppId_SiteName id in
  parse_WebAppID hp (ResourceData_Id metadata) = (Some id, None) →
  WebApps_Get client rg site = (webApp, err) →
  (∀ e, err = Some e →
     utils.ResponseWasNotFound (web.Site_Response webApp) = true →
     Windows.Read hp metadata initial =
       (Ok tt, MkWorld [CallGet rg site] [] IdRemoved None))
  ∧ (∀ e, err = Some e →
       utils.ResponseWasNotFound (web.Site_Response webApp) = false →
       ∃ e', Windows.Read hp metadata initial =
               (Err e', with_calls initial [CallGet rg site])
             ∧ wraps e' e)
  ∧ (∀ props,
       err = None →
       web.Site_SiteProperties webApp = Some props →
       (∃ cause, Some cause ∈ auxiliary_read_errors client rg site) →
       ∃ e cause,
         Some cause ∈ auxiliary_read_errors client rg site
         ∧ (Windows.Read hp metadata initial).1 = Err e
         ∧ wraps e cause)
  ∧ (∀ props backup e siteMetadata currentStack,
       err = None →
       web.Site_SiteProperties webApp = Some props →
       WebApps_GetBackupConfiguration client rg site = (backup, Some e) →
       utils.ResponseWasNotFound (web.BackupRequest_Response backup) = true →
       reads_succeed client rg site →
       WebApps_ListMetadata client rg site = (siteMetadata, None) →
       default (Some "")
         (web.StringDictionary_Properties siteMetadata
            ≫= (λ properties, properties !! "CURRENT_STACK"))
         = Some currentStack →
       ∃ state,
         Windows.Read hp metadata initial =
           (match Encode metadata state with
            | Some e => Err e
            | None => Ok tt
            end,
            MkWorld
              [CallGet rg site;
               CallGetConfiguration rg site; CallGetAuthSettings rg site;
               CallGetBackupConfiguration rg site;
               CallGetDiagnosticLogsConfiguration rg site;
               CallListApplicationSettings rg site;
               CallListAzureStorageAccounts rg site;
               CallListConnectionStrings rg site;
               CallListPublishingCredentials rg site;
               CallWaitForCompletionRef OpListPublishingCredentials;
               CallResult OpListPublishingCredentials;
               CallListMetadata rg site]
              [] IdUntouched (Some state))).
Proof.
  intros client rg site Hparse Hget.
  pose proof (Windows_Read_get metadata id webApp err Hparse Hget) as Hread.
  fold rg site in Hread. repeat split.
  - intros e -> Hgone. rewrite Hread, Hgone. reflexivity.
  - intros e -> Hother. rewrite Hread, Hother. eexists. split; [reflexivity|].
    exists "reading Windows %s: %+v", [ArgWebAppIdPtr (Some id)]. reflexivity.
  - intros props -> Hprops Hfails. rewrite Hread.
    destruct (Windows.Read_found hp metadata (Some id) id webApp
                (with_calls initial [CallGet rg site])) as [r w] eqn:Hrun.
    apply (Windows_Read_found_failure metadata id webApp props _ w r
             Hprops Hfails Hrun).
  - intros props backup e siteMetadata currentStack
      -> Hprops Hbackup Hgone Hreads Hmeta Hstack.
    rewrite Hread.
    rewrite (Windows_Read_found_ok metadata id webApp props siteMetadata
               currentStack _ Hprops Hreads Hmeta Hstack).
    eexists. reflexivity.
Qed.

(** ** Read of the Linux data source *)

(** C9: when the primary get of the Linux Web App data source reports
    NotFound, [Read] returns the error "Linux Web App with <id> not found",
    and the resource is not removed from the local state; the Read of the
    Windows resource, given the same answer, marks the resource as gone and
    returns no error. *)
Theorem Linux_Read_not_found_is_error
    (metadata : ResourceMetaData Linux.LinuxWebAppModel)
    (webApp : Linux.LinuxWebAppModel) (existing : web.Site) (e : error)
    (resource : ResourceMetaData Windows.WindowsWebAppModel) :
  let rg := Linux.ResourceGroup webApp in
  let site := Linux.Name webApp in
  let id := parse.NewWebAppID (Account_SubscriptionId metadata) rg site in
  Decode metadata = (webApp, None) →
  WebApps_Get (AppService_WebAppsClient metadata) rg site
    = (existing, Some e) →
  utils.ResponseWasNotFound (web.Site_Response existing) = true →
  Linux.Read hp metadata initial =
    (Err (Errorf "Linux Web App with %s not found" [ArgWebAppId id]),
     MkWorld [CallGet rg site] [] IdUntouched None)
  ∧ (parse_WebAppID hp (ResourceData_Id resource) = (Some id, None) →
     WebApps_Get (AppService_WebAppsClient resource) rg site
       = (existing, Some e) →
     Windows.Read hp resource initial =
       (Ok tt, MkWorld [CallGet rg site] [] IdRemoved None)).
Proof.
  intros rg site id Hdecode Hget Hgone. split.
  - unfold Linux.Read. rewrite Hdecode. unfold_monad. norm.
    fold rg site. rewrite Hget. norm. rewrite Hgone. reflexivity.
  - intros Hparse Hget'.
    rewrite (Windows_Read_get resource id existing (Some e) Hparse Hget').
    rewrite Hgone. reflexivity.
Qed.

(** When the primary get and the reads after it answer, the Linux [Read]
    reaches the merge of the answers. *)
Lemma Linux_Read_reaches_merge
    (metadata : ResourceMetaData Linux.LinuxWebAppModel)
    (webApp : Linux.LinuxWebAppModel) (existing : web.Site) :
  let client := AppService_WebAppsClient metadata in
  let rg := Linux.ResourceGroup webApp in
  let site := Linux.Name webApp in
  let id := parse.NewWebAppID (Account_SubscriptionId metadata) rg site in
  let future := (WebApps_ListPublishingCredentials client rg site).1 in
  Decode metadata = (webApp, None) →
  WebApps_Get client rg site = (existing, None) →
  reads_succeed client rg site →
  Linux.Read hp metadata initial =
    Linux.Read_merge hp metadata webApp id existing
      (WebApps_GetConfiguration client rg site).1
      (WebApps_GetAuthSettings client rg site).1
      (WebApps_GetBackupConfiguration client rg site).1
      (WebApps_GetDiagnosticLogsConfiguration client rg site).1
      (WebApps_ListApplicationSettings client rg site).1
      (WebApps_ListAzureStorageAccounts client rg site).1
      (WebApps_ListConnectionStrings client rg site).1
      (ListPublishingCredentialsFuture_Result future).1
      (MkWorld
         [CallGet rg site;
          CallGetConfiguration rg site; CallGetAuthSettings rg site;
          CallGetBackupConfiguration rg site;
          CallGetDiagnosticLogsConfiguration rg site;
          CallListApplicationSettings rg site;
          CallListAzureStorageAccounts rg site;
          CallListConnectionStrings rg site;
          CallListPublishingCredentials rg site;
          CallWaitForCompletionRef OpListPublishingCredentials;
          CallResult OpListPublishingCredentials]
         [] IdUntouched None).
Proof.
  intros client rg site id future Hdecode Hget Hreads.
  subst future id client.
  unfold reads_succeed, backup_read_tolerated in Hreads. fold rg site in Hreads.
  destruct Hreads as (H1 & H2 & H3 & H4 & H5 & H6 & H7 & H8 & H9 & H10).
  unfold Linux.Read. rewrite Hdecode.
  cbv beta delta [mbind mret M_bind M_ret fail check remote when_ negb
                  Get GetConfiguration GetAuthSettings GetBackupConfiguration
                  GetDiagnosticLogsConfiguration ListApplicationSettings
                  ListAzureStorageAccounts ListConnectionStrings
                  ListPublishingCredentials
                  ListPublishingCredentials_WaitForCompletionRef
                  ListPublishingCredentials_Result].
  norm. fold rg site. rewrite Hget. norm.
  repeat (step_goal; cbn [fst snd] in *; try discriminate).
  all: try (destruct H3 as [H3|H3]; congruence).
  all: reflexivity.
Qed.

(** How the Linux [Read] can end when the site properties are present: it
    returns no error only if the four flags are all non-nil, and it panics
    only if one of them is nil. *)
Lemma Linux_Read_outcome
    (metadata : ResourceMetaData Linux.LinuxWebAppModel)
    (webApp : Linux.LinuxWebAppModel) (existing : web.Site)
    (props : web.SiteProperties) (r : result unit)
    (w : World Linux.LinuxWebAppModel) :
  let all_set :=
    is_Some (web.ClientAffinityEnabled props)
    ∧ is_Some (web.ClientCertEnabled props)
    ∧ is_Some (web.Enabled props)
    ∧ is_Some (web.HTTPSOnly props) in
  Decode metadata = (webApp, None) →
  WebApps_Get (AppService_WebAppsClient metadata)
    (Linux.ResourceGroup webApp) (Linux.Name webApp) = (existing, None) →
  web.Site_SiteProperties existing = Some props →
  Linux.Read hp metadata initial = (r, w) →
  (r = Ok tt → all_set) ∧ (r = Panic → ¬ all_set).
Proof.
  intros all_set Hdecode Hget Hprops Hrun. subst all_set.
  unfold Linux.Read, Linux.Read_merge, Linux.Read_flags in Hrun.
  rewrite Hdecode in Hrun. unfold_monad. norm_in Hrun.
  rewrite Hget in Hrun. norm_in Hrun. rewrite Hprops in Hrun. norm_in Hrun.
  repeat step_in Hrun; inversion Hrun; subst; clear Hrun;
    (split; intros Hr; try discriminate Hr).
  all: try (destruct (Encode _ _); discriminate Hr).
  all: try (intros (A & B & C & D);
            destruct A as [? A], B as [? B], C as [? C], D as [? D];
            congruence).
  all: unfold is_Some; eauto 10.
Qed.

(** C10: when the site properties are present, the Linux [Read]
    dereferences ClientAffinityEnabled, ClientCertEnabled, Enabled and
    HTTPSOnly without a nil check: once the reads have answered it panics
    exactly when one of the four is nil, and it never returns without error
    unless all four are non-nil.  The Windows [Read] guards each of them:
    a nil flag leaves the zero value in the state, and a panic of the
    Windows [Read] on a parsed ID comes from the site metadata alone. *)
Theorem Linux_Read_unguarded_flags
    (metadata : ResourceMetaData Linux.LinuxWebAppModel)
    (webApp : Linux.LinuxWebAppModel) (existing : web.Site)
    (props : web.SiteProperties) :
  let client := AppService_WebAppsClient metadata in
  let rg := Linux.ResourceGroup webApp in
  let site := Linux.Name webApp in
  let all_set :=
    is_Some (web.ClientAffinityEnabled props)
    ∧ is_Some (web.ClientCertEnabled props)
    ∧ is_Some (web.Enabled props)
    ∧ is_Some (web.HTTPSOnly props) in
  Decode metadata = (webApp, None) →
  WebApps_Get client rg site = (existing, None) →
  web.Site_SiteProperties existing = Some props →
  (reads_succeed client rg site →
   ((Linux.Read hp metadata initial).1 = Panic ↔ ¬ all_set))
  ∧ (∀ w, Linux.Read hp metadata initial = (Ok tt, w) → all_set)
  ∧ (all_set → (Linux.Read hp metadata initial).1 ≠ Panic)
  ∧ (∀ id webAppSiteConfig auth backup logsConfig appSettings storageAccounts
       connectionStrings siteCredentials currentStack,
       let state :=
         Windows.Read_state hp id existing props webAppSiteConfig auth backup
           logsConfig appSettings storageAccounts connectionStrings
           siteCredentials currentStack in
       Windows.ClientAffinityEnabled state
         = default false (web.ClientAffinityEnabled props)
       ∧ Windows.ClientCertEnabled state
           = default false (web.ClientCertEnabled props)
       ∧ Windows.Enabled state = default false (web.Enabled props)
       ∧ Windows.HttpsOnly state = default false (web.HTTPSOnly props))
  ∧ (∀ (resource : ResourceMetaData Windows.WindowsWebAppModel) id w,
       parse_WebAppID hp (ResourceData_Id resource) = (Some id, None) →
       Windows.Read hp resource initial = (Panic, w) →
       ∃ siteMetadata properties,
         WebApps_ListMetadata (AppService_WebAppsClient resource)
           (parse.WebAppId_ResourceGroup id) (parse.WebAppId_SiteName id)
         = (siteMetadata, None)
         ∧ web.StringDictionary_Properties siteMetadata = Some properties
         ∧ properties !! "CURRENT_STACK" = Some None).
Proof.
  intros client rg site all_set Hdecode Hget Hprops.
  assert (Hout : ∀ r w, Linux.Read hp metadata initial = (r, w) →
                        (r = Ok tt → all_set) ∧ (r = Panic → ¬ all_set)).
  { intros r w Hrun.
    apply (Linux_Read_outcome metadata webApp existing props r w
             Hdecode Hget Hprops Hrun). }
  split; [|split; [|split; [|split]]].
  - intros Hreads. split.
    + intros Hpanic.
      destruct (Linux.Read hp metadata initial) as [r w] eqn:Hrun.
      cbn in Hpanic. apply (proj2 (Hout r w eq_refl) Hpanic).
    + intros Hnil.
      rewrite (Linux_Read_reaches_merge metadata webApp existing
                 Hdecode Hget Hreads).
      unfold Linux.Read_merge, Linux.Read_flags. rewrite Hprops.
      unfold_monad. norm.
      destruct (web.ClientAffinityEnabled props) eqn:E1; [|reflexivity].
      destruct (web.ClientCertEnabled props) eqn:E2; [|reflexivity].
      destruct (web.Enabled props) eqn:E3; [|reflexivity].
      destruct (web.HTTPSOnly props) eqn:E4; [|reflexivity].
      exfalso. apply Hnil. subst all_set. rewrite ?E1, ?E2, ?E3, ?E4.
      unfold is_Some. eauto 10.
  - intros w Hrun. apply (proj1 (Hout (Ok tt) w Hrun)). reflexivity.
  - intros Hset Hpanic.
    destruct (Linux.Read hp metadata initial) as [r w] eqn:Hrun.
    cbn in Hpanic. apply (proj2 (Hout r w eq_refl) Hpanic), Hset.
  - intros. subst state. unfold Windows.Read_state. cbn.
    repeat split; by repeat case_match.
  - intros resource id w Hparse Hpanic.
    destruct (Windows_Read_panic resource w Hpanic) as [Hnil|Hmeta].
    + rewrite Hparse in Hnil. discriminate Hnil.
    + destruct Hmeta as (id' & siteMetadata & properties & Hp & Hm & Hd & Hl).
      rewrite Hparse in Hp. inversion Hp; subst id'.
      exists siteMetadata, properties. auto.
Qed.

End ErrorPaths.

Section UpdateTrace.
Context `{Payloads} (hp : Helpers).

(** ** Update *)

(** Every run of [Update], whatever the collaborators answer: the calls are
    issued in source order, every sub-resource call is entitled by a
    changed field, and a run that gets past the application-settings step
    of a changed [app_settings] has issued the application-settings
    update. *)
Lemma Update_trace
    (metadata : ResourceMetaData Windows.WindowsWebAppModel)
    (r : result unit) (w : World Windows.WindowsWebAppModel) :
  Windows.Update hp metadata initial = (r, w) →
  increasing (Update_rank <$> calls w) = true
  ∧ Forall (Update_call_justified hp metadata) (calls w)
  ∧ (ResourceData_HasChange metadata "app_settings" = true →
     is_Ok r || existsb (λ c, 4 <? Update_rank c)%nat (calls w) = true →
     existsb is_appSettings_update (calls w) = true).
Proof.
  unfold Windows.Update, Windows.Update_primary, Windows.Update_subresources,
    Windows.setCurrentStack.
  unfold_monad. intros Hrun. norm_in Hrun.
  repeat step_in Hrun.
  all: inversion Hrun; subst; clear Hrun.
  all: (split; [reflexivity|split]).
  all: try (intros; first [reflexivity | discriminate | congruence]).
  all: unfold Update_call_justified;
    try match goal with E : Decode _ = _ |- _ => rewrite E end;
    cbn [fst snd]; repeat constructor; eauto.
Qed.

(** *** Lists of increasing ranks *)

Lemma increasing_cons (a : nat) (ranks : list nat) :
  increasing (a :: ranks) = true →
  increasing ranks = true ∧ Forall (λ b, a < b) ranks.
Proof.
  revert a. induction ranks as [|b ranks IH]; intros a Hinc.
  - split; [reflexivity|constructor].
  - cbn [increasing] in Hinc. apply andb_true_iff in Hinc as [Hab Hrest].
    apply Nat.ltb_lt in Hab. split; [exact Hrest|].
    destruct (IH b Hrest) as [_ Hall]. constructor; [exact Hab|].
    eapply Forall_impl; [exact Hall|]. cbn. lia.
Qed.

Lemma increasing_app (pre post : list nat) (a : nat) :
  increasing (pre ++ a :: post) = true →
  Forall (λ b, b < a) pre ∧ Forall (λ b, a < b) post.
Proof.
  induction pre as [|b pre IH]; intros Hinc.
  - split; [constructor|]. apply (increasing_cons a post Hinc).
  - rewrite <- app_comm_cons in Hinc.
    apply increasing_cons in Hinc as [Hrest Hall].
    destruct (IH Hrest) as [Hpre Hpost]. split; [|exact Hpost].
    constructor; [|exact Hpre].
    apply Forall_app in Hall as [_ Hall]. inversion Hall; assumption.
Qed.


End UpdateTrace.

Section UpdateProofs.
Context `{Payloads} (hp : Helpers).
(** In a run of [Update], a call is issued after the calls of lower rank
    and before the calls of higher rank. *)
Lemma Update_calls_ordered
    (metadata : ResourceMetaData Windows.WindowsWebAppModel)
    (r : result unit) (w : World Windows.WindowsWebAppModel)
    (pre post : list Call) (c : Call) :
  Windows.Update hp metadata initial = (r, w) →
  calls w = pre ++ c :: post →
  Forall (λ c', Update_rank c' < Update_rank c) pre
  ∧ Forall (λ c', Update_rank c < Update_rank c') post.
Proof.
  intros Hrun Hsplit.
  destruct (Update_trace hp metadata r w Hrun) as (Hinc & _ & _).
  rewrite Hsplit, fmap_app, fmap_cons in Hinc.
  apply increasing_app in Hinc as [Hpre Hpost].
  rewrite Forall_fmap in Hpre. rewrite Forall_fmap in Hpost.
  split; [exact Hpre|exact Hpost].
Qed.

(** C2: in every run of [Update], no application-settings update is issued
    after a logs-configuration update, and when [app_settings] changed, a
    logs-configuration update is preceded by the application-settings
    update. *)
Theorem Update_app_settings_before_logs
    (metadata : ResourceMetaData Windows.WindowsWebAppModel)
    (r : result unit) (w : World Windows.WindowsWebAppModel)
    (pre post : list Call) (logsUpdate : Call) :
  Windows.Update hp metadata initial = (r, w) →
  calls w = pre ++ logsUpdate :: post →
  is_logs_update logsUpdate = true →
  (∀ c, c ∈ post → is_appSettings_update c = false)
  ∧ (ResourceData_HasChange metadata "app_settings" = true →
     ∃ c, c ∈ pre ∧ is_appSettings_update c = true).
Proof.
  intros Hrun Hsplit Hlogs.
  destruct (Update_calls_ordered metadata r w pre post logsUpdate Hrun Hsplit)
    as [Hpre Hpost].
  assert (Hrank : Update_rank logsUpdate = 8)
    by (destruct logsUpdate; try discriminate Hlogs; reflexivity).
  rewrite Hrank in Hpre, Hpost.
  assert (Hafter : ∀ c, c ∈ post → is_appSettings_update c = false).
  { intros c Hin. rewrite Forall_forall in Hpost. specialize (Hpost c Hin).
    destruct c; try reflexivity. cbn in Hpost. lia. }
  split; [exact Hafter|].
  intros Hchanged.
  destruct (Update_trace hp metadata r w Hrun) as (_ & _ & Happ).
  specialize (Happ Hchanged).
  assert (Hlater : is_Ok r
                   || existsb (λ c, 4 <? Update_rank c)%nat (calls w) = true).
  { apply orb_true_iff. right. apply existsb_exists. exists logsUpdate.
    split; [|rewrite Hrank; reflexivity].
    rewrite Hsplit. apply in_or_app. right. left. reflexivity. }
  apply Happ, existsb_exists in Hlater as (c & Hin & Hc).
  rewrite Hsplit in Hin. apply in_app_or in Hin as [Hin|[Heq|Hin]].
  - exists c. split; [apply list_elem_of_In; exact Hin|exact Hc].
  - subst c. destruct logsUpdate; discriminate.
  - apply list_elem_of_In, Hafter in Hin. congruence.
Qed.

(** C3: when only [app_settings] changed, every sub-resource call of
    [Update] is the application-settings update, carrying the expanded
    settings; there is at most one such call, and a run that returns no
    error has issued it. *)
Theorem Update_only_app_settings
    (metadata : ResourceMetaData Windows.WindowsWebAppModel)
    (r : result unit) (w : World Windows.WindowsWebAppModel) :
  ResourceData_HasChange metadata "app_settings" = true →
  ResourceData_HasChange metadata "connection_string" = false →
  ResourceData_HasChange metadata "auth_settings" = false →
  ResourceData_HasChange metadata "backup" = false →
  ResourceData_HasChange metadata "logs" = false →
  ResourceData_HasChange metadata "storage_account" = false →
  Windows.Update hp metadata initial = (r, w) →
  (∀ c, c ∈ calls w → is_subresource_call c = true →
        ∃ rg site appSettingsUpdate,
          c = CallUpdateApplicationSettings rg site appSettingsUpdate
          ∧ ExpandAppSettings hp (Windows.AppSettings (Decode metadata).1)
            = Some appSettingsUpdate)
  ∧ (∀ pre c post,
       calls w = pre ++ c :: post → is_subresource_call c = true →
       ∀ c', c' ∈ pre ++ post → is_subresource_call c' = false)
  ∧ (r = Ok tt → ∃ c, c ∈ calls w ∧ is_appSettings_update c = true).
Proof.
  intros Happ Hconn Hauth Hbackup Hlogs Hstorage Hrun.
  destruct (Update_trace hp metadata r w Hrun) as (_ & Hjust & Hissued).
  assert (Honly : ∀ c, c ∈ calls w → is_subresource_call c = true →
            ∃ rg site appSettingsUpdate,
              c = CallUpdateApplicationSettings rg site appSettingsUpdate
              ∧ ExpandAppSettings hp (Windows.AppSettings (Decode metadata).1)
                = Some appSettingsUpdate).
  { intros c Hin Hsub. rewrite Forall_forall in Hjust.
    specialize (Hjust c Hin).
    destruct c; try discriminate Hsub; cbn in Hjust;
      try (destruct Hjust as [Hchanged _]; congruence).
    destruct Hjust as [_ Hexpand]. eauto. }
  split; [exact Honly|split].
  - intros pre c post Hsplit Hsub c' Hin.
    destruct (Update_calls_ordered metadata r w pre post c Hrun Hsplit)
      as [Hpre Hpost].
    destruct (is_subresource_call c') eqn:Hsub'; [exfalso|reflexivity].
    assert (Hc : Update_rank c = 4).
    { destruct (Honly c) as (? & ? & ? & -> & _); [|exact Hsub|reflexivity].
      rewrite Hsplit. apply elem_of_app. right. apply list_elem_of_here. }
    assert (Hc' : Update_rank c' = 4).
    { destruct (Honly c') as (? & ? & ? & -> & _); [|exact Hsub'|reflexivity].
      rewrite Hsplit. apply elem_of_app.
      apply elem_of_app in Hin as [Hin|Hin]; [left; exact Hin|].
      right. apply list_elem_of_further. exact Hin. }
    rewrite Forall_forall in Hpre. rewrite Forall_forall in Hpost.
    apply elem_of_app in Hin as [Hin|Hin];
      [specialize (Hpre c' Hin)|specialize (Hpost c' Hin)]; lia.
  - intros ->. specialize (Hissued Happ eq_refl).
    apply existsb_exists in Hissued as (c & Hin & Hc).
    exists c. split; [apply list_elem_of_In; exact Hin|exact Hc].
Qed.

(** What [Update] has established when its primary phase returns. *)
Lemma Update_primary_ok
    (metadata : ResourceMetaData Windows.WindowsWebAppModel)
    (idPtr : option parse.WebAppId) (id : parse.WebAppId)
    (state : Windows.WindowsWebAppModel)
    (w0 w1 : World Windows.WindowsWebAppModel) :
  Windows.Update_primary hp metadata w0 = (Ok (idPtr, id, state), w1) →
  Decode metadata = (state, None) ∧ idPtr = Some id.
Proof.
  unfold Windows.Update_primary, Windows.setCurrentStack. unfold_monad.
  intros Hrun. norm_in Hrun.
  repeat step_in Hrun; try discriminate Hrun.
  all: inversion Hrun; subst; split; reflexivity.
Qed.

(** Once the steps before it let the run go on, the backup step of
    [Update] issues the call that the expanded backup configuration
    selects. *)
Lemma Update_subresources_backup
    (metadata : ResourceMetaData Windows.WindowsWebAppModel)
    (idPtr : option parse.WebAppId) (id : parse.WebAppId)
    (state : Windows.WindowsWebAppModel) (backupUpdate : web.BackupRequest)
    (r : result unit) (w0 w : World Windows.WindowsWebAppModel) :
  let rg := parse.WebAppId_ResourceGroup id in
  let site := parse.WebAppId_SiteName id in
  reaches_backup_step hp metadata id state →
  ResourceData_HasChange metadata "backup" = true →
  ExpandBackupConfig hp (Windows.Backup state) = Some backupUpdate →
  Windows.Update_subresources hp metadata idPtr id state w0 = (r, w) →
  (web.BackupRequest_Properties backupUpdate = None →
   CallDeleteBackupConfiguration rg site ∈ calls w)
  ∧ (is_Some (web.BackupRequest_Properties backupUpdate) →
     CallUpdateBackupConfiguration rg site backupUpdate ∈ calls w).
Proof.
  intros rg site (Happ & Hconn & Hauth) Hchanged Hexpand Hrun. subst rg site.
  unfold step_passes in Happ, Hconn, Hauth.
  unfold Windows.Update_subresources in Hrun. unfold_monad. norm_in Hrun.
  repeat step_in Hrun; inversion Hrun; subst; clear Hrun.
  all: try (exfalso;
            destruct Happ as [?|(? & ? & ?)], Hconn as [?|(? & ? & ?)],
                     Hauth as [?|(? & ? & ?)]; congruence).
  all: simplify_eq; cbn [calls].
  all: (split; [intros Hnil|intros [? Hsome]]; try congruence).
  all: rewrite ?elem_of_app, ?list_elem_of_singleton; eauto 10.
Qed.

(** C4: when [backup] changed, the expanded backup configuration selects
    the call of [Update]: with nil properties no backup update is ever
    issued, and the backup configuration is deleted once the steps before
    the backup step let the run go on; with properties no delete is ever
    issued, and the backup configuration is updated. *)
Theorem Update_backup_branch
    (metadata : ResourceMetaData Windows.WindowsWebAppModel)
    (backupUpdate : web.BackupRequest)
    (r : result unit) (w : World Windows.WindowsWebAppModel) :
  let state := (Decode metadata).1 in
  ResourceData_HasChange metadata "backup" = true →
  ExpandBackupConfig hp (Windows.Backup state) = Some backupUpdate →
  Windows.Update hp metadata initial = (r, w) →
  (web.BackupRequest_Properties backupUpdate = None →
   (∀ c, c ∈ calls w → is_backup_update c = false)
   ∧ (∀ idPtr id w1,
        Windows.Update_primary hp metadata initial
          = (Ok (idPtr, id, state), w1) →
        reaches_backup_step hp metadata id state →
        CallDeleteBackupConfiguration (parse.WebAppId_ResourceGroup id)
          (parse.WebAppId_SiteName id) ∈ calls w))
  ∧ (is_Some (web.BackupRequest_Properties backupUpdate) →
     (∀ c, c ∈ calls w → is_backup_delete c = false)
     ∧ (∀ idPtr id w1,
          Windows.Update_primary hp metadata initial
            = (Ok (idPtr, id, state), w1) →
          reaches_backup_step hp metadata id state →
          CallUpdateBackupConfiguration (parse.WebAppId_ResourceGroup id)
            (parse.WebAppId_SiteName id) backupUpdate ∈ calls w)).
Proof.
  intros state Hchanged Hexpand Hrun.
  destruct (Update_trace hp metadata r w Hrun) as (_ & Hjust & _).
  rewrite Forall_forall in Hjust.
  assert (Hstep : ∀ idPtr id w1,
            Windows.Update_primary hp metadata initial
              = (Ok (idPtr, id, state), w1) →
            Windows.Update_subresources hp metadata idPtr id state w1 = (r, w)).
  { intros idPtr id w1 Hprimary. unfold Windows.Update in Hrun.
    rewrite (bind_ok _ _ _ _ _ Hprimary) in Hrun. exact Hrun. }
  split.
  - intros Hnil. split.
    + intros c Hin. specialize (Hjust c Hin).
      destruct c; try reflexivity. cbn in Hjust.
      destruct Hjust as (_ & Hexpand' & [? Hsome]).
      fold state in Hexpand'. congruence.
    + intros idPtr id w1 Hprimary Hreach.
      apply (Update_subresources_backup metadata idPtr id state backupUpdate
               r w1 w Hreach Hchanged Hexpand (Hstep idPtr id w1 Hprimary)).
      exact Hnil.
  - intros Hsome. split.
    + intros c Hin. specialize (Hjust c Hin).
      destruct c; try reflexivity. cbn in Hjust.
      destruct Hjust as (_ & backupUpdate' & Hexpand' & Hnil).
      fold state in Hexpand'. destruct Hsome as [? Hsome]. congruence.
    + intros idPtr id w1 Hprimary Hreach.
      apply (Update_subresources_backup metadata idPtr id state backupUpdate
               r w1 w Hreach Hchanged Hexpand (Hstep idPtr id w1 Hprimary)).
      exact Hsome.
Qed.

End UpdateProofs.

Section CreateGroups.
Context `{Payloads} (hp : Helpers).

(** ** Create: the sub-resource groups *)

(** Step 7 of [Create] is the sequential application, in the spec's words,
    of the groups as [Create] guards them. *)
Lemma Create_subresources_groups
    (client : WebAppsClient) (webApp : Windows.WindowsWebAppModel)
    (id : parse.WebAppId)
    (auth : web.SiteAuthSettings) (logsConfig : web.SiteLogsConfig)
    (backupConfig : web.BackupRequest)
    (storageConfig : web.AzureStoragePropertyDictionaryResource)
    (connectionStrings : web.ConnectionStringDictionary)
    (w0 : World Windows.WindowsWebAppModel) :
  ExpandAuthSettings hp (Windows.AuthSettings webApp) = Some auth →
  ExpandLogsConfig hp (Windows.LogsConfig webApp) = Some logsConfig →
  ExpandBackupConfig hp (Windows.Backup webApp) = Some backupConfig →
  ExpandStorageConfig hp (Windows.StorageAccounts webApp) = Some storageConfig →
  ExpandConnectionStrings hp (Windows.ConnectionStrings webApp)
    = Some connectionStrings →
  let applied :=
    Spec_apply_groups id
      (Create_guarded_groups client id
         (ExpandAppSettings hp (Windows.AppSettings webApp))
         auth logsConfig backupConfig storageConfig connectionStrings) in
  Windows.Create_subresources hp client webApp id w0
    = (applied.1, with_calls w0 applied.2).
Proof.
  intros Hauth Hlogs Hbackup Hstorage Hconn applied. subst applied.
  destruct w0 as [cs0 logs0 id0 encoded0].
  unfold Windows.Create_subresources, Create_guarded_groups,
    groups_after_settings, appSettings_group, present, with_calls.
  rewrite Hauth, Hlogs, Hbackup, Hstorage, Hconn.
  unfold_monad. norm.
  repeat step_goal.
  all: cbn [app Spec_apply_groups group_answer group_call group_context
            fst snd];
    repeat match goal with
           | E : ?x = _ |- context [?x] => rewrite E
           end;
    cbn [app Spec_apply_groups group_answer group_call group_context fst snd];
    rewrite <- ?app_assoc, ?app_nil_r; reflexivity.
Qed.

(** The sequential application stops at the first group that fails, and
    issues the calls of the groups up to it. *)
Lemma Spec_apply_groups_first_failure
    (id : parse.WebAppId) (applied : list applied_group)
    (failed : applied_group) (skipped : list applied_group) (e : error) :
  Forall (λ g, group_answer g = None) applied →
  group_answer failed = Some e →
  Spec_apply_groups id (applied ++ failed :: skipped)
  = (Err (Errorf (group_context failed) [ArgWebAppId id; ArgError e]),
     group_call <$> (applied ++ [failed])).
Proof.
  intros Happlied Hfailed.
  induction Happlied as [|g applied Hg _ IH]; cbn.
  - rewrite Hfailed. reflexivity.
  - rewrite Hg, IH. reflexivity.
Qed.

(** Without a failure, every group is applied. *)
Lemma Spec_apply_groups_all
    (id : parse.WebAppId) (applied : list applied_group) :
  Forall (λ g, group_answer g = None) applied →
  Spec_apply_groups id applied = (Ok tt, group_call <$> applied).
Proof.
  intros Happlied. induction Happlied as [|g applied Hg _ IH]; cbn.
  - reflexivity.
  - rewrite Hg, IH. reflexivity.
Qed.

(** ** Create: the name-availability check *)

(** The sub-resource phase of [Create] only adds remote calls. *)
Lemma Create_subresources_extends
    (client : WebAppsClient) (webApp : Windows.WindowsWebAppModel)
    (id : parse.WebAppId) (r : result unit)
    (w0 w : World Windows.WindowsWebAppModel) :
  Windows.Create_subresources hp client webApp id w0 = (r, w) →
  (∃ cs, calls w = calls w0 ++ cs) ∧ logs w = logs w0.
Proof.
  unfold Windows.Create_subresources. unfold_monad. intros Hrun.
  norm_in Hrun.
  repeat step_in Hrun; inversion Hrun; subst; clear Hrun.
  all: cbn [calls logs]; (split; [|reflexivity]).
  all: first [ by (exists []; rewrite app_nil_r)
             | eexists; rewrite <- ?app_assoc; reflexivity ].
Qed.

(** What [Create] has issued and logged by the end of its primary phase is
    there when it returns. *)
Lemma Create_keeps_primary
    (metadata : ResourceMetaData Windows.WindowsWebAppModel)
    (r : result unit) (w : World Windows.WindowsWebAppModel) :
  Windows.Create hp metadata initial = (r, w) →
  ∃ r1 w1,
    Windows.Create_primary hp metadata initial = (r1, w1)
    ∧ (∀ c, c ∈ calls w1 → c ∈ calls w)
    ∧ (∀ entry, entry ∈ logs w1 → entry ∈ logs w).
Proof.
  unfold Windows.Create. intros Hrun.
  apply bind_inv in Hrun as [([webApp id] & w1 & Hprimary & Hrest)
                            |[(e & Hprimary & _)|[Hprimary _]]].
  - exists (Ok (webApp, id)), w1. split; [exact Hprimary|].
    cbn beta iota in Hrest.
    rewrite (bind_ok (SetID id) _ w1 tt
               (MkWorld (calls w1) (logs w1) (IdSet id) (encoded w1)) eq_refl)
      in Hrest.
    apply Create_subresources_extends in Hrest as [[cs Hcalls] Hlogs].
    cbn [calls logs] in Hcalls, Hlogs. rewrite Hcalls, Hlogs. split.
    + intros c Hin. apply elem_of_app. left. exact Hin.
    + intros entry Hin. exact Hin.
  - exists (Err e), w. auto.
  - exists Panic, w. auto.
Qed.

End CreateGroups.

Section CreateAvailability.
Context `{Payloads} (hp : Helpers).
(** When the service plan is hosted on an isolated environment, the primary
    phase of [Create] checks the availability of the fully-qualified name. *)
Lemma Create_primary_isolated
    (metadata : ResourceMetaData Windows.WindowsWebAppModel)
    (webApp : Windows.WindowsWebAppModel)
    (servicePlanId : parse.ServicePlanId)
    (ase : web.HostingEnvironmentProfile)
    (r1 : result (Windows.WindowsWebAppModel * parse.WebAppId))
    (w1 : World Windows.WindowsWebAppModel) :
  let aseClient := AppService_AppServiceEnvironmentClient metadata in
  let check suffix :=
    CallCheckNameAvailability (fqdn_request webApp servicePlanId suffix) in
  resolves_isolated_plan hp metadata webApp servicePlanId ase →
  Windows.Create_primary hp metadata initial = (r1, w1) →
  (match web.HostingEnvironmentProfile_ID ase with
   | Some aseID => is_Some (parse_AppServiceEnvironmentID hp aseID).1
   | None => True
   end →
   ∃ suffix, check suffix ∈ calls w1)
  ∧ (∀ aseID aseId parseErr,
       web.HostingEnvironmentProfile_ID ase = Some aseID →
       parse_AppServiceEnvironmentID hp aseID = (Some aseId, parseErr) →
       ase_lookup_fails metadata (Some aseId) parseErr →
       check (fallback_suffix aseId) ∈ calls w1
       ∧ ∃ entry, entry ∈ logs w1 ∧ log_level entry = LevelWarn)
  ∧ (∀ aseID aseId existingASE props suffix,
       web.HostingEnvironmentProfile_ID ase = Some aseID →
       parse_AppServiceEnvironmentID hp aseID = (Some aseId, None) →
       AppServiceEnvironments_Get aseClient
         (parse.AppServiceEnvironmentId_ResourceGroup aseId)
         (parse.AppServiceEnvironmentId_HostingEnvironmentName aseId)
       = (existingASE, None) →
       web.AppServiceEnvironmentResource_AppServiceEnvironment existingASE
       = Some props →
       web.DNSSuffix props = Some suffix →
       suffix ≠ "" →
       check suffix ∈ calls w1 ∧ logs w1 = []).
Proof.
  intros aseClient check
    (Hdecode & Hmissing & Hplan & servicePlan & servicePlanProperties
     & HplanGet & Hproperties & Hase) Hrun.
  subst aseClient check.
  unfold Windows.Create_primary, Windows.Create_availabilityRequest,
    Windows.Create_nameSuffix, Windows.setCurrentStack in Hrun.
  rewrite Hdecode, Hplan in Hrun.
  unfold_monad. norm_in Hrun.
  destruct (WebApps_Get _ _ _) as [existing getErr] eqn:Hget.
  cbn [fst] in Hmissing. norm_in Hrun.
  rewrite Hmissing, HplanGet in Hrun. norm_in Hrun.
  rewrite Hproperties in Hrun. norm_in Hrun.
  rewrite Hase in Hrun. destruct getErr; norm_in Hrun.
  all: repeat step_in Hrun; inversion Hrun; subst; clear Hrun.
  all: cbn [calls logs fst snd] in *.
  all: (split; [|split]).
  (* the check is issued for a fully-qualified name *)
  all: try (intros Hparsed;
            first [ by (destruct Hparsed; congruence)
                  | eexists; solve_elem_of ]).
  (* a failed lookup *)
  all: try (intros aseID aseId parseErr Hid Hparse Hfails; simplify_eq;
            same_answers; simplify_eq;
            first [ by (exfalso;
                        destruct Hfails as [[? Hf]|(? & Heq & [? Hf])];
                        simplify_eq;
                        try match goal with
                            | E : AppServiceEnvironments_Get _ _ _ = _ |- _ =>
                                rewrite E in Hf
                            end;
                        cbn [fst snd] in *; congruence)
                  | by (split;
                        [ solve_elem_of
                        | eexists; split;
                          [apply list_elem_of_here|reflexivity] ]) ]).
  (* a lookup that finds a DNS suffix *)
  all: try (intros aseID aseId existingASE props suffix' Hid Hparse Hread
              Hprops Hsuffix Hnonempty;
            repeat (simplify_eq; progress same_answers); simplify_eq;
            first [ by (exfalso; cbn [fst snd] in *; congruence)
                  | by (exfalso;
                        match goal with
                        | E : bool_decide _ = false |- _ =>
                            apply bool_decide_eq_false in E; apply E;
                            congruence
                        end)
                  | by (split; [solve_elem_of|reflexivity]) ]).
Qed.

(** C1: when the service plan is hosted on an isolated environment,
    [Create] checks the availability of the fully-qualified name
    [<name>.<plan-name>.<suffix>] with IsFqdn set; when the lookup of the
    environment fails on an ID that the parser returned, the suffix is
    [<environment-name>.appserviceenvironment.net], a warning is logged and
    the check is issued all the same; when the environment is read and has
    a DNS suffix, that suffix is used and nothing is logged by then. *)
Theorem Create_isolated_environment_fqdn
    (metadata : ResourceMetaData Windows.WindowsWebAppModel)
    (webApp : Windows.WindowsWebAppModel)
    (servicePlanId : parse.ServicePlanId)
    (ase : web.HostingEnvironmentProfile)
    (r : result unit) (w : World Windows.WindowsWebAppModel) :
  let aseClient := AppService_AppServiceEnvironmentClient metadata in
  let check suffix :=
    CallCheckNameAvailability (fqdn_request webApp servicePlanId suffix) in
  resolves_isolated_plan hp metadata webApp servicePlanId ase →
  Windows.Create hp metadata initial = (r, w) →
  (match web.HostingEnvironmentProfile_ID ase with
   | Some aseID => is_Some (parse_AppServiceEnvironmentID hp aseID).1
   | None => True
   end →
   ∃ suffix, check suffix ∈ calls w)
  ∧ (∀ aseID aseId parseErr,
       web.HostingEnvironmentProfile_ID ase = Some aseID →
       parse_AppServiceEnvironmentID hp aseID = (Some aseId, parseErr) →
       ase_lookup_fails metadata (Some aseId) parseErr →
       check (fallback_suffix aseId) ∈ calls w
       ∧ ∃ entry, entry ∈ logs w ∧ log_level entry = LevelWarn)
  ∧ (∀ aseID aseId existingASE props suffix,
       web.HostingEnvironmentProfile_ID ase = Some aseID →
       parse_AppServiceEnvironmentID hp aseID = (Some aseId, None) →
       AppServiceEnvironments_Get aseClient
         (parse.AppServiceEnvironmentId_ResourceGroup aseId)
         (parse.AppServiceEnvironmentId_HostingEnvironmentName aseId)
       = (existingASE, None) →
       web.AppServiceEnvironmentResource_AppServiceEnvironment existingASE
       = Some props →
       web.DNSSuffix props = Some suffix →
       suffix ≠ "" →
       check suffix ∈ calls w).
Proof.
  intros aseClient check Hplan Hrun.
  destruct (Create_keeps_primary hp metadata r w Hrun)
    as (r1 & w1 & Hprimary & Hcalls & Hlogs).
  destruct (Create_primary_isolated metadata webApp servicePlanId ase r1 w1
              Hplan Hprimary) as (Hfqdn & Hfallback & Hsuffix).
  split; [|split].
  - intros Hparsed. destruct (Hfqdn Hparsed) as [suffix Hin].
    exists suffix. apply Hcalls, Hin.
  - intros aseID aseId parseErr Hid Hparse Hfails.
    destruct (Hfallback aseID aseId parseErr Hid Hparse Hfails)
      as (Hin & entry & Hentry & Hwarn).
    split; [apply Hcalls, Hin|]. exists entry. split; [apply Hlogs, Hentry|].
    exact Hwarn.
  - intros aseID aseId existingASE props suffix Hid Hparse Hread Hprops
      Hdns Hnonempty.
    apply Hcalls.
    apply (Hsuffix aseID aseId existingASE props suffix Hid Hparse Hread
             Hprops Hdns Hnonempty).
Qed.

End CreateAvailability.

(** * Further properties of the drivers *)

Section CreateTrace.
Context `{Payloads} (hp : Helpers).

(** Every run of the primary phase of [Create], whatever the collaborators
    answer: the calls are issued in source order and each is entitled by the
    answers before it; the ID and the state are not touched; only warnings
    are logged; and a run that goes on has created the site. *)
Lemma Create_primary_trace
    (metadata : ResourceMetaData Windows.WindowsWebAppModel)
    (r1 : result (Windows.WindowsWebAppModel * parse.WebAppId))
    (w1 : World Windows.WindowsWebAppModel) :
  Windows.Create_primary hp metadata initial = (r1, w1) →
  increasing (Create_rank <$> calls w1) = true
  ∧ Forall (Create_call_justified hp metadata) (calls w1)
  ∧ resourceId w1 = IdUntouched ∧ encoded w1 = None
  ∧ Forall (Create_log_justified hp metadata) (logs w1)
  ∧ (∀ rg site siteEnvelope,
       CallCreateOrUpdate rg site siteEnvelope ∈ calls w1 →
       Create_name_is_free metadata (calls w1))
  ∧ (∀ rg site siteMetadata,
       CallUpdateMetadata rg site siteMetadata ∈ calls w1 →
       Create_metadata_outcome metadata siteMetadata r1)
  ∧ (∀ webApp id, r1 = Ok (webApp, id) →
       webApp = (Decode metadata).1
       ∧ id = parse.NewWebAppID (Account_SubscriptionId metadata)
                (Windows.ResourceGroup webApp) (Windows.Name webApp)
       ∧ CallCreateOrUpdate (Windows.ResourceGroup webApp)
           (Windows.Name webApp) (site_of_model hp webApp) ∈ calls w1
       ∧ CallWaitForCompletionRef OpCreateOrUpdate ∈ calls w1
       ∧ ∃ future,
           WebApps_CreateOrUpdate (AppService_WebAppsClient metadata)
             (Windows.ResourceGroup webApp) (Windows.Name webApp)
             (site_of_model hp webApp) = (future, None)
           ∧ CreateOrUpdateFuture_WaitForCompletionRef future = None).
Proof.
  unfold Windows.Create_primary, Windows.Create_availabilityRequest,
    Windows.Create_nameSuffix, Windows.setCurrentStack.
  unfold_monad. intros Hrun. norm_in Hrun.
  repeat step_in Hrun.
  all: inversion Hrun; subst; clear Hrun.
  all: norm.
  all: (split; [reflexivity|split; [|split; [reflexivity|split;
          [reflexivity|split; [|split; [|split]]]]]]).
  all: try (by repeat constructor).
  all: try (intros ? ? ? Hin;
            repeat match type of Hin with
                   | _ ∈ [] => by apply elem_of_nil in Hin
                   | _ ∈ _ :: _ =>
                       apply elem_of_cons in Hin as [Hin|Hin];
                       [try discriminate Hin|]
                   end;
            simplify_eq).
  all: try (intros webApp id Hok; first [discriminate Hok | simplify_eq]).
  all: unfold Create_call_justified, Create_log_justified,
         Create_name_is_free, Create_metadata_outcome, site_of_model,
         currentStack_metadata,
         name_request, fqdn_request;
    try match goal with E : Decode _ = _ |- _ => rewrite E end;
    cbn [fst snd].
  all: try match goal with
           | |- context [ExpandIdentity hp ?blocks] =>
               destruct (ExpandIdentity hp blocks) eqn:?; cbn iota in *
           end.
  all: use_answers.
  all: repeat constructor; justify.
Qed.

(** The sub-resource phase of [Create] only adds sub-resource calls, all for
    the site of the ID; it logs nothing and leaves the ID and the state as
    they are. *)
Lemma Create_subresources_trace
    (client : WebAppsClient) (webApp : Windows.WindowsWebAppModel)
    (id : parse.WebAppId) (r : result unit)
    (w0 w : World Windows.WindowsWebAppModel) :
  Windows.Create_subresources hp client webApp id w0 = (r, w) →
  ∃ cs,
    w = with_calls w0 cs
    ∧ Forall (λ c, is_subresource_call c = true
                   ∧ call_target c
                     = Some (parse.WebAppId_ResourceGroup id,
                             parse.WebAppId_SiteName id)) cs.
Proof.
  destruct w0 as [calls0 logs0 id0 encoded0].
  unfold Windows.Create_subresources. unfold_monad. intros Hrun.
  norm_in Hrun.
  repeat step_in Hrun; inversion Hrun; subst; clear Hrun.
  all: unfold with_calls; cbn [calls logs resourceId encoded].
  all: first [ by (exists []; rewrite app_nil_r; split; [reflexivity|constructor])
             | eexists; rewrite <- ?app_assoc;
               split; [reflexivity|cbn [app]; by repeat constructor] ].
Qed.

(** [Create] is its primary phase, then the recording of the ID, then its
    sub-resource phase. *)
Lemma Create_phases
    (metadata : ResourceMetaData Windows.WindowsWebAppModel)
    (r : result unit) (w : World Windows.WindowsWebAppModel) :
  Windows.Create hp metadata initial = (r, w) →
  (∃ webApp id w1,
     Windows.Create_primary hp metadata initial = (Ok (webApp, id), w1)
     ∧ Windows.Create_subresources hp (AppService_WebAppsClient metadata)
         webApp id (MkWorld (calls w1) (logs w1) (IdSet id) (encoded w1))
       = (r, w))
  ∨ (∃ e, Windows.Create_primary hp metadata initial = (Err e, w) ∧ r = Err e)
  ∨ (Windows.Create_primary hp metadata initial = (Panic, w) ∧ r = Panic).
Proof.
  unfold Windows.Create. intros Hrun.
  apply bind_inv in Hrun as [([webApp id] & w1 & Hprimary & Hrest)|Hstop].
  - left. exists webApp, id, w1. split; [exact Hprimary|]. exact Hrest.
  - right. exact Hstop.
Qed.

End CreateTrace.

Section CreateGroupsOrder.
Context `{Payloads} (hp : Helpers).

(** When an expansion of the application settings that is not nil always
    has properties, the groups [Create] guards are the groups with non-nil
    properties. *)
Lemma Create_guarded_groups_nonempty
    (client : WebAppsClient) (id : parse.WebAppId)
    (appSettings : option web.StringDictionary)
    (auth : web.SiteAuthSettings) (logsConfig : web.SiteLogsConfig)
    (backupConfig : web.BackupRequest)
    (storageConfig : web.AzureStoragePropertyDictionaryResource)
    (connectionStrings : web.ConnectionStringDictionary) :
  (∀ appSettings_, appSettings = Some appSettings_ →
     is_Some (web.StringDictionary_Properties appSettings_)) →
  Create_guarded_groups client id appSettings auth logsConfig backupConfig
    storageConfig connectionStrings
  = Spec_nonempty_groups client id appSettings auth logsConfig backupConfig
      storageConfig connectionStrings.
Proof.
  intros Hproperties. unfold Create_guarded_groups, Spec_nonempty_groups.
  destruct appSettings as [appSettings_|]; [|reflexivity].
  destruct (Hproperties appSettings_ eq_refl) as [properties Heq].
  rewrite Heq. reflexivity.
Qed.

(** C6: once the create operation has completed, which the primary phase
    of [Create] returning says, the create call and the wait for it have
    been issued and answered without error and no sub-resource call has
    been issued; [Create] then sets the ID and applies the sub-resource
    groups sequentially, in the order app settings, auth settings, logs,
    backup, storage accounts, connection strings: the app settings when
    their expansion is not nil, each of the others when its expansion has
    non-nil properties; the first failure returns its wrapped error at
    once, the remaining groups are skipped, and no call undoes a group
    applied before. *)
Theorem Create_subresources_in_order
    (metadata : ResourceMetaData Windows.WindowsWebAppModel)
    (webApp : Windows.WindowsWebAppModel) (id : parse.WebAppId)
    (auth : web.SiteAuthSettings) (logsConfig : web.SiteLogsConfig)
    (backupConfig : web.BackupRequest)
    (storageConfig : web.AzureStoragePropertyDictionaryResource)
    (connectionStrings : web.ConnectionStringDictionary)
    (w1 : World Windows.WindowsWebAppModel) :
  Windows.Create_primary hp metadata initial = (Ok (webApp, id), w1) →
  ExpandAuthSettings hp (Windows.AuthSettings webApp) = Some auth →
  ExpandLogsConfig hp (Windows.LogsConfig webApp) = Some logsConfig →
  ExpandBackupConfig hp (Windows.Backup webApp) = Some backupConfig →
  ExpandStorageConfig hp (Windows.StorageAccounts webApp) = Some storageConfig →
  ExpandConnectionStrings hp (Windows.ConnectionStrings webApp)
    = Some connectionStrings →
  let client := AppService_WebAppsClient metadata in
  let rg := parse.WebAppId_ResourceGroup id in
  let site := parse.WebAppId_SiteName id in
  let groups :=
    Create_guarded_groups client id
      (ExpandAppSettings hp (Windows.AppSettings webApp))
      auth logsConfig backupConfig storageConfig connectionStrings in
  (CallCreateOrUpdate rg site (site_of_model hp webApp) ∈ calls w1
   ∧ CallWaitForCompletionRef OpCreateOrUpdate ∈ calls w1
   ∧ (∃ future,
        WebApps_CreateOrUpdate client rg site (site_of_model hp webApp)
          = (future, None)
        ∧ CreateOrUpdateFuture_WaitForCompletionRef future = None)
   ∧ (∀ siteMetadata,
        CallUpdateMetadata rg site siteMetadata ∈ calls w1 →
        WebApps_UpdateMetadata client rg site siteMetadata = None)
   ∧ Forall (λ c, is_subresource_call c = false) (calls w1))
  ∧ Windows.Create hp metadata initial
    = ((Spec_apply_groups id groups).1,
       MkWorld (calls w1 ++ (Spec_apply_groups id groups).2) (logs w1)
         (IdSet id) (encoded w1))
  ∧ (∀ applied failed skipped e,
       groups = applied ++ failed :: skipped →
       Forall (λ g, group_answer g = None) applied →
       group_answer failed = Some e →
       Windows.Create hp metadata initial
       = (Err (Errorf (group_context failed) [ArgWebAppId id; ArgError e]),
          MkWorld (calls w1 ++ (group_call <$> (applied ++ [failed])))
            (logs w1) (IdSet id) (encoded w1))).
Proof.
  intros Hprimary Hauth Hlogs Hbackup Hstorage Hconn client rg site groups.
  assert (Hrun : Windows.Create hp metadata initial
    = ((Spec_apply_groups id groups).1,
       MkWorld (calls w1 ++ (Spec_apply_groups id groups).2) (logs w1)
         (IdSet id) (encoded w1))).
  { unfold Windows.Create. rewrite (bind_ok _ _ _ _ _ Hprimary).
    cbn beta iota.
    rewrite (bind_ok (SetID id) _ w1 tt
               (MkWorld (calls w1) (logs w1) (IdSet id) (encoded w1)) eq_refl).
    rewrite (Create_subresources_groups hp (AppService_WebAppsClient metadata)
               webApp id auth logsConfig backupConfig storageConfig
               connectionStrings _ Hauth Hlogs Hbackup Hstorage Hconn).
    reflexivity. }
  split; [|split; [exact Hrun|]].
  - destruct (Create_primary_trace hp _ _ _ Hprimary)
      as (_ & Hjust & _ & _ & _ & _ & Hmeta & Hok).
    destruct (Hok webApp id eq_refl)
      as (Hmodel & Hid & Hcreate & Hwait & Hcreated).
    subst rg site. rewrite Hid. cbn [parse.WebAppId_ResourceGroup
      parse.WebAppId_SiteName].
    split; [exact Hcreate|]. split; [exact Hwait|]. split; [exact Hcreated|].
    split.
    + intros siteMetadata Hin. specialize (Hmeta _ _ _ Hin).
      unfold Create_metadata_outcome in Hmeta. rewrite <- Hmodel in Hmeta.
      fold client in Hmeta |- *.
      destruct (WebApps_UpdateMetadata client _ _ _);
        [discriminate Hmeta|reflexivity].
    + eapply Forall_impl; [exact Hjust|].
      intros c Hc. unfold is_subresource_call.
      destruct c; first [reflexivity | contradiction].
  - intros applied failed skipped e Hsplit Happlied Hfailed.
    rewrite Hrun, Hsplit.
    rewrite (Spec_apply_groups_first_failure id applied failed skipped e
               Happlied Hfailed).
    reflexivity.
Qed.

End CreateGroupsOrder.

Section CreateProperties.
Context `{Payloads} (hp : Helpers).

(** Every run of [Create]: what its primary phase has issued and logged,
    followed by sub-resource calls for the site of the model; the ID is
    recorded exactly when the primary phase has gone through. *)
Lemma Create_run
    (metadata : ResourceMetaData Windows.WindowsWebAppModel)
    (r : result unit) (w : World Windows.WindowsWebAppModel) :
  Windows.Create hp metadata initial = (r, w) →
  let webApp := (Decode metadata).1 in
  let id := parse.NewWebAppID (Account_SubscriptionId metadata)
              (Windows.ResourceGroup webApp) (Windows.Name webApp) in
  ∃ r1 w1 cs,
    Windows.Create_primary hp metadata initial = (r1, w1)
    ∧ calls w = calls w1 ++ cs
    ∧ logs w = logs w1
    ∧ encoded w = None
    ∧ Forall (λ c, is_subresource_call c = true
                   ∧ call_target c
                     = Some (Windows.ResourceGroup webApp, Windows.Name webApp))
        cs
    ∧ (if is_Ok r1 then resourceId w = IdSet id
       else resourceId w = IdUntouched ∧ cs = [])
    ∧ (is_Ok r = true → is_Ok r1 = true).
Proof.
  intros Hrun webApp id. subst webApp id.
  apply Create_phases in Hrun
    as [(webApp & id & w1 & Hprimary & Hrest)
       |[(e & Hprimary & ->)|[Hprimary ->]]].
  - destruct (Create_primary_trace hp _ _ _ Hprimary)
      as (_ & _ & _ & Henc & _ & _ & _ & Hok).
    destruct (Hok webApp id eq_refl) as (-> & -> & _).
    apply Create_subresources_trace in Hrest as (cs & -> & Hcs).
    exists (Ok ((Decode metadata).1,
                parse.NewWebAppID (Account_SubscriptionId metadata)
                  (Windows.ResourceGroup (Decode metadata).1)
                  (Windows.Name (Decode metadata).1))), w1, cs.
    cbn [calls logs resourceId encoded with_calls is_Ok].
    repeat split; try assumption; reflexivity.
  - destruct (Create_primary_trace hp _ _ _ Hprimary)
      as (_ & _ & Hid & Henc & _).
    exists (Err e), w, []. rewrite app_nil_r. cbn [is_Ok].
    repeat split; try assumption; try constructor; discriminate.
  - destruct (Create_primary_trace hp _ _ _ Hprimary)
      as (_ & _ & Hid & Henc & _).
    exists Panic, w, []. rewrite app_nil_r. cbn [is_Ok].
    repeat split; try assumption; try constructor; discriminate.
Qed.


(** X1: [Create] creates the site only under a name that is free: whenever
    the create call has been issued, the existence check had reported
    NotFound and the availability check issued before had answered that the
    name is available; the call is for the resource group and the name of
    the model and carries the site the model describes. *)
Theorem Create_only_free_names
    (metadata : ResourceMetaData Windows.WindowsWebAppModel)
    (r : result unit) (w : World Windows.WindowsWebAppModel)
    (rg site : string) (siteEnvelope : web.Site) :
  Windows.Create hp metadata initial = (r, w) →
  CallCreateOrUpdate rg site siteEnvelope ∈ calls w →
  let webApp := (Decode metadata).1 in
  Create_name_is_free metadata (calls w)
  ∧ (rg, site) = (Windows.ResourceGroup webApp, Windows.Name webApp)
  ∧ siteEnvelope = site_of_model hp webApp.
Proof.
  intros Hrun Hin webApp. subst webApp.
  destruct (Create_run _ _ _ Hrun)
    as (r1 & w1 & cs & Hprimary & Hcalls & _ & _ & Hcs & _).
  destruct (Create_primary_trace hp _ _ _ Hprimary)
    as (_ & Hjust & _ & _ & _ & Hfree & _).
  rewrite Hcalls in Hin |- *. apply elem_of_app in Hin as [Hin|Hin].
  - split.
    + destruct (Hfree _ _ _ Hin) as (Hmissing & request & checkName & Hreq & Hans).
      split; [exact Hmissing|]. exists request, checkName.
      split; [apply elem_of_app; left; exact Hreq|exact Hans].
    + rewrite Forall_forall in Hjust. specialize (Hjust _ Hin).
      cbn in Hjust. destruct Hjust as (Htarget & Henvelope & _). auto.
  - rewrite Forall_forall in Hcs. destruct (Hcs _ Hin) as [Hsub _].
    discriminate Hsub.
Qed.


(** X3: [Create] logs nothing but warnings, and a warning only when the
    service plan is hosted on an environment whose lookup has failed: its
    ID did not parse, or the environment could not be read. *)
Theorem Create_warns_only_on_failed_lookup
    (metadata : ResourceMetaData Windows.WindowsWebAppModel)
    (r : result unit) (w : World Windows.WindowsWebAppModel)
    (entry : logentry) :
  Windows.Create hp metadata initial = (r, w) →
  entry ∈ logs w →
  log_level entry = LevelWarn
  ∧ ∃ servicePlanId ase aseID,
      resolves_isolated_plan hp metadata (Decode metadata).1 servicePlanId ase
      ∧ web.HostingEnvironmentProfile_ID ase = Some aseID
      ∧ ase_lookup_fails metadata (parse_AppServiceEnvironmentID hp aseID).1
          (parse_AppServiceEnvironmentID hp aseID).2.
Proof.
  intros Hrun Hin.
  destruct (Create_run _ _ _ Hrun)
    as (r1 & w1 & cs & Hprimary & _ & Hlogs & _).
  destruct (Create_primary_trace hp _ _ _ Hprimary)
    as (_ & _ & _ & _ & Hjust & _).
  rewrite Hlogs in Hin. rewrite Forall_forall in Hjust.
  exact (Hjust _ Hin).
Qed.

(** The primary phase of [Create] for a service plan that is not hosted on
    an environment, and for one that is answered without properties. *)
Lemma Create_primary_plain
    (metadata : ResourceMetaData Windows.WindowsWebAppModel)
    (webApp : Windows.WindowsWebAppModel)
    (servicePlanId : parse.ServicePlanId) (servicePlan : web.AppServicePlan)
    (r1 : result (Windows.WindowsWebAppModel * parse.WebAppId))
    (w1 : World Windows.WindowsWebAppModel) :
  Decode metadata = (webApp, None) →
  utils.ResponseWasNotFound
    (web.Site_Response
       (WebApps_Get (AppService_WebAppsClient metadata)
          (Windows.ResourceGroup webApp) (Windows.Name webApp)).1) = true →
  parse_ServicePlanID hp (Windows.ServicePlanId webApp)
    = (Some servicePlanId, None) →
  ServicePlans_Get (AppService_ServicePlanClient metadata)
    (parse.ServicePlanId_ResourceGroup servicePlanId)
    (parse.ServicePlanId_ServerfarmName servicePlanId) = (servicePlan, None) →
  Windows.Create_primary hp metadata initial = (r1, w1) →
  (∀ servicePlanProperties,
     web.AppServicePlan_AppServicePlanProperties servicePlan
       = Some servicePlanProperties →
     web.AppServicePlanProperties_HostingEnvironmentProfile
       servicePlanProperties = None →
     CallCheckNameAvailability (name_request webApp) ∈ calls w1
     ∧ (∀ request, CallCheckNameAvailability request ∈ calls w1 →
                   request = name_request webApp)
     ∧ (∀ rg name, CallAppServiceEnvironmentGet rg name ∉ calls w1)
     ∧ logs w1 = [])
  ∧ (web.AppServicePlan_AppServicePlanProperties servicePlan = None →
     r1 = Panic
     ∧ w1 = MkWorld
              [CallGet (Windows.ResourceGroup webApp) (Windows.Name webApp);
               CallServicePlanGet
                 (parse.ServicePlanId_ResourceGroup servicePlanId)
                 (parse.ServicePlanId_ServerfarmName servicePlanId)]
              [] IdUntouched None).
Proof.
  intros Hdecode Hmissing Hplan HplanGet Hrun.
  unfold Windows.Create_primary, Windows.Create_availabilityRequest,
    Windows.setCurrentStack in Hrun.
  rewrite Hdecode, Hplan in Hrun.
  unfold_monad. norm_in Hrun.
  destruct (WebApps_Get _ _ _) as [existing getErr] eqn:Hget.
  cbn [fst] in Hmissing. norm_in Hrun.
  rewrite Hmissing, HplanGet in Hrun. norm_in Hrun.
  split.
  - intros servicePlanProperties Hproperties Hprofile.
    rewrite Hproperties in Hrun. norm_in Hrun.
    rewrite Hprofile in Hrun. destruct getErr; norm_in Hrun.
    all: repeat step_in Hrun; inversion Hrun; subst; clear Hrun.
    all: cbn [calls logs fst snd]; unfold name_request.
    all: (split; [solve_elem_of|split; [|split; [|reflexivity]]]).
    all: first [intros ? ? Hin | intros ? Hin];
      repeat (apply elem_of_cons in Hin as [Hin|Hin];
              [by (discriminate Hin + (injection Hin as ->))|]);
      by apply elem_of_nil in Hin.
  - intros Hproperties. rewrite Hproperties in Hrun.
    destruct getErr; norm_in Hrun; inversion Hrun; split; reflexivity.
Qed.

(** X4: when the service plan is not hosted on an App Service Environment,
    [Create] checks the availability of the plain name of the site, without
    the fully-qualified-name flag; it checks no other name, reads no
    environment and logs nothing.  A plan that is answered without
    properties makes [Create] panic where it reads the hosting environment
    off the plan: nothing is checked or created, and only the existence
    check and the read of the plan have been issued. *)
Theorem Create_plain_name_check
    (metadata : ResourceMetaData Windows.WindowsWebAppModel)
    (webApp : Windows.WindowsWebAppModel)
    (servicePlanId : parse.ServicePlanId) (servicePlan : web.AppServicePlan)
    (r : result unit) (w : World Windows.WindowsWebAppModel) :
  Decode metadata = (webApp, None) →
  utils.ResponseWasNotFound
    (web.Site_Response
       (WebApps_Get (AppService_WebAppsClient metadata)
          (Windows.ResourceGroup webApp) (Windows.Name webApp)).1) = true →
  parse_ServicePlanID hp (Windows.ServicePlanId webApp)
    = (Some servicePlanId, None) →
  ServicePlans_Get (AppService_ServicePlanClient metadata)
    (parse.ServicePlanId_ResourceGroup servicePlanId)
    (parse.ServicePlanId_ServerfarmName servicePlanId) = (servicePlan, None) →
  Windows.Create hp metadata initial = (r, w) →
  (∀ servicePlanProperties,
     web.AppServicePlan_AppServicePlanProperties servicePlan
       = Some servicePlanProperties →
     web.AppServicePlanProperties_HostingEnvironmentProfile
       servicePlanProperties = None →
     CallCheckNameAvailability
       {| web.Request_Name := Some (Windows.Name webApp);
          web.Request_Type := web.CheckNameResourceTypesMicrosoftWebsites;
          web.Request_IsFqdn := None |} ∈ calls w
     ∧ (∀ request, CallCheckNameAvailability request ∈ calls w →
                   request = name_request webApp)
     ∧ (∀ rg name, CallAppServiceEnvironmentGet rg name ∉ calls w)
     ∧ logs w = [])
  ∧ (web.AppServicePlan_AppServicePlanProperties servicePlan = None →
     r = Panic
     ∧ w = MkWorld
             [CallGet (Windows.ResourceGroup webApp) (Windows.Name webApp);
              CallServicePlanGet
                (parse.ServicePlanId_ResourceGroup servicePlanId)
                (parse.ServicePlanId_ServerfarmName servicePlanId)]
             [] IdUntouched None).
Proof.
  intros Hdecode Hmissing Hplan HplanGet Hrun.
  destruct (Create_run _ _ _ Hrun)
    as (r1 & w1 & cs & Hprimary & Hcalls & Hlogs & _ & Hcs & _).
  destruct (Create_primary_plain _ _ _ _ _ _ Hdecode Hmissing Hplan HplanGet
              Hprimary) as [Hplain Hbare].
  split.
  - intros servicePlanProperties Hproperties Hprofile.
    destruct (Hplain _ Hproperties Hprofile)
      as (Hcheck & Honly & Hnone & Hquiet).
    rewrite Hcalls, Hlogs. rewrite Forall_forall in Hcs.
    split; [apply elem_of_app; left; exact Hcheck|].
    split; [|split; [|exact Hquiet]].
    + intros request Hin.
      apply elem_of_app in Hin as [Hin|Hin]; [by apply Honly|].
      destruct (Hcs _ Hin) as [Hsub _]. discriminate Hsub.
    + intros rg name Hin. apply elem_of_app in Hin as [Hin|Hin].
      * exact (Hnone _ _ Hin).
      * destruct (Hcs _ Hin) as [Hsub _]. discriminate Hsub.
  - intros Hproperties. destruct (Hbare Hproperties) as [-> ->].
    apply Create_phases in Hrun
      as [(webApp' & id & w1' & Hprimary' & _)
         |[(e & Hprimary' & _)|[Hprimary' ->]]];
      rewrite Hprimary in Hprimary'; try discriminate Hprimary'.
    injection Hprimary' as <-. split; reflexivity.
Qed.

(** X5: the lookup of the suffix of an isolated environment is never fatal
    to [Create]: it returns no error, whatever the parser and the remote
    system answer, and the suffix it returns is never empty; it panics
    exactly when the environment has an ID for which the parser returns no
    ID, with or without an error. *)
Theorem Create_nameSuffix_never_fails
    (metadata : ResourceMetaData Windows.WindowsWebAppModel)
    (webApp : Windows.WindowsWebAppModel)
    (servicePlanId : option parse.ServicePlanId)
    (ase : web.HostingEnvironmentProfile)
    (w0 w : World Windows.WindowsWebAppModel) (r : result string) :
  Windows.Create_nameSuffix hp metadata webApp servicePlanId ase w0 = (r, w) →
  (∀ e, r ≠ Err e)
  ∧ (∀ suffix, r = Ok suffix → suffix ≠ "")
  ∧ (r = Panic ↔
     ∃ aseID, web.HostingEnvironmentProfile_ID ase = Some aseID
              ∧ (parse_AppServiceEnvironmentID hp aseID).1 = None).
Proof.
  unfold Windows.Create_nameSuffix. unfold_monad. intros Hrun. norm_in Hrun.
  repeat step_in Hrun; inversion Hrun; subst; clear Hrun.
  all: (split; [discriminate|split; [|split]]).
  all: try (intros suffix' Hok; simplify_eq;
            first [ discriminate
                  | by eapply bool_decide_eq_true_1
                  | by destruct (parse.AppServiceEnvironmentId_HostingEnvironmentName _) ]).
  all: try discriminate.
  all: try (intros (aseID & Hid & Hnil); same_answers; simplify_eq;
            match goal with
            | E : parse_AppServiceEnvironmentID _ _ = _ |- _ =>
                rewrite E in Hnil
            end; discriminate Hnil).
  all: first [ reflexivity
             | intros _; eexists; split; [reflexivity|];
               match goal with
               | E : parse_AppServiceEnvironmentID _ _ = _ |- _ => by rewrite E
               end ].
Qed.

End CreateProperties.

Section UpdatePhases.
Context `{Payloads} (hp : Helpers).

(** Every run of the primary phase of [Update]: it issues the update of the
    site, waits for it and records the current stack, each entitled by the
    answers before it; it logs nothing and leaves the ID and the state as
    they are; a run that goes on has updated the site. *)
Lemma Update_primary_trace
    (metadata : ResourceMetaData Windows.WindowsWebAppModel)
    (r1 : result (option parse.WebAppId * parse.WebAppId
                  * Windows.WindowsWebAppModel))
    (w1 : World Windows.WindowsWebAppModel) :
  Windows.Update_primary hp metadata initial = (r1, w1) →
  Forall (Update_primary_call_justified hp metadata) (calls w1)
  ∧ logs w1 = [] ∧ resourceId w1 = IdUntouched ∧ encoded w1 = None
  ∧ (∀ idPtr id state, r1 = Ok (idPtr, id, state) →
       idPtr = Some id
       ∧ parse_WebAppID hp (ResourceData_Id metadata) = (Some id, None)
       ∧ Decode metadata = (state, None)
       ∧ ∃ future rest,
           WebApps_CreateOrUpdate (AppService_WebAppsClient metadata)
             (parse.WebAppId_ResourceGroup id) (parse.WebAppId_SiteName id)
             (site_of_model hp state) = (future, None)
           ∧ CreateOrUpdateFuture_WaitForCompletionRef future = None
           ∧ calls w1
             = CallCreateOrUpdate (parse.WebAppId_ResourceGroup id)
                 (parse.WebAppId_SiteName id) (site_of_model hp state)
               :: CallWaitForCompletionRef OpCreateOrUpdate :: rest).
Proof.
  unfold Windows.Update_primary, Windows.setCurrentStack.
  unfold_monad. intros Hrun. norm_in Hrun.
  repeat step_in Hrun.
  all: inversion Hrun; subst; clear Hrun.
  all: norm.
  all: (split; [|split; [reflexivity|split; [reflexivity|split;
          [reflexivity|]]]]).
  all: try (by repeat constructor).
  all: try (intros idPtr id state Hok; first [discriminate Hok | simplify_eq]).
  all: unfold Update_primary_call_justified, site_of_model,
         currentStack_metadata;
    try match goal with E : Decode _ = _ |- _ => rewrite E end;
    cbn [fst snd].
  all: use_answers.
  all: repeat constructor; justify.
Qed.

(** Every run of the sub-resource phase of [Update]: it only adds
    sub-resource calls, each for the site of the ID and for a group whose
    field has changed; it logs nothing and leaves the ID and the state as
    they are; when it succeeds, every changed group has been written. *)
Lemma Update_subresources_trace
    (metadata : ResourceMetaData Windows.WindowsWebAppModel)
    (idPtr : option parse.WebAppId) (id : parse.WebAppId)
    (state : Windows.WindowsWebAppModel) (r : result unit)
    (w0 w : World Windows.WindowsWebAppModel) :
  Windows.Update_subresources hp metadata idPtr id state w0 = (r, w) →
  ∃ cs,
    w = with_calls w0 cs
    ∧ Forall (λ c, call_target c
                   = Some (parse.WebAppId_ResourceGroup id,
                           parse.WebAppId_SiteName id)
                   ∧ ∃ g, group_of c = Some g
                          ∧ ResourceData_HasChange metadata (field_of_group g)
                            = true) cs
    ∧ (r = Ok tt →
       ∀ g, ResourceData_HasChange metadata (field_of_group g) = true →
            ∃ c, c ∈ cs ∧ group_of c = Some g).
Proof.
  destruct w0 as [calls0 logs0 id0 encoded0].
  unfold Windows.Update_subresources. unfold_monad. intros Hrun.
  norm_in Hrun.
  repeat step_in Hrun; inversion Hrun; subst; clear Hrun.
  all: unfold with_calls; cbn [calls logs resourceId encoded].
  all: first [ exists []; rewrite app_nil_r; split; [reflexivity|]
             | eexists; rewrite <- ?app_assoc; split; [reflexivity|] ].
  all: cbn [app]; (split; [|first [discriminate|intros _ [] Hchanged]]).
  all: cbn [field_of_group] in *.
  all: try congruence.
  all: try (by (match goal with
                | |- ∃ c, c ∈ ?cs ∧ _ =>
                    match cs with
                    | context [?c :: _] =>
                        exists c; split; [solve_elem_of|reflexivity]
                    end
                end)).
  all: repeat constructor.
  all: eexists; (split; [reflexivity|]); cbn [field_of_group]; assumption.
Qed.

End UpdatePhases.

Section UpdateProperties.
Context `{Payloads} (hp : Helpers).

(** A call of the primary phase of [Update] is no sub-resource call. *)
Lemma Update_primary_no_subresource_call
    (metadata : ResourceMetaData Windows.WindowsWebAppModel) (c : Call) :
  Update_primary_call_justified hp metadata c → group_of c = None.
Proof.
  intros (id & _ & _ & _ & Hc). destruct c; first [reflexivity | contradiction].
Qed.

(** Every run of [Update]: what its primary phase has issued, followed by
    the calls of its sub-resource phase. *)
Lemma Update_run
    (metadata : ResourceMetaData Windows.WindowsWebAppModel)
    (r : result unit) (w : World Windows.WindowsWebAppModel) :
  Windows.Update hp metadata initial = (r, w) →
  ∃ r1 w1 cs,
    Windows.Update_primary hp metadata initial = (r1, w1)
    ∧ w = with_calls w1 cs
    ∧ match r1 with
      | Ok (idPtr, id, state) =>
          Forall (λ c, call_target c
                       = Some (parse.WebAppId_ResourceGroup id,
                               parse.WebAppId_SiteName id)
                       ∧ ∃ g, group_of c = Some g
                              ∧ ResourceData_HasChange metadata
                                  (field_of_group g) = true) cs
          ∧ (r = Ok tt →
             ∀ g, ResourceData_HasChange metadata (field_of_group g) = true →
                  ∃ c, c ∈ cs ∧ group_of c = Some g)
      | _ => cs = [] ∧ r ≠ Ok tt
      end.
Proof.
  unfold Windows.Update. intros Hrun.
  apply bind_inv in Hrun
    as [([[idPtr id] state] & w1 & Hprimary & Hrest)
       |[(e & Hprimary & ->)|[Hprimary ->]]].
  - apply Update_subresources_trace in Hrest as (cs & -> & Hcs & Hall).
    exists (Ok (idPtr, id, state)), w1, cs. auto.
  - exists (Err e), w, []. split; [exact Hprimary|].
    destruct w as [calls1 logs1 id1 encoded1]. unfold with_calls. cbn [calls logs resourceId encoded].
    rewrite app_nil_r. split; [reflexivity|]. split; [reflexivity|discriminate].
  - exists Panic, w, []. split; [exact Hprimary|].
    destruct w as [calls1 logs1 id1 encoded1]. unfold with_calls. cbn [calls logs resourceId encoded].
    rewrite app_nil_r. split; [reflexivity|]. split; [reflexivity|discriminate].
Qed.

(** X6: a run of [Update] that succeeds has written exactly the
    sub-resource groups whose field has changed: a group is written if and
    only if the host reports a change of its field. *)
Theorem Update_writes_changed_groups
    (metadata : ResourceMetaData Windows.WindowsWebAppModel)
    (w : World Windows.WindowsWebAppModel) (g : group) :
  Windows.Update hp metadata initial = (Ok tt, w) →
  (∃ c, c ∈ calls w ∧ group_of c = Some g)
  ↔ ResourceData_HasChange metadata (field_of_group g) = true.
Proof.
  intros Hrun.
  destruct (Update_run _ _ _ Hrun) as (r1 & w1 & cs & Hprimary & -> & Hcs).
  destruct (Update_primary_trace hp _ _ _ Hprimary) as (Hjust & _).
  destruct r1 as [[[idPtr id] state]| |];
    [|by destruct Hcs as [_ Hfail]..].
  destruct Hcs as [Hcs Hall]. cbn [calls with_calls]. split.
  - intros (c & Hin & Hgroup). apply elem_of_app in Hin as [Hin|Hin].
    + rewrite Forall_forall in Hjust.
      rewrite (Update_primary_no_subresource_call _ _ (Hjust _ Hin)) in Hgroup.
      discriminate Hgroup.
    + rewrite Forall_forall in Hcs.
      destruct (Hcs _ Hin) as (_ & g' & Hgroup' & Hchanged). congruence.
  - intros Hchanged. destruct (Hall eq_refl g Hchanged) as (c & Hin & Hgroup).
    exists c. split; [apply elem_of_app; right; exact Hin|exact Hgroup].
Qed.

(** X7: [Update] only writes: every call of a run changes the remote system
    or waits for the update of the site, so nothing is read back and the
    existence of the site is not checked; every call that names a site
    names the one of the parsed ID; nothing is logged, the ID is not
    touched and no state is encoded. *)
Theorem Update_only_writes
    (metadata : ResourceMetaData Windows.WindowsWebAppModel)
    (r : result unit) (w : World Windows.WindowsWebAppModel) :
  Windows.Update hp metadata initial = (r, w) →
  logs w = [] ∧ resourceId w = IdUntouched ∧ encoded w = None
  ∧ ∀ c, c ∈ calls w →
      (is_write c = true ∨ c = CallWaitForCompletionRef OpCreateOrUpdate)
      ∧ ∀ target, call_target c = Some target →
          ∃ id, parse_WebAppID hp (ResourceData_Id metadata) = (Some id, None)
                ∧ target = (parse.WebAppId_ResourceGroup id,
                            parse.WebAppId_SiteName id).
Proof.
  intros Hrun.
  destruct (Update_run _ _ _ Hrun) as (r1 & w1 & cs & Hprimary & -> & Hcs).
  destruct (Update_primary_trace hp _ _ _ Hprimary)
    as (Hjust & Hlogs & Hid & Henc & Hok).
  cbn [calls logs resourceId encoded with_calls].
  split; [exact Hlogs|]. split; [exact Hid|]. split; [exact Henc|].
  intros c Hin. apply elem_of_app in Hin as [Hin|Hin].
  - rewrite Forall_forall in Hjust.
    destruct (Hjust _ Hin) as (id & Hparse & _ & _ & Hc).
    destruct c; try contradiction; cbn [is_write call_target].
    + destruct Hc as [Htarget _]. split; [by left|].
      intros target [= <-]. exists id. split; [exact Hparse|]. exact Htarget.
    + destruct Hc as [-> _]. split; [by right|]. discriminate.
    + destruct Hc as [Htarget _]. split; [by left|].
      intros target [= <-]. exists id. split; [exact Hparse|]. exact Htarget.
  - destruct r1 as [[[idPtr id] state]| |];
      [|destruct Hcs as [-> _]; by apply elem_of_nil in Hin..].
    destruct Hcs as [Hcs _]. rewrite Forall_forall in Hcs.
    destruct (Hcs _ Hin) as (Htarget & g & Hgroup & _).
    destruct (Hok _ _ _ eq_refl) as (_ & Hparse & _).
    split.
    + left. destruct c; first [reflexivity | discriminate Hgroup].
    + intros target Ht. exists id. split; [exact Hparse|]. congruence.
Qed.

(** The primary phase of [Update] reaches the update of the site when the
    ID parses, the model decodes and the site configuration expands. *)
Lemma Update_primary_reaches_update
    (metadata : ResourceMetaData Windows.WindowsWebAppModel)
    (id : parse.WebAppId) (state : Windows.WindowsWebAppModel)
    (r1 : result (option parse.WebAppId * parse.WebAppId
                  * Windows.WindowsWebAppModel))
    (w1 : World Windows.WindowsWebAppModel) :
  parse_WebAppID hp (ResourceData_Id metadata) = (Some id, None) →
  Decode metadata = (state, None) →
  (ExpandSiteConfigWindows hp (Windows.SiteConfig state)).2 = None →
  Windows.Update_primary hp metadata initial = (r1, w1) →
  ∃ rest,
    calls w1
    = CallCreateOrUpdate (parse.WebAppId_ResourceGroup id)
        (parse.WebAppId_SiteName id) (site_of_model hp state) :: rest.
Proof.
  intros Hparse Hdecode Hexpand Hrun.
  unfold Windows.Update_primary, Windows.setCurrentStack in Hrun.
  rewrite Hparse, Hdecode in Hrun.
  unfold site_of_model.
  destruct (ExpandSiteConfigWindows _ _) as [[siteConfig currentStack] err].
  cbn [fst snd] in Hexpand |- *. subst err.
  unfold_monad. norm_in Hrun.
  repeat step_in Hrun; inversion Hrun; subst; clear Hrun.
  all: cbn [calls]; eexists; reflexivity.
Qed.

(** X8: [Update] sends the site first, whatever has changed: when the ID
    parses, the model decodes and the site configuration expands, the first
    call of every run is the update of the site, carrying the site the
    model describes; and a sub-resource call is issued only after that
    update has been accepted and has completed without error. *)
Theorem Update_site_first
    (metadata : ResourceMetaData Windows.WindowsWebAppModel)
    (id : parse.WebAppId) (state : Windows.WindowsWebAppModel)
    (r : result unit) (w : World Windows.WindowsWebAppModel) :
  parse_WebAppID hp (ResourceData_Id metadata) = (Some id, None) →
  Decode metadata = (state, None) →
  (ExpandSiteConfigWindows hp (Windows.SiteConfig state)).2 = None →
  Windows.Update hp metadata initial = (r, w) →
  let rg := parse.WebAppId_ResourceGroup id in
  let site := parse.WebAppId_SiteName id in
  let answer :=
    WebApps_CreateOrUpdate (AppService_WebAppsClient metadata) rg site
      (site_of_model hp state) in
  (∃ rest, calls w = CallCreateOrUpdate rg site (site_of_model hp state) :: rest)
  ∧ (∀ c, c ∈ calls w → is_subresource_call c = true →
          answer.2 = None
          ∧ CreateOrUpdateFuture_WaitForCompletionRef answer.1 = None
          ∧ CallWaitForCompletionRef OpCreateOrUpdate ∈ calls w).
Proof.
  intros Hparse Hdecode Hexpand Hrun rg site answer. subst rg site answer.
  destruct (Update_run _ _ _ Hrun) as (r1 & w1 & cs & Hprimary & -> & Hcs).
  destruct (Update_primary_reaches_update _ _ _ _ _ Hparse Hdecode Hexpand
              Hprimary) as [rest Hcalls].
  destruct (Update_primary_trace hp _ _ _ Hprimary) as (Hjust & _ & _ & _ & Hok).
  cbn [calls with_calls]. split.
  - exists (rest ++ cs). rewrite Hcalls. reflexivity.
  - intros c Hin Hsub. apply elem_of_app in Hin as [Hin|Hin].
    + rewrite Forall_forall in Hjust. unfold is_subresource_call in Hsub.
      rewrite (Update_primary_no_subresource_call _ _ (Hjust _ Hin)) in Hsub.
      discriminate Hsub.
    + destruct r1 as [[[idPtr id'] state']| |];
        [|destruct Hcs as [-> _]; by apply elem_of_nil in Hin..].
      destruct (Hok _ _ _ eq_refl)
        as (_ & Hparse' & Hdecode' & future & rest' & Hans & Hwait & Hcalls').
      rewrite Hparse in Hparse'. rewrite Hdecode in Hdecode'. simplify_eq.
      rewrite Hans. cbn [fst snd]. split; [reflexivity|]. split; [exact Hwait|].
      apply elem_of_app. left. rewrite Hcalls'. solve_elem_of.
Qed.

End UpdateProperties.

Section CrossProperties.
Context `{Payloads} (hp : Helpers).

(** What a run of [Create] sends as the site, and as the site metadata. *)
Lemma Create_sent
    (metadata : ResourceMetaData Windows.WindowsWebAppModel)
    (r : result unit) (w : World Windows.WindowsWebAppModel) (c : Call) :
  Windows.Create hp metadata initial = (r, w) →
  c ∈ calls w →
  match c with
  | CallCreateOrUpdate _ _ siteEnvelope =>
      siteEnvelope = site_of_model hp (Decode metadata).1
  | CallUpdateMetadata _ _ siteMetadata =>
      ∃ stack,
        (ExpandSiteConfigWindows hp
           (Windows.SiteConfig (Decode metadata).1)).1.2 = Some stack
        ∧ stack ≠ "" ∧ siteMetadata = currentStack_metadata stack
  | _ => True
  end.
Proof.
  intros Hrun Hin.
  destruct (Create_run hp _ _ _ Hrun)
    as (r1 & w1 & cs & Hprimary & Hcalls & _ & _ & Hcs & _).
  destruct (Create_primary_trace hp _ _ _ Hprimary) as (_ & Hjust & _).
  rewrite Hcalls in Hin. apply elem_of_app in Hin as [Hin|Hin].
  - rewrite Forall_forall in Hjust. specialize (Hjust _ Hin).
    destruct c; try exact I; cbn in Hjust.
    + tauto.
    + destruct Hjust as (_ & _ & _ & Hstack). exact Hstack.
  - rewrite Forall_forall in Hcs. destruct (Hcs _ Hin) as [Hsub _].
    destruct c; try exact I; discriminate Hsub.
Qed.

(** The same for a run of [Update]. *)
Lemma Update_sent
    (metadata : ResourceMetaData Windows.WindowsWebAppModel)
    (r : result unit) (w : World Windows.WindowsWebAppModel) (c : Call) :
  Windows.Update hp metadata initial = (r, w) →
  c ∈ calls w →
  match c with
  | CallCreateOrUpdate _ _ siteEnvelope =>
      siteEnvelope = site_of_model hp (Decode metadata).1
  | CallUpdateMetadata _ _ siteMetadata =>
      ∃ stack,
        (ExpandSiteConfigWindows hp
           (Windows.SiteConfig (Decode metadata).1)).1.2 = Some stack
        ∧ stack ≠ "" ∧ siteMetadata = currentStack_metadata stack
  | _ => True
  end.
Proof.
  intros Hrun Hin.
  destruct (Update_run hp _ _ _ Hrun) as (r1 & w1 & cs & Hprimary & -> & Hcs).
  destruct (Update_primary_trace hp _ _ _ Hprimary) as (Hjust & _).
  cbn [calls with_calls] in Hin. apply elem_of_app in Hin as [Hin|Hin].
  - rewrite Forall_forall in Hjust.
    destruct (Hjust _ Hin) as (id & _ & _ & _ & Hc).
    destruct c; try exact I; cbn in Hc.
    + tauto.
    + destruct Hc as (_ & _ & _ & Hstack). exact Hstack.
  - destruct r1 as [[[idPtr id] state]| |];
      [|destruct Hcs as [-> _]; by apply elem_of_nil in Hin..].
    destruct Hcs as [Hcs _]. rewrite Forall_forall in Hcs.
    destruct (Hcs _ Hin) as (_ & g & Hgroup & _).
    destruct c; try exact I; discriminate Hgroup.
Qed.

(** X9: [Update] sends the same site as [Create] does for the same model:
    the location, the tags, the identity, the service plan, the five
    settings and the expanded site configuration, and none of the
    properties the remote system computes. *)
Theorem Update_sends_site_of_Create
    (created updated : ResourceMetaData Windows.WindowsWebAppModel)
    (r r' : result unit) (w w' : World Windows.WindowsWebAppModel)
    (rg site rg' site' : string) (siteEnvelope siteEnvelope' : web.Site) :
  (Decode created).1 = (Decode updated).1 →
  Windows.Create hp created initial = (r, w) →
  Windows.Update hp updated initial = (r', w') →
  CallCreateOrUpdate rg site siteEnvelope ∈ calls w →
  CallCreateOrUpdate rg' site' siteEnvelope' ∈ calls w' →
  siteEnvelope = siteEnvelope'
  ∧ web.Site_Location siteEnvelope
    = Some (Windows.Location (Decode created).1)
  ∧ (∃ props,
       web.Site_SiteProperties siteEnvelope = Some props
       ∧ web.ServerFarmID props = Some (Windows.ServicePlanId (Decode created).1)
       ∧ web.CustomDomainVerificationID props = None
       ∧ web.DefaultHostName props = None
       ∧ web.OutboundIPAddresses props = None
       ∧ web.PossibleOutboundIPAddresses props = None)
  ∧ web.Site_Kind siteEnvelope = None.
Proof.
  intros Hmodel Hcreate Hupdate Hin Hin'.
  pose proof (Create_sent _ _ _ _ Hcreate Hin) as Hsent.
  pose proof (Update_sent _ _ _ _ Hupdate Hin') as Hsent'.
  cbn beta iota in Hsent, Hsent'. subst siteEnvelope siteEnvelope'.
  rewrite Hmodel. split; [reflexivity|]. split; [reflexivity|].
  split; [|reflexivity]. eexists. split; [reflexivity|]. cbn. auto.
Qed.

(** X10: what [Create] sends, [Read] reads back: for the site that a run
    of [Create] has sent and the ID it has recorded, if the site the remote
    system returns carries the configured settings as they were sent, the
    state that [Read] builds has the name, the resource group, the service
    plan, the four flags and the client-certificate mode of the model. *)
Theorem Create_Read_round_trip
    (metadata : ResourceMetaData Windows.WindowsWebAppModel)
    (r : result unit) (w : World Windows.WindowsWebAppModel)
    (rg site : string) (sent : web.Site) (sentProps : web.SiteProperties)
    (id : parse.WebAppId) (stored : web.Site) (storedProps : web.SiteProperties)
    (webAppSiteConfig : web.SiteConfigResource) (auth : web.SiteAuthSettings)
    (backup : web.BackupRequest) (logsConfig : web.SiteLogsConfig)
    (appSettings : web.StringDictionary)
    (storageAccounts : web.AzureStoragePropertyDictionaryResource)
    (connectionStrings : web.ConnectionStringDictionary)
    (siteCredentials : web.User) (currentStack : string) :
  Windows.Create hp metadata initial = (r, w) →
  CallCreateOrUpdate rg site sent ∈ calls w →
  resourceId w = IdSet id →
  web.Site_SiteProperties sent = Some sentProps →
  configured storedProps = configured sentProps →
  let webApp := (Decode metadata).1 in
  let state :=
    Windows.Read_state hp id stored storedProps webAppSiteConfig auth backup
      logsConfig appSettings storageAccounts connectionStrings siteCredentials
      currentStack in
  Windows.Name state = Windows.Name webApp
  ∧ Windows.ResourceGroup state = Windows.ResourceGroup webApp
  ∧ Windows.ServicePlanId state = Windows.ServicePlanId webApp
  ∧ Windows.Enabled state = Windows.Enabled webApp
  ∧ Windows.HttpsOnly state = Windows.HttpsOnly webApp
  ∧ Windows.ClientAffinityEnabled state = Windows.ClientAffinityEnabled webApp
  ∧ Windows.ClientCertEnabled state = Windows.ClientCertEnabled webApp
  ∧ Windows.ClientCertMode state = Windows.ClientCertMode webApp.
Proof.
  intros Hrun Hin Hid Hprops Hstored webApp state. subst webApp state.
  pose proof (Create_sent _ _ _ _ Hrun Hin) as Hsent. cbn beta iota in Hsent.
  subst sent. cbn in Hprops. injection Hprops as <-.
  destruct (Create_run hp _ _ _ Hrun)
    as (r1 & w1 & cs & _ & _ & _ & _ & _ & Hrecorded & _).
  destruct (is_Ok r1); [|destruct Hrecorded; congruence].
  rewrite Hid in Hrecorded. injection Hrecorded as ->.
  unfold configured in Hstored. cbn in Hstored.
  injection Hstored as Hplan Henabled Hhttps Haffinity Hcert Hmode.
  unfold Windows.Read_state. cbn.
  rewrite Hplan, Henabled, Hhttps, Haffinity, Hcert, Hmode.
  repeat split.
  case_bool_decide as Hempty; [reflexivity|]. congruence.
Qed.

(** X11: the current stack survives the round trip through the site
    metadata: when a run of [Create] or [Update] has sent site metadata,
    and [Read] is answered with the properties that were sent, the state
    that [Read] encodes has the site configuration flattened with the
    current stack that the expansion of the model had returned. *)
Theorem current_stack_round_trip
    (metadata resource : ResourceMetaData Windows.WindowsWebAppModel)
    (r : result unit) (w : World Windows.WindowsWebAppModel)
    (rg site : string) (sent : web.StringDictionary)
    (id : parse.WebAppId) (webApp : web.Site) (props : web.SiteProperties)
    (siteMetadata : web.StringDictionary) :
  let client := AppService_WebAppsClient resource in
  let rg' := parse.WebAppId_ResourceGroup id in
  let site' := parse.WebAppId_SiteName id in
  Windows.Create hp metadata initial = (r, w)
  ∨ Windows.Update hp metadata initial = (r, w) →
  CallUpdateMetadata rg site sent ∈ calls w →
  parse_WebAppID hp (ResourceData_Id resource) = (Some id, None) →
  WebApps_Get client rg' site' = (webApp, None) →
  web.Site_SiteProperties webApp = Some props →
  reads_succeed client rg' site' →
  WebApps_ListMetadata client rg' site' = (siteMetadata, None) →
  web.StringDictionary_Properties siteMetadata
    = web.StringDictionary_Properties sent →
  ∃ stack state,
    (ExpandSiteConfigWindows hp
       (Windows.SiteConfig (Decode metadata).1)).1.2 = Some stack
    ∧ stack ≠ ""
    ∧ encoded (Windows.Read hp resource initial).2 = Some state
    ∧ Windows.SiteConfig state
      = FlattenSiteConfigWindows hp
          (web.SiteConfigResource_SiteConfig
             (WebApps_GetConfiguration client rg' site').1)
          stack.
Proof.
  intros client rg' site' Hrun Hin Hparse Hget Hprops Hreads Hlist Hsame.
  assert (∃ stack,
            (ExpandSiteConfigWindows hp
               (Windows.SiteConfig (Decode metadata).1)).1.2 = Some stack
            ∧ stack ≠ "" ∧ sent = currentStack_metadata stack)
    as (stack & Hstack & Hnonempty & ->).
  { destruct Hrun as [Hrun|Hrun].
    - exact (Create_sent _ _ _ _ Hrun Hin).
    - exact (Update_sent _ _ _ _ Hrun Hin). }
  exists stack. eexists. split; [exact Hstack|]. split; [exact Hnonempty|].
  rewrite (Windows_Read_get hp resource id webApp None Hparse Hget).
  rewrite (Windows_Read_found_ok hp resource id webApp props siteMetadata stack
             _ Hprops Hreads Hlist).
  - cbn [snd encoded]. split; [reflexivity|].
    unfold Windows.Read_state. cbn [Windows.SiteConfig].
    by destruct (FlattenSiteConfigWindows _ _ _).
  - rewrite Hsame. cbn. rewrite lookup_insert_eq. reflexivity.
Qed.

End CrossProperties.

Section ReadProperties.
Context `{Payloads} (hp : Helpers).

(** X12: [Read] only reads: the calls of a run are the reads of the site
    of the parsed ID in source order, up to the point where the run stops;
    [Read] itself logs nothing, so the log of a run that keeps the ID is
    empty (what the host logs when it marks the resource as gone is left
    open); the ID is removed only in a run that succeeds after the first
    read alone, and is otherwise left alone; a state is encoded only after
    all twelve reads; and a run that succeeds has removed the ID or encoded
    a state. *)
Theorem Read_only_reads
    (metadata : ResourceMetaData Windows.WindowsWebAppModel)
    (id : parse.WebAppId) (r : result unit)
    (w : World Windows.WindowsWebAppModel) :
  parse_WebAppID hp (ResourceData_Id metadata) = (Some id, None) →
  Windows.Read hp metadata initial = (r, w) →
  let reads :=
    Read_calls (parse.WebAppId_ResourceGroup id) (parse.WebAppId_SiteName id) in
  calls w `prefix_of` reads
  ∧ (resourceId w = IdUntouched → logs w = [])
  ∧ (resourceId w = IdUntouched
     ∨ resourceId w = IdRemoved ∧ r = Ok tt ∧ calls w = take 1 reads)
  ∧ (is_Some (encoded w) → calls w = reads ∧ resourceId w = IdUntouched)
  ∧ (r = Ok tt → resourceId w = IdRemoved ∨ is_Some (encoded w)).
Proof.
  intros Hparse Hrun reads. subst reads.
  unfold Windows.Read, Windows.Read_found in Hrun. rewrite Hparse in Hrun.
  unfold_monad. norm_in Hrun.
  repeat step_in Hrun; inversion Hrun; subst; clear Hrun.
  all: norm; unfold Read_calls.
  all: (split; [by eexists|split; [by intros _|split; [|split]]]).
  all: try (by left).
  all: try (by (right; repeat split)).
  all: try (by intros [? [=]]).
  all: try (by (intros _; split)).
  all: try discriminate.
  all: try (by (intros _; right; eexists)).
  all: try (by (intros _; left)).
Qed.

(** X13: [Read] stops at the first read that fails: when the site is found
    with its properties and the [n]-th of the eleven reads that follow is
    the first to report an error, the backup read not counting when it
    reports NotFound, [Read] fails with that error wrapped; exactly the
    reads up to that one have been issued, and nothing else has
    happened. *)
Theorem Read_stops_at_first_failure
    (metadata : ResourceMetaData Windows.WindowsWebAppModel)
    (id : parse.WebAppId) (webApp : web.Site) (props : web.SiteProperties)
    (n : nat) (cause : error) :
  let client := AppService_WebAppsClient metadata in
  let rg := parse.WebAppId_ResourceGroup id in
  let site := parse.WebAppId_SiteName id in
  parse_WebAppID hp (ResourceData_Id metadata) = (Some id, None) →
  WebApps_Get client rg site = (webApp, None) →
  web.Site_SiteProperties webApp = Some props →
  first_error (auxiliary_read_errors client rg site) = Some (n, cause) →
  ∃ e,
    Windows.Read hp metadata initial
    = (Err e, MkWorld (take (n + 2) (Read_calls rg site)) [] IdUntouched None)
    ∧ wraps e cause.
Proof.
  intros client rg site Hparse Hget Hprops Hfirst. subst client rg site.
  rewrite (Windows_Read_get hp metadata id webApp None Hparse Hget).
  destruct (Windows.Read_found _ _ _ _ _ _) as [r w] eqn:Hrun.
  unfold Windows.Read_found in Hrun. rewrite Hprops in Hrun.
  unfold auxiliary_read_errors in Hfirst.
  unfold_monad. norm_in Hrun.
  repeat step_in Hrun; inversion Hrun; subst; clear Hrun.
  all: use_answers_in Hfirst; cbn [first_error] in Hfirst.
  all: try match type of Hfirst with
           | context [if ?found then _ else _] => destruct found
           end.
  all: try discriminate Hfirst.
  all: injection Hfirst as <- <-.
  all: eexists; split; [reflexivity|]; by eexists _, [_].
Qed.

(** X14: a site that is found without properties makes [Read] fail right
    after the first read, with an error that wraps no cause; no state is
    encoded and the ID is left alone. *)
Theorem Read_nil_properties
    (metadata : ResourceMetaData Windows.WindowsWebAppModel)
    (id : parse.WebAppId) (webApp : web.Site) :
  let rg := parse.WebAppId_ResourceGroup id in
  let site := parse.WebAppId_SiteName id in
  parse_WebAppID hp (ResourceData_Id metadata) = (Some id, None) →
  WebApps_Get (AppService_WebAppsClient metadata) rg site = (webApp, None) →
  web.Site_SiteProperties webApp = None →
  Windows.Read hp metadata initial
  = (Err (Errorf "reading properties of Windows %s" [ArgWebAppIdPtr (Some id)]),
     MkWorld [CallGet rg site] [] IdUntouched None)
  ∧ ∀ cause,
      ¬ wraps (Errorf "reading properties of Windows %s"
                 [ArgWebAppIdPtr (Some id)]) cause.
Proof.
  intros rg site Hparse Hget Hprops. split.
  - rewrite (Windows_Read_get hp metadata id webApp None Hparse Hget).
    unfold Windows.Read_found. rewrite Hprops. reflexivity.
  - intros cause (format & args & Hwraps). injection Hwraps as _ Hargs.
    destruct args as [|arg [|arg' args]]; discriminate Hargs.
Qed.

(** X15: an ID that does not parse stops [Read], [Update] and [Delete]
    before anything happens: each returns the error of the parser as it
    is, also when the model would not decode. *)
Theorem unparsed_id_stops_before_any_call
    (metadata : ResourceMetaData Windows.WindowsWebAppModel)
    (id : option parse.WebAppId) (e : error) :
  parse_WebAppID hp (ResourceData_Id metadata) = (id, Some e) →
  Windows.Read hp metadata initial = (Err e, initial)
  ∧ Windows.Update hp metadata initial = (Err e, initial)
  ∧ Windows.Delete hp metadata initial = (Err e, initial).
Proof.
  intros Hparse.
  unfold Windows.Read, Windows.Update, Windows.Update_primary, Windows.Delete.
  rewrite Hparse. repeat split.
Qed.

End ReadProperties.

Section LinuxProperties.
Context `{Payloads} (hp : Helpers).

(** X16: the data source only reads, and records the ID last: the calls of
    a run are the first eleven reads of [Read] for the site of the decoded
    name and resource group, up to the point where the run stops; it logs
    nothing; the ID is set, to the ID built from the subscription and the
    decoded names, only together with the encoding of the state and after
    all eleven reads; a run that fails on a read or panics leaves no ID and
    no state. *)
Theorem Linux_Read_sets_id_last
    (metadata : ResourceMetaData Linux.LinuxWebAppModel)
    (webApp : Linux.LinuxWebAppModel) (r : result unit)
    (w : World Linux.LinuxWebAppModel) :
  Decode metadata = (webApp, None) →
  Linux.Read hp metadata initial = (r, w) →
  let rg := Linux.ResourceGroup webApp in
  let site := Linux.Name webApp in
  let id := parse.NewWebAppID (Account_SubscriptionId metadata) rg site in
  let reads := take 11 (Read_calls rg site) in
  calls w `prefix_of` reads
  ∧ logs w = []
  ∧ (resourceId w = IdUntouched ∧ encoded w = None ∧ r ≠ Ok tt
     ∨ resourceId w = IdSet id ∧ calls w = reads
       ∧ ∃ state, encoded w = Some state
                  ∧ r = match Encode metadata state with
                        | Some e => Err e
                        | None => Ok tt
                        end).
Proof.
  intros Hdecode Hrun rg site id reads. subst rg site id reads.
  unfold Linux.Read, Linux.Read_merge, Linux.Read_flags in Hrun.
  rewrite Hdecode in Hrun.
  unfold_monad. norm_in Hrun.
  repeat step_in Hrun; inversion Hrun; subst; clear Hrun.
  all: norm; unfold Read_calls; cbn [take].
  all: (split; [by eexists|split; [reflexivity|]]).
  all: first [ by (left; repeat split)
             | right; split; [reflexivity|split; [reflexivity|]];
               eexists; split; reflexivity ].
Qed.

(** X17: the data source stops at the first read that fails: when the site
    is found and the [n]-th of the ten reads that follow is the first to
    report an error, the backup read not counting when it reports NotFound,
    [Read] fails with that error wrapped; exactly the reads up to that one
    have been issued, no ID is set and no state is encoded. *)
Theorem Linux_Read_stops_at_first_failure
    (metadata : ResourceMetaData Linux.LinuxWebAppModel)
    (webApp : Linux.LinuxWebAppModel) (existing : web.Site)
    (n : nat) (cause : error) :
  let client := AppService_WebAppsClient metadata in
  let rg := Linux.ResourceGroup webApp in
  let site := Linux.Name webApp in
  Decode metadata = (webApp, None) →
  WebApps_Get client rg site = (existing, None) →
  first_error (take 10 (auxiliary_read_errors client rg site))
    = Some (n, cause) →
  ∃ e,
    Linux.Read hp metadata initial
    = (Err e, MkWorld (take (n + 2) (Read_calls rg site)) [] IdUntouched None)
    ∧ wraps e cause.
Proof.
  intros client rg site Hdecode Hget Hfirst. subst client rg site.
  destruct (Linux.Read hp metadata initial) as [r w] eqn:Hrun.
  unfold Linux.Read, Linux.Read_merge, Linux.Read_flags in Hrun.
  rewrite Hdecode in Hrun.
  unfold auxiliary_read_errors in Hfirst. cbn [take] in Hfirst.
  unfold_monad. norm_in Hrun. rewrite Hget in Hrun. norm_in Hrun.
  repeat step_in Hrun; inversion Hrun; subst; clear Hrun.
  all: use_answers_in Hfirst; cbn [first_error] in Hfirst.
  all: try match type of Hfirst with
           | context [if ?found then _ else _] => destruct found
           end.
  all: try discriminate Hfirst.
  all: injection Hfirst as <- <-.
  all: eexists; split; [reflexivity|]; by eexists _, [_].
Qed.

(** X18: the data source tolerates a site without properties, which the
    resource does not: when every read succeeds and the site carries no
    properties, [Read] dereferences nothing, sets the ID and encodes a
    state in which the fields that come from the properties are as they
    were decoded. *)
Theorem Linux_Read_nil_properties
    (metadata : ResourceMetaData Linux.LinuxWebAppModel)
    (webApp : Linux.LinuxWebAppModel) (existing : web.Site) :
  let client := AppService_WebAppsClient metadata in
  let rg := Linux.ResourceGroup webApp in
  let site := Linux.Name webApp in
  let id := parse.NewWebAppID (Account_SubscriptionId metadata) rg site in
  Decode metadata = (webApp, None) →
  WebApps_Get client rg site = (existing, None) →
  reads_succeed client rg site →
  web.Site_SiteProperties existing = None →
  ∃ state,
    Linux.Read hp metadata initial
    = (match Encode metadata state with Some e => Err e | None => Ok tt end,
       MkWorld (take 11 (Read_calls rg site)) [] (IdSet id) (Some state))
    ∧ Linux.ServicePlanId state = Linux.ServicePlanId webApp
    ∧ Linux.Enabled state = Linux.Enabled webApp
    ∧ Linux.HttpsOnly state = Linux.HttpsOnly webApp
    ∧ Linux.ClientAffinityEnabled state = Linux.ClientAffinityEnabled webApp
    ∧ Linux.ClientCertEnabled state = Linux.ClientCertEnabled webApp
    ∧ Linux.ClientCertMode state = Linux.ClientCertMode webApp
    ∧ Linux.DefaultHostname state = Linux.DefaultHostname webApp
    ∧ Linux.CustomDomainVerificationId state
      = Linux.CustomDomainVerificationId webApp
    ∧ Linux.OutboundIPAddresses state = Linux.OutboundIPAddresses webApp
    ∧ Linux.OutboundIPAddressList state = Linux.OutboundIPAddressList webApp
    ∧ Linux.PossibleOutboundIPAddresses state
      = Linux.PossibleOutboundIPAddresses webApp
    ∧ Linux.PossibleOutboundIPAddressList state
      = Linux.PossibleOutboundIPAddressList webApp.
Proof.
  intros client rg site id Hdecode Hget Hreads Hprops.
  eexists. split.
  - rewrite (Linux_Read_reaches_merge hp metadata webApp existing Hdecode Hget
               Hreads).
    unfold Linux.Read_merge. rewrite Hprops. reflexivity.
  - repeat split.
Qed.

End LinuxProperties.

Section AddressLists.
Context `{Payloads} (hp : Helpers).

(** *** Go's [strings.Split], joined back *)

Lemma strings_Split_nonempty (s : string) (sep : Ascii.ascii) :
  strings_Split s sep ≠ [].
Proof.
  destruct s as [|c rest]; cbn [strings_Split]; [discriminate|].
  case_bool_decide; [discriminate|].
  destruct (strings_Split rest sep); discriminate.
Qed.

Lemma strings_Split_join (s : string) (sep : Ascii.ascii) :
  String.concat (String sep EmptyString) (strings_Split s sep) = s.
Proof.
  induction s as [|c rest IH]; [reflexivity|].
  cbn [strings_Split].
  pose proof (strings_Split_nonempty rest sep) as Hne.
  destruct (strings_Split rest sep) as [|piece pieces]; [done|].
  rewrite <- IH. case_bool_decide as Hsep.
  - subst c. reflexivity.
  - destruct pieces; reflexivity.
Qed.

Lemma strings_Split_cut (s : string) (sep : Ascii.ascii) :
  Forall (λ piece, occurs sep piece = false) (strings_Split s sep).
Proof.
  induction s as [|c rest IH]; cbn [strings_Split].
  - by constructor.
  - case_bool_decide as Hsep.
    + by constructor.
    + destruct (strings_Split rest sep) as [|piece pieces].
      * constructor; [|constructor]. cbn [occurs].
        by rewrite (bool_decide_eq_false_2 _ Hsep).
      * inversion IH as [|? ? Hpiece Hpieces]; subst.
        constructor; [|exact Hpieces]. cbn [occurs].
        by rewrite (bool_decide_eq_false_2 _ Hsep).
Qed.

(** X19: the list of outbound addresses that [Read] builds is the string
    of addresses cut at the commas: it is never empty, no address in it
    contains a comma and, joined with commas, it gives back the string; a
    site without the addresses gets the empty string and no list.  The
    same holds of the possible outbound addresses. *)
Theorem Read_outbound_address_list
    (id : parse.WebAppId) (webApp : web.Site) (props : web.SiteProperties)
    (webAppSiteConfig : web.SiteConfigResource) (auth : web.SiteAuthSettings)
    (backup : web.BackupRequest) (logsConfig : web.SiteLogsConfig)
    (appSettings : web.StringDictionary)
    (storageAccounts : web.AzureStoragePropertyDictionaryResource)
    (connectionStrings : web.ConnectionStringDictionary)
    (siteCredentials : web.User) (currentStack : string) :
  let state :=
    Windows.Read_state hp id webApp props webAppSiteConfig auth backup
      logsConfig appSettings storageAccounts connectionStrings siteCredentials
      currentStack in
  let cut (addresses : option string) (joined : string)
          (list : option (list string)) : Prop :=
    match addresses with
    | Some v =>
        joined = v
        ∧ ∃ pieces, list = Some pieces ∧ pieces ≠ []
                    ∧ Forall (λ piece, occurs comma piece = false) pieces
                    ∧ String.concat "," pieces = v
    | None => joined = "" ∧ list = None
    end in
  cut (web.OutboundIPAddresses props) (Windows.OutboundIPAddresses state)
      (Windows.OutboundIPAddressList state)
  ∧ cut (web.PossibleOutboundIPAddresses props)
        (Windows.PossibleOutboundIPAddresses state)
        (Windows.PossibleOutboundIPAddressList state).
Proof.
  cbn. split.
  - destruct (web.OutboundIPAddresses props) as [v|]; [|done].
    split; [reflexivity|]. eexists. split; [reflexivity|].
    split; [apply strings_Split_nonempty|].
    split; [apply strings_Split_cut|apply strings_Split_join].
  - destruct (web.PossibleOutboundIPAddresses props) as [v|]; [|done].
    split; [reflexivity|]. eexists. split; [reflexivity|].
    split; [apply strings_Split_nonempty|].
    split; [apply strings_Split_cut|apply strings_Split_join].
Qed.

(** X20: the data source cuts the normalised string of outbound addresses
    at the commas, so for a site with properties the list is always there:
    it is never empty, no address in it contains a comma and, joined with
    commas, it gives back the string.  For a site with properties but
    without the addresses, whose string is normalised to the empty string,
    the list of the data source holds one empty address, where the state
    that the resource builds from the same properties has no list.  The
    same holds of the possible outbound addresses. *)
Theorem Linux_outbound_address_list
    (webApp : Linux.LinuxWebAppModel) (existing : web.Site)
    (props : web.SiteProperties) (flags : bool * bool * bool * bool)
    (webAppSiteConfig : web.SiteConfigResource) (auth : web.SiteAuthSettings)
    (backup : web.BackupRequest) (logsConfig : web.SiteLogsConfig)
    (appSettings : web.StringDictionary)
    (storageAccounts : web.AzureStoragePropertyDictionaryResource)
    (connectionStrings : web.ConnectionStringDictionary)
    (siteCredentials : web.User)
    (id : parse.WebAppId) (currentStack : string) :
  let state :=
    Linux.Read_state hp webApp existing (Some (props, flags)) webAppSiteConfig
      auth backup logsConfig appSettings storageAccounts connectionStrings
      siteCredentials in
  let resource :=
    Windows.Read_state hp id existing props webAppSiteConfig auth backup
      logsConfig appSettings storageAccounts connectionStrings siteCredentials
      currentStack in
  let cut (addresses : option string) (joined : string)
          (list list' : option (list string)) : Prop :=
    joined = utils_NormalizeNilableString hp addresses
    ∧ (∃ pieces,
         list = Some pieces ∧ pieces ≠ []
         ∧ Forall (λ piece, occurs comma piece = false) pieces
         ∧ String.concat "," pieces = joined)
    ∧ (addresses = None → utils_NormalizeNilableString hp None = "" →
       list = Some [""] ∧ list' = None) in
  cut (web.OutboundIPAddresses props) (Linux.OutboundIPAddresses state)
      (Linux.OutboundIPAddressList state)
      (Windows.OutboundIPAddressList resource)
  ∧ cut (web.PossibleOutboundIPAddresses props)
        (Linux.PossibleOutboundIPAddresses state)
        (Linux.PossibleOutboundIPAddressList state)
        (Windows.PossibleOutboundIPAddressList resource).
Proof.
  cbn. split.
  - split; [reflexivity|]. split.
    + eexists. split; [reflexivity|].
      split; [apply strings_Split_nonempty|].
      split; [apply strings_Split_cut|apply strings_Split_join].
    + intros -> ->. split; reflexivity.
  - split; [reflexivity|]. split.
    + eexists. split; [reflexivity|].
      split; [apply strings_Split_nonempty|].
      split; [apply strings_Split_cut|apply strings_Split_join].
    + intros -> ->. split; reflexivity.
Qed.

End AddressLists.

Section NilExpansion.
Context `{Payloads} (hp : Helpers).

(** The sequential application of the groups never panics. *)
Lemma Spec_apply_groups_no_panic
    (id : parse.WebAppId) (groups : list applied_group) :
  (Spec_apply_groups id groups).1 ≠ Panic.
Proof.
  induction groups as [|g groups IH]; cbn [Spec_apply_groups]; [discriminate|].
  destruct (group_answer g); [discriminate|].
  destruct (Spec_apply_groups id groups). exact IH.
Qed.

(** X21: application settings that expand to nil are skipped by [Create]
    and dereferenced by [Update]: once the primary phase has gone through,
    [Create] issues no settings update and does not panic when the other
    five expansions are there, whereas [Update] with changed settings
    panics before any sub-resource call, the site already updated. *)
Theorem nil_app_settings_guarded_in_Create_only
    (created updated : ResourceMetaData Windows.WindowsWebAppModel)
    (webApp : Windows.WindowsWebAppModel)
    (id id' : parse.WebAppId) (idPtr : option parse.WebAppId)
    (w1 w1' : World Windows.WindowsWebAppModel)
    (auth : web.SiteAuthSettings) (logsConfig : web.SiteLogsConfig)
    (backupConfig : web.BackupRequest)
    (storageConfig : web.AzureStoragePropertyDictionaryResource)
    (connectionStrings : web.ConnectionStringDictionary) :
  ExpandAppSettings hp (Windows.AppSettings webApp) = None →
  (Windows.Create_primary hp created initial = (Ok (webApp, id), w1) →
   ExpandAuthSettings hp (Windows.AuthSettings webApp) = Some auth →
   ExpandLogsConfig hp (Windows.LogsConfig webApp) = Some logsConfig →
   ExpandBackupConfig hp (Windows.Backup webApp) = Some backupConfig →
   ExpandStorageConfig hp (Windows.StorageAccounts webApp)
     = Some storageConfig →
   ExpandConnectionStrings hp (Windows.ConnectionStrings webApp)
     = Some connectionStrings →
   (Windows.Create hp created initial).1 ≠ Panic
   ∧ ∀ c, c ∈ calls (Windows.Create hp created initial).2 →
          is_appSettings_update c = false)
  ∧ (Windows.Update_primary hp updated initial = (Ok (idPtr, id', webApp), w1') →
     ResourceData_HasChange updated "app_settings" = true →
     Windows.Update hp updated initial = (Panic, w1')).
Proof.
  intros Hnil. split.
  - intros Hprimary Hauth Hlogs Hbackup Hstorage Hconn.
    unfold Windows.Create.
    rewrite (bind_ok _ _ _ _ _ Hprimary). cbn beta iota.
    rewrite (bind_ok (SetID id) _ w1 tt
               (MkWorld (calls w1) (logs w1) (IdSet id) (encoded w1)) eq_refl).
    rewrite (Create_subresources_groups hp _ _ _ _ _ _ _ _ _ Hauth Hlogs Hbackup
               Hstorage Hconn).
    cbn [fst snd]. split; [apply Spec_apply_groups_no_panic|].
    intros c Hin. cbn [calls with_calls] in Hin.
    apply elem_of_app in Hin as [Hin|Hin].
    + destruct (Create_primary_trace hp _ _ _ Hprimary) as (_ & Hjust & _).
      rewrite Forall_forall in Hjust. specialize (Hjust _ Hin).
      destruct c; first [reflexivity | contradiction].
    + revert Hin. rewrite Hnil.
      unfold Create_guarded_groups, groups_after_settings.
      cbn [app]. clear.
      generalize (web.SiteAuthSettings_Properties auth),
        (web.SiteLogsConfig_Properties logsConfig),
        (web.BackupRequest_Properties backupConfig),
        (web.AzureStoragePropertyDictionaryResource_Properties storageConfig),
        (web.ConnectionStringDictionary_Properties connectionStrings).
      intros [?|] [?|] [?|] [?|] [?|]; cbn [present app]; intros Hin.
      all: repeat match type of Hin with
                  | context [Spec_apply_groups _ (?g :: _)] =>
                      cbn [Spec_apply_groups group_answer group_call] in Hin;
                      try destruct (WebApps_UpdateAuthSettings _ _ _ _);
                      try destruct (WebApps_UpdateDiagnosticLogsConfig _ _ _ _);
                      try destruct (WebApps_UpdateBackupConfiguration _ _ _ _);
                      try destruct (WebApps_UpdateAzureStorageAccounts _ _ _ _);
                      try destruct (WebApps_UpdateConnectionStrings _ _ _ _)
                  end.
      all: cbn in Hin.
      all: repeat (apply elem_of_cons in Hin as [->|Hin]; [reflexivity|]).
      all: by apply elem_of_nil in Hin.
  - intros Hprimary Hchanged. unfold Windows.Update.
    rewrite (bind_ok _ _ _ _ _ Hprimary). cbn beta iota.
    unfold Windows.Update_subresources. rewrite Hchanged, Hnil.
    reflexivity.
Qed.

End NilExpansion.

(** * Properties of the schemas *)

Section SchemaProperties.
Context `{Payloads} (hp : Helpers) (sh : SchemaHelpers).

(** X22: the schema of the resource and its model fit: no key is both an
    argument and an attribute, and the keys of the two together are exactly
    the [tfschema] tags of the fields of the model, no tag and no field
    occurring twice. *)
Theorem Windows_schema_covers_model :
  dom (WindowsWebAppResource.Arguments sh)
    ## dom (WindowsWebAppResource.Attributes sh)
  ∧ dom (Windows_schema sh)
    = list_to_set (WindowsWebAppResource.WindowsWebAppModel_tfschema.*2)
  ∧ NoDup (WindowsWebAppResource.WindowsWebAppModel_tfschema.*1)
  ∧ NoDup (WindowsWebAppResource.WindowsWebAppModel_tfschema.*2).
Proof.
  unfold Windows_schema. rewrite dom_union_L.
  unfold WindowsWebAppResource.Arguments, WindowsWebAppResource.Attributes.
  rewrite !dom_list_to_map_L. cbn [fmap list_fmap fst snd
    WindowsWebAppResource.WindowsWebAppModel_tfschema].
  split; [|split; [|split]].
  - apply (bool_decide_unpack _). vm_compute. reflexivity.
  - apply (bool_decide_unpack _). vm_compute. reflexivity.
  - apply (bool_decide_unpack _). vm_compute. reflexivity.
  - apply (bool_decide_unpack _). vm_compute. reflexivity.
Qed.

(** X23: the data source exposes what the resource declares, and the
    application metadata besides: its keys are the keys of the resource and
    [app_metadata], which the resource does not have; its two arguments,
    the name and the resource group, are no attributes. *)
Theorem Linux_schema_extends_Windows :
  dom (Linux_schema sh) = dom (Windows_schema sh) ∪ {["app_metadata"]}
  ∧ ("app_metadata" ∉ dom (Windows_schema sh))
  ∧ dom (LinuxWebAppDataSource.Arguments sh)
    = {["name"; "resource_group_name"]}
  ∧ dom (LinuxWebAppDataSource.Arguments sh)
      ## dom (LinuxWebAppDataSource.Attributes sh).
Proof.
  unfold Linux_schema, Windows_schema. rewrite !dom_union_L.
  unfold WindowsWebAppResource.Arguments, WindowsWebAppResource.Attributes,
    LinuxWebAppDataSource.Arguments, LinuxWebAppDataSource.Attributes.
  rewrite !dom_list_to_map_L. cbn [fmap list_fmap fst snd].
  split; [|split; [|split]].
  - apply (bool_decide_unpack _). vm_compute. reflexivity.
  - apply (bool_decide_unpack _). vm_compute. reflexivity.
  - apply (bool_decide_unpack _). vm_compute. reflexivity.
  - apply (bool_decide_unpack _). vm_compute. reflexivity.
Qed.

(** X24: the attributes that the data source declares itself are
    read-only copies of what the resource declares: each is computed, is
    neither required nor optional, forces no replacement and has no default
    and no validation; it has the type and the element type of the key of
    the resource, and is sensitive exactly when that one is. *)
Theorem Linux_schema_types_agree
    (key : string) (resource dataSource : pluginsdk.Schema) :
  key ∉ provided_keys →
  Windows_schema sh !! key = Some resource →
  LinuxWebAppDataSource.Attributes sh !! key = Some dataSource →
  pluginsdk.Computed dataSource = true
  ∧ pluginsdk.Required dataSource = false
  ∧ pluginsdk.Optional dataSource = false
  ∧ pluginsdk.ForceNew dataSource = false
  ∧ pluginsdk.Default dataSource = None
  ∧ pluginsdk.ValidateFunc dataSource = None
  ∧ pluginsdk.Type_ dataSource = pluginsdk.Type_ resource
  ∧ pluginsdk.Elem dataSource = pluginsdk.Elem resource
  ∧ pluginsdk.Sensitive dataSource = pluginsdk.Sensitive resource.
Proof.
  intros Hown Hresource HdataSource.
  unfold LinuxWebAppDataSource.Attributes in HdataSource.
  apply elem_of_list_to_map_2 in HdataSource.
  repeat (apply elem_of_cons in HdataSource as [[= -> ->]|HdataSource];
          [try (by (exfalso; apply Hown; unfold provided_keys; solve_elem_of));
           try (by (vm_compute in Hresource; try discriminate Hresource;
                    injection Hresource as <-; repeat split))|]).
  by apply elem_of_nil in HdataSource.
Qed.

(** X25: the arguments and attributes that the resource declares itself
    are consistent: an argument is required or optional and not both, a
    required argument is not computed, a default comes only with an optional
    argument that is not computed and has the type of the argument, and a
    list or a map has its element type; an attribute is computed, neither
    required nor optional, and has no default. *)
Theorem Windows_schema_consistent (key : string) (s : pluginsdk.Schema) :
  key ∉ provided_keys →
  (WindowsWebAppResource.Arguments sh !! key = Some s →
   pluginsdk.Required s ≠ pluginsdk.Optional s
   ∧ (pluginsdk.Required s = true → pluginsdk.Computed s = false)
   ∧ (is_Some (pluginsdk.Default s) →
      pluginsdk.Optional s = true ∧ pluginsdk.Computed s = false)
   ∧ default_has_type s
   ∧ (pluginsdk.Type_ s = pluginsdk.TypeList
      ∨ pluginsdk.Type_ s = pluginsdk.TypeMap →
      is_Some (pluginsdk.Elem s)))
  ∧ (WindowsWebAppResource.Attributes sh !! key = Some s →
     pluginsdk.Computed s = true
     ∧ pluginsdk.Required s = false
     ∧ pluginsdk.Optional s = false
     ∧ pluginsdk.Default s = None
     ∧ (pluginsdk.Type_ s = pluginsdk.TypeList
        ∨ pluginsdk.Type_ s = pluginsdk.TypeMap →
        is_Some (pluginsdk.Elem s))).
Proof.
  intros Hown. split; intros Hkey.
  - unfold WindowsWebAppResource.Arguments in Hkey.
    apply elem_of_list_to_map_2 in Hkey.
    repeat (apply elem_of_cons in Hkey as [[= -> ->]|Hkey];
            [try (by (exfalso; apply Hown; unfold provided_keys;
                      solve_elem_of));
             try (by (cbn; repeat split; try discriminate;
                      try (by intros [? [=]]); try (by intros [[=]|[=]]);
                      try (by intros _; eexists)))|]).
    by apply elem_of_nil in Hkey.
  - unfold WindowsWebAppResource.Attributes in Hkey.
    apply elem_of_list_to_map_2 in Hkey.
    repeat (apply elem_of_cons in Hkey as [[= -> ->]|Hkey];
            [try (by (exfalso; apply Hown; unfold provided_keys;
                      solve_elem_of));
             try (by (cbn; repeat split; try (by intros [[=]|[=]]);
                      try (by intros _; eexists)))|]).
    by apply elem_of_nil in Hkey.
Qed.

(** X26: [Update] consults the change of no key that is not an argument of
    the resource: two hosts that differ only in the change flags, and agree
    on the flags of the arguments, make [Update] run alike. *)
Theorem Update_consults_argument_changes_only
    (metadata : ResourceMetaData Windows.WindowsWebAppModel)
    (changed changed' : string → bool)
    (w : World Windows.WindowsWebAppModel) :
  (∀ key, is_Some (WindowsWebAppResource.Arguments sh !! key) →
          changed key = changed' key) →
  Windows.Update hp (with_changes metadata changed) w
  = Windows.Update hp (with_changes metadata changed') w.
Proof.
  intros Hsame.
  assert (∀ key, key ∈ ["app_settings"; "connection_string"; "auth_settings";
                        "backup"; "logs"; "storage_account"] →
                 changed key = changed' key) as Hfields.
  { intros key Hin. apply Hsame.
    repeat (apply elem_of_cons in Hin as [->|Hin];
            [vm_compute; by eexists|]).
    by apply elem_of_nil in Hin. }
  unfold Windows.Update, Windows.Update_subresources, Windows.Update_primary,
    with_changes.
  cbn [ResourceData_HasChange Decode ResourceData_Id AppService_WebAppsClient].
  rewrite !(Hfields "app_settings"), !(Hfields "connection_string"),
    !(Hfields "auth_settings"), !(Hfields "backup"), !(Hfields "logs"),
    !(Hfields "storage_account") by solve_elem_of.
  reflexivity.
Qed.

End SchemaProperties.

(** * The theorems at the concrete deployment *)

Import Scenario.
#[local] Existing Instance Scenario.payloads.


(** C8 at [app1]: one delete call, metrics deleted, the plan kept. *)
Lemma Delete_single_call_witness :
  Windows.Delete hp1
    (metadata windows_app [] (client missing_site no_backup nothing_fails))
    initial
  = (Ok tt,
     MkWorld [CallDelete "rg1" "app1" (Some true) (Some false)]
       [Log LevelInfo "deleting %s" [ArgWebAppId app1]] IdUntouched None).
Proof.
  exact (proj1 (Delete_single_call hp1
                  (metadata windows_app []
                     (client missing_site no_backup nothing_fails))
                  app1 eq_refl)).
Defined.

(** C7 at [app1], which already exists. *)
Lemma Create_existing_requires_import_witness :
  Windows.Create hp1
    (metadata windows_app []
       (client (site (Some true), None) no_backup nothing_fails))
    initial
  = (Err (RequiresImport "azurerm_windows_web_app" app1),
     with_calls initial [CallGet "rg1" "app1"]).
Proof.
  exact (proj1 (Create_existing_requires_import hp1
                  (metadata windows_app []
                     (client (site (Some true), None) no_backup nothing_fails))
                  windows_app (site (Some true)) None eq_refl eq_refl)
               eq_refl eq_refl).
Defined.

(** C5 at [app1], deleted out of band: gone, not an error. *)
Lemma Read_error_handling_witness :
  Windows.Read hp1
    (metadata windows_app [] (client missing_site no_backup nothing_fails))
    initial
  = (Ok tt, MkWorld [CallGet "rg1" "app1"] [] IdRemoved None).
Proof.
  exact (proj1 (Read_error_handling hp1
                  (metadata windows_app []
                     (client missing_site no_backup nothing_fails))
                  app1 missing_site.1 missing_site.2 eq_refl eq_refl)
               (ErrRemote "404 Not Found") eq_refl eq_refl).
Defined.

(** C9 at [app1], missing: the data source reports an error. *)
Lemma Linux_Read_not_found_is_error_witness :
  Linux.Read hp1
    (metadata linux_app [] (client missing_site no_backup nothing_fails))
    initial
  = (Err (Errorf "Linux Web App with %s not found" [ArgWebAppId app1]),
     MkWorld [CallGet "rg1" "app1"] [] IdUntouched None).
Proof.
  exact (proj1 (Linux_Read_not_found_is_error hp1
                  (metadata linux_app []
                     (client missing_site no_backup nothing_fails))
                  linux_app missing_site.1 (ErrRemote "404 Not Found")
                  (metadata windows_app []
                     (client missing_site no_backup nothing_fails))
                  eq_refl eq_refl eq_refl)).
Defined.

(** C10 at [app1], whose site properties carry no flags: the data source
    panics. *)
Lemma Linux_Read_unguarded_flags_witness :
  (Linux.Read hp1
     (metadata linux_app []
        (client (site None, None) no_backup nothing_fails))
     initial).1
  = Panic.
Proof.
  refine (proj2 (proj1 (Linux_Read_unguarded_flags hp1
                          (metadata linux_app []
                             (client (site None, None) no_backup nothing_fails))
                          linux_app (site None) _ eq_refl eq_refl eq_refl) _) _).
  - repeat split; try reflexivity. right. reflexivity.
  - intros [[? Hflag] _]. discriminate Hflag.
Defined.

(** C6 at [app1]: the settings and the logs are applied, in this order,
    after the primary phase. *)
Lemma Create_subresources_in_order_witness :
  ∃ w1 appSettings logsConfig,
    Windows.Create_primary hp1 (fresh []) initial = (Ok (windows_app, app1), w1)
    ∧ Windows.Create hp1 (fresh []) initial
      = (Ok tt,
         MkWorld
           (calls w1 ++
            [CallUpdateApplicationSettings "rg1" "app1" appSettings;
             CallUpdateDiagnosticLogsConfig "rg1" "app1" logsConfig])
           (logs w1) (IdSet app1) (encoded w1)).
Proof.
  eexists _, _, _. split; [vm_compute; reflexivity|].
  exact (proj1 (proj2
           (Create_subresources_in_order hp1 (fresh []) windows_app app1
              _ _ _ _ _ _ eq_refl eq_refl eq_refl eq_refl eq_refl eq_refl))).
Defined.

(** C6, as the spec states it, fails at [app1] without settings when the
    expansion of the settings is not nil and has no properties: [Create]
    issues the settings update all the same. *)
Lemma Create_subresources_counterexample :
  ¬ Spec_subresources_claim hp_blank_settings (fresh_bare []).
Proof.
  intros Hclaim.
  specialize (Hclaim windows_app_bare app1
                (Windows.Create_primary hp_blank_settings (fresh_bare [])
                   initial).2
                _ _ _ _ _ ltac:(vm_compute; reflexivity)
                eq_refl eq_refl eq_refl eq_refl eq_refl).
  vm_compute in Hclaim. discriminate Hclaim.
Qed.

(** At that input the settings update is the one sub-resource call, and it
    carries no properties. *)
Lemma Create_blank_settings_sent :
  CallUpdateApplicationSettings "rg1" "app1"
    {| web.StringDictionary_Response := None;
       web.StringDictionary_Properties := None |}
  ∈ calls (Windows.Create hp_blank_settings (fresh_bare []) initial).2.
Proof. vm_compute. solve_elem_of. Qed.

(** C2 at [app1], with [app_settings] and [logs] changed: the settings
    update is among the three calls before the logs update. *)
Lemma Update_app_settings_before_logs_witness :
  let w := (Windows.Update hp1 (fresh ["app_settings"; "logs"]) initial).2 in
  ∃ c, c ∈ take 3 (calls w) ∧ is_appSettings_update c = true.
Proof.
  intros w.
  refine (proj2 (Update_app_settings_before_logs hp1
                   (fresh ["app_settings"; "logs"]) (Ok tt) w
                   (take 3 (calls w)) (drop 4 (calls w))
                   (CallUpdateDiagnosticLogsConfig "rg1" "app1"
                      {| web.SiteLogsConfig_Response := None;
                         web.SiteLogsConfig_Properties := Some tt |})
                   _ _ eq_refl) eq_refl).
  - vm_compute. reflexivity.
  - vm_compute. reflexivity.
Defined.

(** C3 at [app1], with only [app_settings] changed: the settings update is
    issued. *)
Lemma Update_only_app_settings_witness :
  let w := (Windows.Update hp1 (fresh ["app_settings"]) initial).2 in
  ∃ c, c ∈ calls w ∧ is_appSettings_update c = true.
Proof.
  intros w.
  refine (proj2 (proj2 (Update_only_app_settings hp1 (fresh ["app_settings"])
                          (Ok tt) w eq_refl eq_refl eq_refl eq_refl eq_refl
                          eq_refl _)) eq_refl).
  vm_compute. reflexivity.
Defined.

(** C4 at [app1], whose desired state has no backup block, with [backup]
    changed: the backup configuration is deleted. *)
Lemma Update_backup_branch_witness :
  let w := (Windows.Update hp1 (fresh ["backup"]) initial).2 in
  CallDeleteBackupConfiguration "rg1" "app1" ∈ calls w.
Proof.
  intros w.
  refine (proj2 (proj1 (Update_backup_branch hp1 (fresh ["backup"])
                          {| web.BackupRequest_Response := None;
                             web.BackupRequest_Properties := None |}
                          (Ok tt) w eq_refl eq_refl _) eq_refl)
                (Some app1) app1
                (Windows.Update_primary hp1 (fresh ["backup"]) initial).2
                _ _).
  - vm_compute. reflexivity.
  - vm_compute. reflexivity.
  - repeat split; left; reflexivity.
Defined.

(** C1 at [app1] on [plan1], hosted on [ase1], which cannot be read: [plan1]
    resolves to an isolated environment. *)
Lemma fresh_resolves_isolated_plan :
  resolves_isolated_plan hp1 (fresh []) windows_app plan1
    {| web.HostingEnvironmentProfile_ID := Some "/hostingEnvironments/ase1" |}.
Proof.
  repeat split. eexists _, _. repeat split.
Defined.

(** The lookup of [ase1] fails. *)
Lemma fresh_lookup_fails : ase_lookup_fails (fresh []) (Some ase1) None.
Proof.
  right. exists ase1. split; [reflexivity|]. eexists. reflexivity.
Defined.

(** C1 at [app1]: the name checked is
    [app1.plan1.ase1.appserviceenvironment.net], with a warning. *)
Lemma Create_isolated_environment_fqdn_witness :
  let w := (Windows.Create hp1 (fresh []) initial).2 in
  CallCheckNameAvailability
    {| web.Request_Name := Some "app1.plan1.ase1.appserviceenvironment.net";
       web.Request_Type := web.CheckNameResourceTypesMicrosoftWebsites;
       web.Request_IsFqdn := Some true |}
  ∈ calls w
  ∧ ∃ entry, entry ∈ logs w ∧ log_level entry = LevelWarn.
Proof.
  intros w.
  refine (proj1 (proj2 (Create_isolated_environment_fqdn hp1 (fresh [])
                          windows_app plan1 _
                          (Windows.Create hp1 (fresh []) initial).1 w
                          fresh_resolves_isolated_plan _))
                "/hostingEnvironments/ase1" ase1 None eq_refl eq_refl
                fresh_lookup_fails).
  vm_compute. reflexivity.
Defined.

(** C1, as the spec states it, fails at [app1]: the name
    [app1.plan1.plan1.appserviceenvironment.net] is not checked. *)
Lemma Create_fallback_counterexample : ¬ Spec_fallback_claim hp1 (fresh []).
Proof.
  intros Hclaim.
  destruct (Hclaim windows_app plan1 _ "/hostingEnvironments/ase1"
              (Windows.Create hp1 (fresh []) initial).1
              (Windows.Create hp1 (fresh []) initial).2
              fresh_resolves_isolated_plan eq_refl fresh_lookup_fails)
    as [Hin _].
  - vm_compute. reflexivity.
  - vm_compute in Hin.
    repeat (apply elem_of_cons in Hin as [Hin|Hin]; [discriminate Hin|]).
    apply elem_of_nil in Hin. exact Hin.
Qed.

(** At [app1] no other name is checked, whichever way the fallback of the
    spec is read. *)
Lemma Create_fallback_only_name_checked :
  ∀ request,
    CallCheckNameAvailability request
      ∈ calls (Windows.Create hp1 (fresh []) initial).2 →
    web.Request_Name request
    = Some "app1.plan1.ase1.appserviceenvironment.net".
Proof.
  intros request Hin. vm_compute in Hin.
  repeat (apply elem_of_cons in Hin as [Hin|Hin];
          [by (discriminate Hin + (injection Hin as ->))|]).
  apply elem_of_nil in Hin. contradiction.
Qed.

(** When the ID of the environment does not parse and the parser returns
    no ID, [Create] dereferences the nil ID before it looks at the error. *)
Lemma Create_unparsed_environment_panics :
  Windows.Create hp_unparsed (fresh []) initial
  = (Panic,
     with_calls initial
       [CallGet "rg1" "app1"; CallServicePlanGet "rg1" "plan1"]).
Proof. vm_compute. reflexivity. Qed.

(** * The further properties at the concrete deployment *)

(** X1 at [app1]: the site is created after the availability check has
    answered that its name is free. *)
Lemma Create_only_free_names_witness :
  let w := (Windows.Create hp1 (fresh []) initial).2 in
  Create_name_is_free (fresh []) (calls w).
Proof.
  intros w.
  refine (proj1 (Create_only_free_names hp1 (fresh [])
                   (Windows.Create hp1 (fresh []) initial).1 w
                   "rg1" "app1" (site_of_model hp1 windows_app) _ _)).
  - vm_compute. reflexivity.
  - vm_compute. solve_elem_of.
Defined.


(** X3 at [app1]: the warning that is logged is due to the environment
    [ase1], which cannot be read. *)
Lemma Create_warns_only_on_failed_lookup_witness :
  ∃ servicePlanId ase aseID,
    resolves_isolated_plan hp1 (fresh []) (Decode (fresh [])).1 servicePlanId ase
    ∧ web.HostingEnvironmentProfile_ID ase = Some aseID
    ∧ ase_lookup_fails (fresh []) (parse_AppServiceEnvironmentID hp1 aseID).1
        (parse_AppServiceEnvironmentID hp1 aseID).2.
Proof.
  refine (proj2 (Create_warns_only_on_failed_lookup hp1 (fresh [])
                   (Windows.Create hp1 (fresh []) initial).1
                   (Windows.Create hp1 (fresh []) initial).2
                   (Log LevelWarn
                      "could not read App Service Environment to determine FQDN for name availability check, defaulting to `%s.%s.appserviceenvironment.net`"
                      [ArgString "app1"; ArgServicePlanId (Some plan1)])
                   _ _)).
  - vm_compute. reflexivity.
  - vm_compute. solve_elem_of.
Defined.

(** X4 at [app1] on a plain plan: the name checked is [app1]. *)
Lemma Create_plain_name_check_witness :
  CallCheckNameAvailability
    {| web.Request_Name := Some "app1";
       web.Request_Type := web.CheckNameResourceTypesMicrosoftWebsites;
       web.Request_IsFqdn := None |}
  ∈ calls (Windows.Create hp1 fresh_plain initial).2.
Proof.
  refine (proj1 (proj1 (Create_plain_name_check hp1 fresh_plain windows_app
                          plan1 _
                          (Windows.Create hp1 fresh_plain initial).1
                          (Windows.Create hp1 fresh_plain initial).2
                          eq_refl eq_refl eq_refl eq_refl _)
                   _ eq_refl eq_refl)).
  vm_compute. reflexivity.
Defined.

(** X5 at [ase1], which cannot be read: the suffix is not empty. *)
Lemma Create_nameSuffix_never_fails_witness :
  "ase1.appserviceenvironment.net" ≠ "".
Proof.
  refine (proj1 (proj2 (Create_nameSuffix_never_fails hp1 (fresh [])
                          windows_app (Some plan1)
                          {| web.HostingEnvironmentProfile_ID :=
                               Some "/hostingEnvironments/ase1" |}
                          initial
                          (Windows.Create_nameSuffix hp1 (fresh []) windows_app
                             (Some plan1)
                             {| web.HostingEnvironmentProfile_ID :=
                                  Some "/hostingEnvironments/ase1" |}
                             initial).2
                          (Ok "ase1.appserviceenvironment.net") _))
                "ase1.appserviceenvironment.net" eq_refl).
  vm_compute. reflexivity.
Defined.

(** X6 at [app1], with [app_settings] and [logs] changed: the logs are
    written. *)
Lemma Update_writes_changed_groups_witness :
  let w := (Windows.Update hp1 (fresh ["app_settings"; "logs"]) initial).2 in
  ∃ c, c ∈ calls w ∧ group_of c = Some GroupLogs.
Proof.
  intros w.
  refine (proj2 (Update_writes_changed_groups hp1
                   (fresh ["app_settings"; "logs"]) w GroupLogs _) eq_refl).
  vm_compute. reflexivity.
Defined.

(** X7 at [app1], with [logs] changed: nothing is logged. *)
Lemma Update_only_writes_witness :
  logs (Windows.Update hp1 (fresh ["logs"]) initial).2 = [].
Proof.
  refine (proj1 (Update_only_writes hp1 (fresh ["logs"])
                   (Windows.Update hp1 (fresh ["logs"]) initial).1
                   (Windows.Update hp1 (fresh ["logs"]) initial).2 _)).
  vm_compute. reflexivity.
Defined.

(** X8 at [app1], with [logs] changed: the site is sent first. *)
Lemma Update_site_first_witness :
  ∃ rest,
    calls (Windows.Update hp1 (fresh ["logs"]) initial).2
    = CallCreateOrUpdate "rg1" "app1" (site_of_model hp1 windows_app) :: rest.
Proof.
  refine (proj1 (Update_site_first hp1 (fresh ["logs"]) app1 windows_app
                   (Windows.Update hp1 (fresh ["logs"]) initial).1
                   (Windows.Update hp1 (fresh ["logs"]) initial).2
                   eq_refl eq_refl eq_refl _)).
  vm_compute. reflexivity.
Defined.

(** X9 at [app1]: created and then updated with the same model, the site
    that is sent is the same, in [westeurope]. *)
Lemma Update_sends_site_of_Create_witness :
  web.Site_Location (site_of_model hp1 windows_app) = Some "westeurope".
Proof.
  refine (proj1 (proj2 (Update_sends_site_of_Create hp1 (fresh [])
                          (fresh ["logs"])
                          (Windows.Create hp1 (fresh []) initial).1
                          (Windows.Update hp1 (fresh ["logs"]) initial).1
                          (Windows.Create hp1 (fresh []) initial).2
                          (Windows.Update hp1 (fresh ["logs"]) initial).2
                          "rg1" "app1" "rg1" "app1"
                          (site_of_model hp1 windows_app)
                          (site_of_model hp1 windows_app)
                          eq_refl _ _ _ _))).
  - vm_compute. reflexivity.
  - vm_compute. reflexivity.
  - vm_compute. solve_elem_of.
  - vm_compute. solve_elem_of.
Defined.

(** X10 at [app1]: the service plan and the HTTPS flag are read back as
    they were sent. *)
Lemma Create_Read_round_trip_witness :
  let remote := deployed (Some true) in
  let state :=
    Windows.Read_state hp1 app1 (site (Some true)) stored_properties
      (WebApps_GetConfiguration remote "rg1" "app1").1
      (WebApps_GetAuthSettings remote "rg1" "app1").1
      (WebApps_GetBackupConfiguration remote "rg1" "app1").1
      (WebApps_GetDiagnosticLogsConfiguration remote "rg1" "app1").1
      (WebApps_ListApplicationSettings remote "rg1" "app1").1
      (WebApps_ListAzureStorageAccounts remote "rg1" "app1").1
      (WebApps_ListConnectionStrings remote "rg1" "app1").1
      (ListPublishingCredentialsFuture_Result
         (WebApps_ListPublishingCredentials remote "rg1" "app1").1).1
      "" in
  Windows.ServicePlanId state = "/serverfarms/plan1"
  ∧ Windows.HttpsOnly state = true.
Proof.
  intros remote state.
  pose proof (Create_Read_round_trip hp1 (fresh [])
                (Windows.Create hp1 (fresh []) initial).1
                (Windows.Create hp1 (fresh []) initial).2
                "rg1" "app1" (site_of_model hp1 windows_app)
                {| web.ServerFarmID := Some "/serverfarms/plan1";
                   web.Enabled := Some true;
                   web.HTTPSOnly := Some true;
                   web.SiteProperties_SiteConfig := None;
                   web.ClientAffinityEnabled := Some false;
                   web.ClientCertEnabled := Some false;
                   web.ClientCertMode := "Required";
                   web.CustomDomainVerificationID := None;
                   web.DefaultHostName := None;
                   web.OutboundIPAddresses := None;
                   web.PossibleOutboundIPAddresses := None |}
                app1 (site (Some true)) stored_properties
                (WebApps_GetConfiguration remote "rg1" "app1").1
                (WebApps_GetAuthSettings remote "rg1" "app1").1
                (WebApps_GetBackupConfiguration remote "rg1" "app1").1
                (WebApps_GetDiagnosticLogsConfiguration remote "rg1" "app1").1
                (WebApps_ListApplicationSettings remote "rg1" "app1").1
                (WebApps_ListAzureStorageAccounts remote "rg1" "app1").1
                (WebApps_ListConnectionStrings remote "rg1" "app1").1
                (ListPublishingCredentialsFuture_Result
                   (WebApps_ListPublishingCredentials remote "rg1" "app1").1).1
                ""
                ltac:(vm_compute; reflexivity)
                ltac:(vm_compute; solve_elem_of)
                ltac:(vm_compute; reflexivity)
                eq_refl eq_refl) as Htrip.
  split; [exact (proj1 (proj2 (proj2 Htrip)))|].
  exact (proj1 (proj2 (proj2 (proj2 (proj2 Htrip))))).
Defined.

(** X11 at [app1], created with the stack [dotnet]: [Read] flattens the
    site configuration with [dotnet]. *)
Lemma current_stack_round_trip_witness :
  let resource :=
    metadata windows_app []
      (with_site_metadata (deployed (Some true)) (dotnet_metadata, None)) in
  ∃ stack state,
    (ExpandSiteConfigWindows hp_dotnet
       (Windows.SiteConfig (Decode (fresh [])).1)).1.2 = Some stack
    ∧ stack ≠ ""
    ∧ encoded (Windows.Read hp_dotnet resource initial).2 = Some state
    ∧ Windows.SiteConfig state
      = FlattenSiteConfigWindows hp_dotnet
          (web.SiteConfigResource_SiteConfig
             (WebApps_GetConfiguration (AppService_WebAppsClient resource)
                "rg1" "app1").1)
          stack.
Proof.
  intros resource.
  refine (current_stack_round_trip hp_dotnet (fresh []) resource
            (Windows.Create hp_dotnet (fresh []) initial).1
            (Windows.Create hp_dotnet (fresh []) initial).2
            "rg1" "app1" (currentStack_metadata "dotnet")
            app1 (site (Some true)) _ dotnet_metadata
            (or_introl _) _ eq_refl eq_refl eq_refl _ eq_refl eq_refl).
  - vm_compute. reflexivity.
  - vm_compute. solve_elem_of.
  - repeat split; try reflexivity. right. reflexivity.
Defined.

(** X12 at [app1], deployed: all twelve reads are issued. *)
Lemma Read_only_reads_witness :
  let w :=
    (Windows.Read hp1 (metadata windows_app [] (deployed (Some true)))
       initial).2 in
  calls w = Read_calls "rg1" "app1" ∧ resourceId w = IdUntouched.
Proof.
  intros w.
  refine (proj1 (proj2 (proj2 (proj2
            (Read_only_reads hp1 (metadata windows_app [] (deployed (Some true)))
               app1
               (Windows.Read hp1
                  (metadata windows_app [] (deployed (Some true))) initial).1
               w eq_refl _)))) _).
  - vm_compute. reflexivity.
  - vm_compute. eexists. reflexivity.
Defined.

(** X13 at [app1], whose application settings cannot be read: [Read] stops
    at the sixth read. *)
Lemma Read_stops_at_first_failure_witness :
  ∃ e,
    Windows.Read hp1
      (metadata windows_app []
         (client (site (Some true), None) no_backup settings_read_fails))
      initial
    = (Err e, MkWorld (take 6 (Read_calls "rg1" "app1")) [] IdUntouched None)
    ∧ wraps e boom.
Proof.
  exact (Read_stops_at_first_failure hp1
           (metadata windows_app []
              (client (site (Some true), None) no_backup settings_read_fails))
           app1 (site (Some true)) _ 4 boom eq_refl eq_refl eq_refl eq_refl).
Defined.

(** X14 at [app1], returned without properties. *)
Lemma Read_nil_properties_witness :
  Windows.Read hp1
    (metadata windows_app [] (client (bare_site, None) no_backup nothing_fails))
    initial
  = (Err (Errorf "reading properties of Windows %s" [ArgWebAppIdPtr (Some app1)]),
     MkWorld [CallGet "rg1" "app1"] [] IdUntouched None).
Proof.
  exact (proj1 (Read_nil_properties hp1
                  (metadata windows_app []
                     (client (bare_site, None) no_backup nothing_fails))
                  app1 bare_site eq_refl eq_refl eq_refl)).
Defined.

(** X15 with a parser that rejects the ID: [Delete] returns its error. *)
Lemma unparsed_id_stops_before_any_call_witness :
  Windows.Delete hp_no_id (fresh []) initial = (Err boom, initial).
Proof.
  exact (proj2 (proj2 (unparsed_id_stops_before_any_call hp_no_id (fresh [])
                         None boom eq_refl))).
Defined.

(** X16 at [app1], deployed: the data source issues reads of [Read]. *)
Lemma Linux_Read_sets_id_last_witness :
  calls (Linux.Read hp1 (metadata linux_app [] (deployed (Some true)))
           initial).2
  `prefix_of` take 11 (Read_calls "rg1" "app1").
Proof.
  refine (proj1 (Linux_Read_sets_id_last hp1
                   (metadata linux_app [] (deployed (Some true))) linux_app
                   (Linux.Read hp1
                      (metadata linux_app [] (deployed (Some true))) initial).1
                   (Linux.Read hp1
                      (metadata linux_app [] (deployed (Some true))) initial).2
                   eq_refl _)).
  vm_compute. reflexivity.
Defined.

(** X17 at [app1], whose application settings cannot be read: the data
    source stops at the sixth read. *)
Lemma Linux_Read_stops_at_first_failure_witness :
  ∃ e,
    Linux.Read hp1
      (metadata linux_app []
         (client (site (Some true), None) no_backup settings_read_fails))
      initial
    = (Err e, MkWorld (take 6 (Read_calls "rg1" "app1")) [] IdUntouched None)
    ∧ wraps e boom.
Proof.
  exact (Linux_Read_stops_at_first_failure hp1
           (metadata linux_app []
              (client (site (Some true), None) no_backup settings_read_fails))
           linux_app (site (Some true)) 4 boom eq_refl eq_refl eq_refl).
Defined.

(** X18 at [app1], returned without properties: the data source sets the
    ID of [app1]. *)
Lemma Linux_Read_nil_properties_witness :
  resourceId
    (Linux.Read hp1
       (metadata linux_app []
          (client (bare_site, None) no_backup nothing_fails)) initial).2
  = IdSet app1.
Proof.
  destruct (Linux_Read_nil_properties hp1
              (metadata linux_app []
                 (client (bare_site, None) no_backup nothing_fails))
              linux_app bare_site eq_refl eq_refl
              ltac:(repeat split; try reflexivity; right; reflexivity)
              eq_refl) as (state & Hrun & _).
  rewrite Hrun. reflexivity.
Defined.

(** X20 at [app1], whose properties leave the addresses out: the data
    source lists one empty address, the resource has no list. *)
Lemma Linux_outbound_address_list_witness :
  let remote := deployed (Some true) in
  let cfg := (WebApps_GetConfiguration remote "rg1" "app1").1 in
  let auth := (WebApps_GetAuthSettings remote "rg1" "app1").1 in
  let backup := (WebApps_GetBackupConfiguration remote "rg1" "app1").1 in
  let logsConfig :=
    (WebApps_GetDiagnosticLogsConfiguration remote "rg1" "app1").1 in
  let appSettings := (WebApps_ListApplicationSettings remote "rg1" "app1").1 in
  let storage := (WebApps_ListAzureStorageAccounts remote "rg1" "app1").1 in
  let connections := (WebApps_ListConnectionStrings remote "rg1" "app1").1 in
  let credentials :=
    (ListPublishingCredentialsFuture_Result
       (WebApps_ListPublishingCredentials remote "rg1" "app1").1).1 in
  Linux.OutboundIPAddressList
    (Linux.Read_state hp1 linux_app bare_site
       (Some (properties_without_addresses, (false, false, true, true)))
       cfg auth backup logsConfig appSettings storage connections credentials)
  = Some [""]
  ∧ Windows.OutboundIPAddressList
      (Windows.Read_state hp1 app1 bare_site properties_without_addresses
         cfg auth backup logsConfig appSettings storage connections
         credentials "")
    = None.
Proof.
  intros remote cfg auth backup logsConfig appSettings storage connections
    credentials.
  exact (proj2 (proj2 (proj1
           (Linux_outbound_address_list hp1 linux_app bare_site
              properties_without_addresses (false, false, true, true)
              cfg auth backup logsConfig appSettings storage connections
              credentials app1 "")))
           eq_refl eq_refl).
Defined.

(** X21 at [app1] without settings, with [app_settings] changed: [Update]
    panics after the update of the site. *)
Lemma nil_app_settings_guarded_in_Create_only_witness :
  Windows.Update hp1 (fresh_bare ["app_settings"]) initial
  = (Panic,
     (Windows.Update_primary hp1 (fresh_bare ["app_settings"]) initial).2).
Proof.
  refine (proj2 (nil_app_settings_guarded_in_Create_only hp1
                   (fresh_bare []) (fresh_bare ["app_settings"])
                   windows_app_bare app1 app1 (Some app1)
                   (Windows.Create_primary hp1 (fresh_bare []) initial).2
                   (Windows.Update_primary hp1 (fresh_bare ["app_settings"])
                      initial).2
                   {| web.SiteAuthSettings_Response := None;
                      web.SiteAuthSettings_Properties := None |}
                   {| web.SiteLogsConfig_Response := None;
                      web.SiteLogsConfig_Properties := None |}
                   {| web.BackupRequest_Response := None;
                      web.BackupRequest_Properties := None |}
                   {| web.AzureStoragePropertyDictionaryResource_Response := None;
                      web.AzureStoragePropertyDictionaryResource_Properties :=
                        None |}
                   {| web.ConnectionStringDictionary_Response := None;
                      web.ConnectionStringDictionary_Properties := None |}
                   eq_refl) _ eq_refl).
  vm_compute. reflexivity.
Defined.

(** X24 at [custom_domain_verification_id]: sensitive in the data source
    as in the resource. *)
Lemma Linux_schema_types_agree_witness :
  ∃ dataSource,
    LinuxWebAppDataSource.Attributes schemas
      !! "custom_domain_verification_id" = Some dataSource
    ∧ pluginsdk.Sensitive dataSource = true.
Proof.
  eexists. split; [reflexivity|].
  exact (proj2 (proj2 (proj2 (proj2 (proj2 (proj2 (proj2 (proj2
           (Linux_schema_types_agree schemas "custom_domain_verification_id"
              _ _ ltac:(apply (bool_decide_unpack _); vm_compute; exact I) eq_refl eq_refl))))))))).
Defined.

(** X25 at [client_cert_mode]: the default is a string. *)
Lemma Windows_schema_consistent_witness :
  ∃ s,
    WindowsWebAppResource.Arguments schemas !! "client_cert_mode" = Some s
    ∧ default_has_type s.
Proof.
  eexists. split; [reflexivity|].
  exact (proj1 (proj2 (proj2 (proj2
           (proj1 (Windows_schema_consistent schemas "client_cert_mode" _
                     ltac:(apply (bool_decide_unpack _); vm_compute; exact I)) eq_refl))))).
Defined.

(** X26 at [app1]: a change of [kind], which is no argument, does not
    show in the run of [Update]. *)
Lemma Update_consults_argument_changes_only_witness :
  Windows.Update hp1
    (with_changes (fresh []) (λ key, bool_decide (key ∈ ["logs"; "kind"])))
    initial
  = Windows.Update hp1
      (with_changes (fresh []) (λ key, bool_decide (key ∈ ["logs"])))
      initial.
Proof.
  refine (Update_consults_argument_changes_only hp1 schemas (fresh [])
            (λ key, bool_decide (key ∈ ["logs"; "kind"]))
            (λ key, bool_decide (key ∈ ["logs"])) initial _).
  intros key Hargument. apply bool_decide_ext.
  destruct (decide (key = "kind")) as [->|Hother].
  - vm_compute in Hargument. destruct Hargument as [s Hs]. discriminate Hs.
  - rewrite !elem_of_cons, elem_of_nil. tauto.
Defined.
